(** * Scorecard retrieval, normalisation, ranking and layout:
      a shallow embedding of the weekly cricket graphics pipeline.

    The development follows the Python sources
    - [scorecard_api.py]   (class [ScorecardAPICall]),
    - [main.py]            (function [main]),
    - [data_processing.py] (class [SponsorDataProcessor]),
    - [image_generation.py] (class [PerformanceImageGenerator]),
    - [scorecard_scraper.py] (class [MatchIDExtractor]).

    Modelling conventions.
    - A parsed JSON document is a value of [json]; Python's [None] is [JNull].
    - Numbers are exact rationals ([Q]).  Binary floating-point rounding is
      not represented, nor are the non-finite floats, which JSON does not
      have; an [int] and the [float] of the same value are the same number,
      as they are for Python's [==] and for dictionary keys.  A statement
      that a division returns is made for figures within the range of a
      double ([figures_in_range]), outside of which Python raises
      [OverflowError].
    - A Python [str] is the byte string of its UTF-8 encoding.  The blanks
      that [strip] removes are the ASCII ones; a statement that depends on
      what is stripped is made for ASCII text ([is_ascii]).
    - A raised exception is a value [Raise e] of the type [result]; the
      sequencing of statements is the bind of that monad.
    - A [for] loop that appends to lists is a left fold threading the lists. *)

From Stdlib Require Import String Ascii List Bool Arith ZArith QArith Qround Lia.
From Stdlib Require Import Qabs Lqa Permutation Sorted.
From Stdlib Require Import Floats Uint63 DecimalString.
Import ListNotations.

Close Scope Q_scope.
Local Open Scope string_scope.
Local Open Scope list_scope.

Set Implicit Arguments.

(** ** Exceptions and the error monad *)

(** The exception classes that the modelled code can raise.  All of them
    derive from Python's [Exception], so an [except Exception] clause
    catches every one; [UnboundLocalError] is the subclass of [NameError]
    raised when a local name is read before any assignment. *)
Inductive exn : Type :=
| HTTPError
| JSONDecodeError
| ValueError
| AttributeError
| TypeError
| KeyError
| IndexError
| UnboundLocalError
| ZeroDivisionError.

Definition is_NameError (e : exn) : bool :=
  match e with UnboundLocalError => true | _ => false end.

Inductive result (A : Type) : Type :=
| Ok (a : A)
| Raise (e : exn).

Arguments Ok {A} a.
Arguments Raise {A} e.

Definition bind {A B : Type} (c : result A) (k : A -> result B) : result B :=
  match c with
  | Ok a => k a
  | Raise e => Raise e
  end.

Declare Scope py_scope.
Delimit Scope py_scope with py.
Notation "x <- c ;; k" := (bind c (fun x => k))
  (at level 61, c at next level, right associativity) : py_scope.
Notation "' p <- c ;; k" := (bind c (fun x => match x with p => k end))
  (at level 61, p pattern, c at next level, right associativity) : py_scope.
Local Open Scope py_scope.

(** [for x in l: s = f s x], stopping at the first exception. *)
Fixpoint for_each {A S : Type} (f : S -> A -> result S) (l : list A) (s : S)
  : result S :=
  match l with
  | [] => Ok s
  | x :: l' => s' <- f s x ;; for_each f l' s'
  end.

(** ** JSON values and the Python operations used on them *)

#[warnings="-register-all"]
Inductive json : Type :=
| JNull
| JBool (b : bool)
| JNum (q : Q)
| JStr (s : string)
| JArr (l : list json)
| JObj (kvs : list (string * json)).

(** A dictionary is an association list; the first binding of a key is the
    one that counts. *)
Definition dict : Type := list (string * json).

Fixpoint lookup (k : string) (d : dict) : option json :=
  match d with
  | [] => None
  | (k', v) :: d' => if String.eqb k k' then Some v else lookup k d'
  end.

Definition has_key (k : string) (d : dict) : bool :=
  match lookup k d with Some _ => true | None => false end.

Definition keys (d : dict) : list string :=
  nodup string_dec (map fst d).

(** [d.get(k, default)]: only dictionaries have the method. *)
Definition py_get (o : json) (k : string) (default : json) : result json :=
  match o with
  | JObj d => Ok (match lookup k d with Some v => v | None => default end)
  | _ => Raise AttributeError
  end.

(** [d[k]] *)
Definition py_getitem (o : json) (k : string) : result json :=
  match o with
  | JObj d => match lookup k d with Some v => Ok v | None => Raise KeyError end
  | _ => Raise TypeError
  end.

(** Truth value of an object, as tested by [if x] and [not x]. *)
Definition truthy (v : json) : bool :=
  match v with
  | JNull => false
  | JBool b => b
  | JNum q => negb (Qeq_bool q 0%Q)
  | JStr s => negb (String.eqb s "")
  | JArr l => match l with [] => false | _ => true end
  | JObj d => match d with [] => false | _ => true end
  end.

(** *** Strings *)

(** [pat in s] for two strings. *)
Fixpoint contains (pat s : string) : bool :=
  String.prefix pat s
  || match s with
     | EmptyString => false
     | String _ s' => contains pat s'
     end.

(** [s.replace(old, "")]: the occurrences of [old] are removed left to
    right without overlap; [skip] counts the characters of the current
    occurrence still to be dropped.  With [old] empty the string is
    returned unchanged. *)
Fixpoint remove_from (skip : nat) (old s : string) : string :=
  match s with
  | EmptyString => EmptyString
  | String c s' =>
      match skip with
      | S k => remove_from k old s'
      | O =>
          if String.prefix old s
          then remove_from (String.length old - 1) old s'
          else String c (remove_from 0 old s')
      end
  end.

Definition str_remove (old s : string) : string :=
  match old with
  | EmptyString => s
  | _ => remove_from 0 old s
  end.

(** The ASCII characters for which [str.isspace] holds.  The blanks outside
    ASCII are multi-byte in UTF-8 and are not stripped by this model. *)
Definition is_space (c : ascii) : bool :=
  let n := nat_of_ascii c in
  (Nat.leb 9 n && Nat.leb n 13) || (Nat.leb 28 n && Nat.leb n 32).

Fixpoint lstrip (s : string) : string :=
  match s with
  | EmptyString => EmptyString
  | String c s' => if is_space c then lstrip s' else s
  end.

Fixpoint rev_string (acc s : string) : string :=
  match s with
  | EmptyString => acc
  | String c s' => rev_string (String c acc) s'
  end.

Definition rstrip (s : string) : string :=
  rev_string "" (lstrip (rev_string "" s)).

(** [s.strip()] *)
Definition strip (s : string) : string := rstrip (lstrip s).

(** Text made of ASCII characters only.  On such text the blanks, letters
    and digits that this model knows are all those that Python knows. *)
Definition is_ascii (s : string) : bool :=
  forallb (fun c => Nat.ltb (nat_of_ascii c) 128) (list_ascii_of_string s).

(** *** Containers *)

Definition json_is_str (s : string) (v : json) : bool :=
  match v with JStr s' => String.eqb s s' | _ => false end.

(** [s in v] for a string [s]: key membership for a dictionary, element
    membership for a list, substring test for a string; other objects are
    not containers. *)
Definition py_in (s : string) (v : json) : result bool :=
  match v with
  | JObj d => Ok (has_key s d)
  | JArr l => Ok (existsb (json_is_str s) l)
  | JStr t => Ok (contains s t)
  | _ => Raise TypeError
  end.

(** The items produced by [for x in v]. *)
Definition py_iter (v : json) : result (list json) :=
  match v with
  | JArr l => Ok l
  | JObj d => Ok (map JStr (keys d))
  | JStr s => Ok (map (fun c => JStr (String c "")) (list_ascii_of_string s))
  | _ => Raise TypeError
  end.

(** String methods called on an arbitrary object. *)
Definition py_str_method {A : Type} (f : string -> A) (v : json) : result A :=
  match v with
  | JStr s => Ok (f s)
  | _ => Raise AttributeError
  end.

(** *** Numbers *)

Definition as_number (v : json) : option Q :=
  match v with
  | JNum q => Some q
  | JBool b => Some (if b then 1 else 0)%Q
  | _ => None
  end.

(** Rounding to the nearest integer, halves to the even neighbour. *)
Definition round_half_even (q : Q) : Z :=
  let f := Qfloor q in
  match Qcompare (q - inject_Z f)%Q (1 # 2)%Q with
  | Lt => f
  | Gt => (f + 1)%Z
  | Eq => if Z.even f then f else (f + 1)%Z
  end.

(** Rounding to two decimal places.  (Python settles a tie on the binary
    value of the float; no statement below depends on how a tie falls.) *)
Definition round2 (q : Q) : Q :=
  Qred (Qmake (round_half_even (q * 100)%Q) 100).

(** [round(x, 2)] *)
Definition py_round2 (v : json) : result json :=
  match as_number v with
  | Some q => Ok (JNum (round2 q))
  | None => Raise TypeError
  end.

(** [a / b].  The quotient is exact.  Python raises [OverflowError] when an
    operand or the quotient does not fit a double; that case is not
    represented, and the statements below that a division returns are made
    for figures within [figures_in_range]. *)
Definition py_truediv (a b : json) : result Q :=
  match as_number a, as_number b with
  | Some x, Some y =>
      if Qeq_bool y 0%Q then Raise ZeroDivisionError else Ok (x / y)%Q
  | _, _ => Raise TypeError
  end.

(** ** Records and frames *)

(** The dictionary appended to [batting] by both parsers. *)
Module Batting.
Record t : Type := Build {
  PlayerTeamName : json;
  OppositionTeamName : json;
  PlayerName : json;
  Runs : json;
  Balls : json;
  Minutes : json;
  Fours : json;
  Sixes : json;
  StrikeRate : json;
  HowOut : json;
  IsDismissed : json
}.
End Batting.

(** The dictionary appended to [bowling] by both parsers. *)
Module Bowling.
Record t : Type := Build {
  PlayerTeamName : json;
  OppositionTeamName : json;
  PlayerName : json;
  Overs : json;
  Maidens : json;
  Runs : json;
  Wickets : json;
  Economy : json;
  Dots : json;
  Fours : json;
  Sixes : json;
  NoBalls : json;
  Wides : json
}.
End Bowling.

(** A [pandas.DataFrame] whose rows are records of type [R].  A frame built
    from an empty list of dictionaries, like [pd.DataFrame()], has no
    columns at all; a frame with columns may still have no rows. *)
Inductive DataFrame (R : Type) : Type :=
| NoColumns
| Frame (rows : list R).

Arguments NoColumns {R}.
Arguments Frame {R} rows.

(** [pd.DataFrame(records)] *)
Definition DataFrame_of {R : Type} (records : list R) : DataFrame R :=
  match records with
  | [] => NoColumns
  | _ => Frame records
  end.

(** [len(df)] *)
Definition len {R : Type} (df : DataFrame R) : nat :=
  match df with
  | NoColumns => 0
  | Frame rows => length rows
  end.

Definition frame_rows {R : Type} (df : DataFrame R) : list R :=
  match df with
  | NoColumns => []
  | Frame rows => rows
  end.

(** ** [ScorecardAPICall.nv_process_data] *)

Section Parsers.

Variable team_name : string.

(** [f"{self.team_name} {team_number}"] *)
Definition team_label (team_number : string) : string :=
  team_name ++ " " ++ team_number.

(** [label.replace(self.team_name, '').strip()] *)
Definition team_suffix (label : json) : result string :=
  py_str_method (fun s => strip (str_remove team_name s)) label.

Definition nv_batting_record (team_number : string) (opposition : json)
    (batsman : json) : result Batting.t :=
  name <- py_get batsman "PlayerName" JNull ;;
  runs0 <- py_get batsman "Runs" (JNum 0%Q) ;;
  runs <- py_round2 runs0 ;;
  balls <- py_get batsman "Balls" JNull ;;
  minutes <- py_get batsman "Minutes" JNull ;;
  fours <- py_get batsman "Fours" JNull ;;
  sixes <- py_get batsman "Sixes" JNull ;;
  strike_rate <- py_get batsman "StrikeRate" JNull ;;
  how_out <- py_get batsman "HowOut" JNull ;;
  is_dismissed <- py_get batsman "IsDismissed" JNull ;;
  Ok (Batting.Build (JStr team_number) opposition name runs balls minutes
        fours sixes strike_rate how_out is_dismissed).

Definition nv_bowling_record (team_number : string) (opposition : json)
    (bowler : json) : result Bowling.t :=
  name <- py_get bowler "PlayerName" JNull ;;
  overs <- py_get bowler "Overs" JNull ;;
  maidens <- py_get bowler "Maidens" JNull ;;
  runs <- py_get bowler "Runs" JNull ;;
  wickets <- py_get bowler "Wickets" JNull ;;
  economy <- py_get bowler "Economy" JNull ;;
  dots <- py_get bowler "Dots" JNull ;;
  fours <- py_get bowler "Fours" JNull ;;
  sixes <- py_get bowler "Sixes" JNull ;;
  no_balls <- py_get bowler "NoBalls" JNull ;;
  wides <- py_get bowler "Wides" JNull ;;
  Ok (Bowling.Build (JStr team_number) opposition name overs maidens runs
        wickets economy dots fours sixes no_balls wides).

(** [for x in o.get(key, [])] *)
Definition items_of (o : json) (key : string) : result (list json) :=
  v <- py_get o key (JArr []) ;; py_iter v.

(** [innings.get('BattingTeamName') == f"{self.team_name} {team_number}"] *)
Definition is_club_innings (team_number : string) (innings : json)
  : result bool :=
  v <- py_get innings "BattingTeamName" JNull ;;
  Ok (json_is_str (team_label team_number) v).

(** The body of the loop over the innings. *)
Definition nv_innings (team_number : string) (opposition : json)
    (acc : list Batting.t * list Bowling.t) (innings : json)
  : result (list Batting.t * list Bowling.t) :=
  let '(batting, bowling) := acc in
  club <- is_club_innings team_number innings ;;
  if club then
    card <- items_of innings "BattingCard" ;;
    batting' <- for_each (fun batting batsman =>
                  r <- nv_batting_record team_number opposition batsman ;;
                  Ok (batting ++ [r])) card batting ;;
    Ok (batting', bowling)
  else
    card <- items_of innings "BowlingCard" ;;
    bowling' <- for_each (fun bowling bowler =>
                  r <- nv_bowling_record team_number opposition bowler ;;
                  Ok (bowling ++ [r])) card bowling ;;
    Ok (batting, bowling').

(** The club's side of the fixture: the suffix left of its label once the
    club name is removed, and the other label as the opposition. *)
Definition nv_sides (team1 team2 : json) : result (string * json) :=
  in1 <- py_in team_name team1 ;;
  if in1 then
    team_number <- team_suffix team1 ;; Ok (team_number, team2)
  else
    team_number <- team_suffix team2 ;; Ok (team_number, team1).

(** The statements of [nv_process_data] before its loop: the team-number
    suffix and the opposition label of the fixture. *)
Definition nv_fixture (data : json) : result (string * json) :=
  match_ <- py_get data "Match" (JObj []) ;;
  team1 <- py_get match_ "Team1Name" (JStr "") ;;
  team2 <- py_get match_ "Team2Name" (JStr "") ;;
  nv_sides team1 team2.

Definition nv_records (data : json)
  : result (list Batting.t * list Bowling.t) :=
  ' (team_number, opposition) <- nv_fixture data ;;
  innings <- items_of data "Innings" ;;
  for_each (nv_innings team_number opposition) innings ([], []).

Definition nv_process_data (data : json)
  : result (DataFrame Batting.t * DataFrame Bowling.t) :=
  ' (batting, bowling) <- nv_records data ;;
  Ok (DataFrame_of batting, DataFrame_of bowling).

(** ** [ScorecardAPICall.results_vault_process_data] *)

(** The objects that can be dictionary keys. *)
Definition hashable (v : json) : bool :=
  match v with
  | JArr _ | JObj _ => false
  | _ => true
  end.

(** Equality of two keys: numbers and booleans compare by value. *)
Definition key_eqb (a b : json) : bool :=
  match as_number a, as_number b with
  | Some x, Some y => Qeq_bool x y
  | _, _ =>
      match a, b with
      | JNull, JNull => true
      | JStr s, JStr t => String.eqb s t
      | _, _ => false
      end
  end.

(** The dictionary [player_id_to_full_name], most recent binding first. *)
Definition name_map : Type := list (json * json).

Fixpoint name_lookup (k : json) (m : name_map) : option json :=
  match m with
  | [] => None
  | (k', v) :: m' => if key_eqb k k' then Some v else name_lookup k m'
  end.

(** [player_id_to_full_name[player["player_id"]] = full_player_name].
    The local name is unbound ([None]) until the assignment
    [player_id_to_full_name = {}] has run. *)
Definition store_name (m : option name_map) (player full_player_name : json)
  : result (option name_map) :=
  match m with
  | None => Raise UnboundLocalError
  | Some d =>
      player_id <- py_getitem player "player_id" ;;
      if hashable player_id
      then Ok (Some ((player_id, full_player_name) :: d))
      else Raise TypeError
  end.

(** [player_id_to_full_name.get(player_id, perf.get("player_name"))] *)
Definition resolve_name (m : option name_map) (perf player_id : json)
  : result json :=
  match m with
  | None => Raise UnboundLocalError
  | Some d =>
      own <- py_get perf "player_name" JNull ;;
      if hashable player_id
      then Ok (match name_lookup player_id d with
               | Some n => n
               | None => own
               end)
      else Raise TypeError
  end.

(** The first loop: every member of every team is entered in the map. *)
Definition build_names (teams : list json) (m : option name_map)
  : result (option name_map) :=
  for_each (fun m team =>
    members <- items_of team "TeamMembers" ;;
    for_each (fun m player =>
      full_player_name <- py_get player "player_name2" JNull ;;
      store_name m player full_player_name) members m) teams m.

(** [dismissal_text not in [None, "", "dnb", "no"]] *)
Definition is_dismissed (dismissal_text : json) : bool :=
  negb (match dismissal_text with
        | JNull => true
        | JStr s => String.eqb s "" || String.eqb s "dnb" || String.eqb s "no"
        | _ => false
        end).

Definition rv_batting_record (team_number : string) (opposition : json)
    (full_player_name perf : json) : result Batting.t :=
  runs <- py_get perf "runs" JNull ;;
  balls <- py_get perf "balls" JNull ;;
  minutes <- py_get perf "minutes" JNull ;;
  fours <- py_get perf "fours" JNull ;;
  sixes <- py_get perf "sixes" JNull ;;
  strike_rate <- py_get perf "strike_rate" JNull ;;
  how_out <- py_get perf "dismissal_text" JNull ;;
  Ok (Batting.Build (JStr team_number) opposition full_player_name runs balls
        minutes fours sixes strike_rate how_out
        (JBool (is_dismissed how_out))).

(** [round(runs / overs, 2) if overs else None] *)
Definition rv_economy (runs overs : json) : result json :=
  if truthy overs
  then q <- py_truediv runs overs ;; Ok (JNum (round2 q))
  else Ok JNull.

Definition rv_bowling_record (team_number : string) (opposition : json)
    (full_player_name perf : json) : result Bowling.t :=
  overs <- py_get perf "overs" (JNum 0%Q) ;;
  runs <- py_get perf "runs" (JNum 0%Q) ;;
  economy <- rv_economy runs overs ;;
  maidens <- py_get perf "maidens" JNull ;;
  wickets <- py_get perf "wickets" JNull ;;
  dots <- py_get perf "dot_balls" JNull ;;
  no_balls <- py_get perf "no_balls" JNull ;;
  wides <- py_get perf "wides" JNull ;;
  Ok (Bowling.Build (JStr team_number) opposition full_player_name overs
        maidens runs wickets economy dots JNull JNull no_balls wides).

(** The body of the loop over the performance entries of an innings. *)
Definition rv_perf (team_number : string) (opposition : json)
    (m : option name_map) (team_is_lightcliffe : bool)
    (acc : list Batting.t * list Bowling.t) (perf : json)
  : result (list Batting.t * list Bowling.t) :=
  let '(batting, bowling) := acc in
  player_id <- py_get perf "player_id" JNull ;;
  full_player_name <- resolve_name m perf player_id ;;
  type_ <- py_get perf "__type" (JStr "") ;;
  tag <- py_str_method (fun s => s) type_ ;;
  if String.prefix "Batting" tag && team_is_lightcliffe then
    r <- rv_batting_record team_number opposition full_player_name perf ;;
    Ok (batting ++ [r], bowling)
  else if String.prefix "Bowling" tag && negb team_is_lightcliffe then
    r <- rv_bowling_record team_number opposition full_player_name perf ;;
    Ok (batting, bowling ++ [r])
  else Ok (batting, bowling).

(** The body of the second loop over the teams. *)
Definition rv_team (team_number : string) (opposition : json)
    (m : option name_map) (acc : list Batting.t * list Bowling.t)
    (team : json) : result (list Batting.t * list Bowling.t) :=
  label <- py_get team "team_name" (JStr "") ;;
  team_is_lightcliffe <- py_in team_name label ;;
  innings <- items_of team "Innings" ;;
  for_each (fun acc inn =>
    perfs <- items_of inn "PlayerPerfs" ;;
    for_each (rv_perf team_number opposition m team_is_lightcliffe) perfs acc)
    innings acc.

(** The [if]/[else] on the home label.  The assignment
    [player_id_to_full_name = {}] sits in the [else] branch, so the name is
    bound only when the club is not the home side. *)
Definition rv_sides (team1 team2 : json)
  : result (string * json * option name_map) :=
  in1 <- py_in team_name team1 ;;
  if in1 then
    team_number <- team_suffix team1 ;; Ok (team_number, team2, None)
  else
    team_number <- team_suffix team2 ;; Ok (team_number, team1, Some []).

Definition rv_records (data : json)
  : result (list Batting.t * list Bowling.t) :=
  team1 <- py_get data "home_name" (JStr "") ;;
  team2 <- py_get data "away_name" (JStr "") ;;
  ' (team_number, opposition, unbound) <- rv_sides team1 team2 ;;
  teams <- items_of data "MatchTeams" ;;
  player_id_to_full_name <- build_names teams unbound ;;
  teams <- items_of data "MatchTeams" ;;
  for_each (rv_team team_number opposition player_id_to_full_name)
    teams ([], []).

Definition results_vault_process_data (data : json)
  : result (DataFrame Batting.t * DataFrame Bowling.t) :=
  ' (batting, bowling) <- rv_records data ;;
  Ok (DataFrame_of batting, DataFrame_of bowling).

(** ** [ScorecardAPICall.process_data] *)

Definition process_data (data : json)
  : result (DataFrame Batting.t * DataFrame Bowling.t) :=
  is_nv <- py_in "Match" data ;;
  if is_nv then nv_process_data data
  else
    is_rv <- py_in "MatchTeams" data ;;
    if is_rv then results_vault_process_data data
    else Ok (NoColumns, NoColumns).

End Parsers.

(** ** Sample payloads *)

Definition num (z : Z) : json := JNum (inject_Z z).

Module Sample.

Definition club : string := "Lightcliffe CC".

Definition nv_payload : json :=
  JObj [
    ("Match", JObj [("Team1Name", JStr "Lightcliffe CC 1st XI");
                    ("Team2Name", JStr "Bowling Old Lane CC 1st XI")]);
    ("Innings", JArr [
       JObj [("BattingTeamName", JStr "Lightcliffe CC 1st XI");
             ("BattingCard", JArr [
                JObj [("PlayerName", JStr "A Opener*"); ("Runs", num 80);
                      ("Balls", num 55); ("IsDismissed", JBool false)];
                JObj [("PlayerName", JStr "Extras"); ("Runs", num 12)]]);
             ("BowlingCard", JArr [
                JObj [("PlayerName", JStr "O Seamer"); ("Wickets", num 1)]])];
       JObj [("BattingTeamName", JStr "Bowling Old Lane CC 1st XI");
             ("BattingCard", JArr [
                JObj [("PlayerName", JStr "O Batter"); ("Runs", num 7)]]);
             ("BowlingCard", JArr [
                JObj [("PlayerName", JStr "B Spinner"); ("Overs", num 8);
                      ("Runs", num 21); ("Wickets", num 3)];
                JObj [("PlayerName", JStr "C Quick"); ("Overs", num 6);
                      ("Runs", num 30); ("Wickets", num 0)]])]])].

Definition rv_teams : json :=
  JArr [
    JObj [("team_name", JStr "Lightcliffe CC 2nd XI");
          ("TeamMembers", JArr [
             JObj [("player_id", num 11); ("player_name2", JStr "Alan Opener")]]);
          ("Innings", JArr [JObj [("PlayerPerfs", JArr [
             JObj [("__type", JStr "BattingPerf:#Rv"); ("player_id", num 11);
                   ("player_name", JStr "A Opener"); ("runs", num 45);
                   ("balls", num 30); ("dismissal_text", JStr "b Seamer")];
             JObj [("__type", JStr "BowlingPerf:#Rv"); ("player_id", num 11);
                   ("player_name", JStr "A Opener"); ("overs", num 4);
                   ("runs", num 17)]])]])];
    JObj [("team_name", JStr "Northowram CC 2nd XI");
          ("TeamMembers", JArr [
             JObj [("player_id", num 21); ("player_name2", JStr "Oscar Seamer")]]);
          ("Innings", JArr [JObj [("PlayerPerfs", JArr [
             JObj [("__type", JStr "BowlingPerf:#Rv"); ("player_id", num 21);
                   ("player_name", JStr "O Seamer"); ("overs", num 8);
                   ("runs", num 43); ("wickets", num 2)];
             JObj [("__type", JStr "BowlingPerf:#Rv"); ("player_id", num 22);
                   ("player_name", JStr "P Change"); ("overs", num 0);
                   ("runs", num 0)];
             JObj [("__type", JStr "BattingPerf:#Rv"); ("player_id", num 21);
                   ("player_name", JStr "O Seamer"); ("runs", num 3)]])]])]].

(** The club is the away side. *)
Definition rv_away_payload : json :=
  JObj [("home_name", JStr "Northowram CC 2nd XI");
        ("away_name", JStr "Lightcliffe CC 2nd XI");
        ("MatchTeams", rv_teams)].

(** The same fixture with the club as the home side. *)
Definition rv_home_payload : json :=
  JObj [("home_name", JStr "Lightcliffe CC 2nd XI");
        ("away_name", JStr "Northowram CC 2nd XI");
        ("MatchTeams", rv_teams)].

End Sample.

(** ** The upstream services and the request log *)

(** The HTTP requests issued by [ScorecardAPICall]. *)
Inductive request : Type :=
| GetNV (match_number : string)
| GetRVMapping (match_number : string) (api_header : option string)
| GetRVMatch (rv_match_id : json) (api_header : option string).

(** Code that talks to the network: it extends the log of requests sent so
    far and either returns or raises.  A request stays in the log when the
    call raises. *)
Definition io (A : Type) : Type := list request -> result A * list request.

Definition io_bind {A B : Type} (c : io A) (k : A -> io B) : io B :=
  fun log =>
    match c log with
    | (Ok a, log') => k a log'
    | (Raise e, log') => (Raise e, log')
    end.

Definition lift {A : Type} (r : result A) : io A := fun log => (r, log).

Notation "x <~ c ;; k" := (io_bind c (fun x => k))
  (at level 61, c at next level, right associativity) : py_scope.

(** [try: c  except Exception as e: h e] *)
Definition try_except {A : Type} (c : io A) (h : exn -> io A) : io A :=
  fun log =>
    match c log with
    | (Ok a, log') => (Ok a, log')
    | (Raise e, log') => h e log'
    end.

Fixpoint io_for_each {A S : Type} (f : S -> A -> io S) (l : list A) (s : S)
  : io S :=
  match l with
  | [] => lift (Ok s)
  | x :: l' => s' <~ f s x ;; io_for_each f l' s'
  end.

Section Scraper.

(** What the services answer: the outcome of [requests.get(...)],
    [raise_for_status()] and [.json()] for a request, given the requests
    made before it. *)
Variable respond : list request -> request -> result json.

Definition http_get_json (rq : request) : io json :=
  fun log => (respond log rq, log ++ [rq]).

(** The fields of a [ScorecardAPICall] object that the calls use. *)
Variable match_number : string.
Variable api_header : option string.

Definition nv_api_call : io json :=
  http_get_json (GetNV match_number).

Definition _get_match_id_results_vault : io json :=
  body <~ http_get_json (GetRVMapping match_number api_header) ;;
  lift (py_get body "object_id1" JNull).

Definition results_vault_api_call : io json :=
  rv_match_id <~ _get_match_id_results_vault ;;
  http_get_json (GetRVMatch rv_match_id api_header).

(** [ScorecardAPICall.get_scorecard] *)
Definition get_scorecard : io json :=
  try_except nv_api_call (fun _ => results_vault_api_call).

(** The two checks on the primary response in the loop of [main]. *)
Definition nv_checks (data : json) : result json :=
  missing <- (if negb (truthy data) then Ok true
              else b <- py_in "Match" data ;; Ok (negb b)) ;;
  if (missing : bool) then Raise ValueError
  else
    innings <- py_get data "Innings" JNull ;;
    if negb (truthy innings) then Raise ValueError else Ok data.

(** The check on the fallback response in the loop of [main]. *)
Definition rv_checks (data : json) : result json :=
  missing <- (if negb (truthy data) then Ok true
              else b <- py_in "MatchTeams" data ;; Ok (negb b)) ;;
  if (missing : bool) then Raise ValueError else Ok data.

(** The [try]/[except] of the loop body of [main]: [Some data] when the
    body goes on to [process_data], [None] when it reaches [continue]. *)
Definition fetch_match : io (option json) :=
  try_except
    (data <~ nv_api_call ;;
     data <~ lift (nv_checks data) ;;
     lift (Ok (Some data)))
    (fun _ =>
       try_except
         (data <~ results_vault_api_call ;;
          data <~ lift (rv_checks data) ;;
          lift (Ok (Some data)))
         (fun _ => lift (Ok None))).

End Scraper.

(** ** [SponsorDataProcessor] *)

(** A row of the selector's output: the record and the merged
    ["Sponsor Name"] cell. *)
Record Ranked (R : Type) : Type := MkRanked {
  row : R;
  Sponsor_Name : json
}.

Arguments MkRanked {R} row Sponsor_Name.
Arguments row {R} _.
Arguments Sponsor_Name {R} _.

(** The sponsor table [self.result]: its ["Player Name"] and
    ["Sponsor Name"] cells, row by row. *)
Definition roster : Type := list (json * json).

Definition is_null (v : json) : bool :=
  match v with JNull => true | _ => false end.

(** [self.df[["Player Name", "Sponsor Name"]].dropna()] *)
Definition dropna (rows : roster) : roster :=
  filter (fun e => negb (is_null (fst e)) && negb (is_null (snd e))) rows.

(** The dagger sign U+2020, three bytes in UTF-8. *)
Definition dagger : string :=
  String (ascii_of_nat 226) (String (ascii_of_nat 128)
    (String (ascii_of_nat 160) EmptyString)).

(** [re.sub(r"[*\u2020]", "", s)].  On well-formed UTF-8 removing the
    asterisks and then the encoded daggers removes exactly the two
    characters of the class. *)
Definition strip_markers (s : string) : string :=
  str_remove dagger (str_remove "*" s).

(** One cell through [.str.replace(r"[*\u2020]", "", regex=True)] and then
    [.replace("T Stead", "Ted Stead")].  The string accessor turns a cell
    that is not text into a missing value. *)
Definition normalise_name (v : json) : json :=
  match v with
  | JStr s =>
      let s' := strip_markers s in
      if String.eqb s' "T Stead" then JStr "Ted Stead" else JStr s'
  | _ => JNull
  end.

Definition is_text (v : json) : bool :=
  match v with JStr _ => true | _ => false end.

(** Whether a column accepts the [.str] accessor: it holds some text, or
    nothing but missing values.  (A column without text that mixes numbers
    with containers is decided by pandas's dtype inference; it is rejected
    here.) *)
Definition str_accessor_ok (cells : list json) : bool :=
  existsb is_text cells || forallb is_null cells.

(** [df["PlayerName"] = df["PlayerName"].str.replace(...)] followed by
    [df["PlayerName"] = df["PlayerName"].replace("T Stead", "Ted Stead")],
    for a frame whose name column is read by [get] and written by [set]. *)
Definition normalise_names {R : Type} (get : R -> json) (set : json -> R -> R)
    (df : DataFrame R) : result (list R) :=
  match df with
  | NoColumns => Raise KeyError
  | Frame rows =>
      if str_accessor_ok (map get rows)
      then Ok (map (fun r => set (normalise_name (get r)) r) rows)
      else Raise AttributeError
  end.

(** [~col.isin(["Extras", "Total"])] *)
Definition is_player (name : json) : bool :=
  negb (json_is_str "Extras" name || json_is_str "Total" name).

(** *** [sort_values] on two columns *)

(** Order of two cells of one kind: numbers by value, text by code. *)
Definition cell_compare (a b : json) : comparison :=
  match as_number a, as_number b with
  | Some x, Some y => Qcompare x y
  | _, _ =>
      match a, b with
      | JStr s, JStr t => String.compare s t
      | _, _ => Eq
      end
  end.

(** Order of two cells in a sort key: missing values go last whatever the
    direction ([na_position="last"]). *)
Definition key_compare (ascending : bool) (a b : json) : comparison :=
  match is_null a, is_null b with
  | true, true => Eq
  | true, false => Gt
  | false, true => Lt
  | false, false =>
      if ascending then cell_compare a b else CompOpp (cell_compare a b)
  end.

Definition is_number_or_null (v : json) : bool :=
  match as_number v with Some _ => true | None => is_null v end.

Definition is_text_or_null (v : json) : bool :=
  is_text v || is_null v.

(** A key column can be ordered when its values are all numbers or all
    text, missing values aside. *)
Definition sortable (cells : list json) : bool :=
  forallb is_number_or_null cells || forallb is_text_or_null cells.

(** Insertion of [x], which came before the rows of [l] in the frame, in
    front of the first row that does not precede it. *)
Fixpoint insert_row {R : Type} (leb : R -> R -> bool) (x : R) (l : list R)
  : list R :=
  match l with
  | [] => [x]
  | y :: l' => if leb x y then x :: l else y :: insert_row leb x l'
  end.

(** A stable sort: rows that compare equal keep their frame order. *)
Definition stable_sort {R : Type} (leb : R -> R -> bool) (l : list R)
  : list R :=
  fold_right (insert_row leb) [] l.

Definition rows_leb {R : Type} (k1 k2 : R -> json) (asc1 asc2 : bool)
    (r1 r2 : R) : bool :=
  match key_compare asc1 (k1 r1) (k1 r2) with
  | Lt => true
  | Gt => false
  | Eq =>
      match key_compare asc2 (k2 r1) (k2 r2) with
      | Gt => false
      | _ => true
      end
  end.

(** [df.sort_values([k1, k2], ascending=[asc1, asc2])] *)
Definition sort_values {R : Type} (k1 k2 : R -> json) (asc1 asc2 : bool)
    (rows : list R) : result (list R) :=
  if sortable (map k1 rows) && sortable (map k2 rows)
  then Ok (stable_sort (rows_leb k1 k2 asc1 asc2) rows)
  else Raise TypeError.

(** [df.head(6)] *)
Definition head6 {R : Type} (rows : list R) : list R := firstn 6 rows.

(** *** [merge] and [fillna] *)

(** [left.merge(result, left_on="PlayerName", right_on="Player Name",
    how="left").drop(columns=["Player Name"])]: every left row, in order,
    once per sponsor row with an equal name, or once with a missing sponsor
    when there is none. *)
Definition merge_left {R : Type} (name : R -> json) (sponsors : roster)
    (rows : list R) : list (Ranked R) :=
  flat_map (fun r =>
    match filter (fun e => key_eqb (name r) (fst e)) sponsors with
    | [] => [MkRanked r JNull]
    | matches => map (fun e => MkRanked r (snd e)) matches
    end) rows.

(** One cell through [fillna(value)]. *)
Definition fill (value : string) (v : json) : json :=
  match v with JNull => JStr value | _ => v end.

Definition fill_batting (value : string) (r : Batting.t) : Batting.t :=
  Batting.Build
    (fill value (Batting.PlayerTeamName r))
    (fill value (Batting.OppositionTeamName r))
    (fill value (Batting.PlayerName r))
    (fill value (Batting.Runs r))
    (fill value (Batting.Balls r))
    (fill value (Batting.Minutes r))
    (fill value (Batting.Fours r))
    (fill value (Batting.Sixes r))
    (fill value (Batting.StrikeRate r))
    (fill value (Batting.HowOut r))
    (fill value (Batting.IsDismissed r)).

(** [df.fillna(value)] on the merged batting frame: every column. *)
Definition fillna_frame (value : string) (t : Ranked Batting.t)
  : Ranked Batting.t :=
  MkRanked (fill_batting value (row t)) (fill value (Sponsor_Name t)).

(** [df["Sponsor Name"] = df["Sponsor Name"].fillna(value)] *)
Definition fillna_sponsor {R : Type} (value : string) (t : Ranked R)
  : Ranked R :=
  MkRanked (row t) (fill value (Sponsor_Name t)).

Definition set_batting_name (n : json) (r : Batting.t) : Batting.t :=
  Batting.Build (Batting.PlayerTeamName r) (Batting.OppositionTeamName r) n
    (Batting.Runs r) (Batting.Balls r) (Batting.Minutes r) (Batting.Fours r)
    (Batting.Sixes r) (Batting.StrikeRate r) (Batting.HowOut r)
    (Batting.IsDismissed r).

Definition set_bowling_name (n : json) (r : Bowling.t) : Bowling.t :=
  Bowling.Build (Bowling.PlayerTeamName r) (Bowling.OppositionTeamName r) n
    (Bowling.Overs r) (Bowling.Maidens r) (Bowling.Runs r) (Bowling.Wickets r)
    (Bowling.Economy r) (Bowling.Dots r) (Bowling.Fours r) (Bowling.Sixes r)
    (Bowling.NoBalls r) (Bowling.Wides r).

(** The batting frame after the filter, the sort and [head(6)]. *)
Definition select_batters (batting : list Batting.t)
  : result (list Batting.t) :=
  sorted <- sort_values Batting.Runs Batting.Balls false true
              (filter (fun r => is_player (Batting.PlayerName r)) batting) ;;
  Ok (head6 sorted).

(** The bowling frame after the filter, the sort and [head(6)]. *)
Definition select_bowlers (bowling : list Bowling.t)
  : result (list Bowling.t) :=
  sorted <- sort_values Bowling.Wickets Bowling.Runs false true
              (filter (fun r => is_player (Bowling.PlayerName r)) bowling) ;;
  Ok (head6 sorted).

(** [SponsorDataProcessor.data_wrangling], with [self.result],
    [self.batting_df] and [self.bowling_df] as arguments. *)
Definition data_wrangling (sponsors : roster)
    (batting_df : DataFrame Batting.t) (bowling_df : DataFrame Bowling.t)
  : result (list (Ranked Batting.t) * list (Ranked Bowling.t)) :=
  batting <- normalise_names Batting.PlayerName set_batting_name batting_df ;;
  bowling <- normalise_names Bowling.PlayerName set_bowling_name bowling_df ;;
  top_6_batters <- select_batters batting ;;
  let top_6_batters :=
    map (fillna_frame "Available To Sponsor")
      (merge_left Batting.PlayerName sponsors top_6_batters) in
  top_6_bowlers <- select_bowlers bowling ;;
  let top_6_bowlers :=
    map (fillna_sponsor "Available to Sponsor")
      (merge_left Bowling.PlayerName sponsors top_6_bowlers) in
  Ok (top_6_batters, top_6_bowlers).

(** ** [PerformanceImageGenerator]: the vertical positions *)

Definition start_y : Z := 374.
Definition end_y : Z := 1289.

(** [int(x)] of a rational: truncation towards zero. *)
Definition py_int (q : Q) : Z := Z.quot (Qnum q) (Zpos (Qden q)).

(** [int(start_y + i * (end_y - start_y) / (num_entries - 1))], with an
    exact quotient. *)
Definition y_position (num_entries i : nat) : result Z :=
  q <- py_truediv (num (Z.of_nat i * (end_y - start_y)))
                  (num (Z.of_nat num_entries - 1)) ;;
  Ok (py_int (inject_Z start_y + q)%Q).

Fixpoint all_ok {A : Type} (l : list (result A)) : result (list A) :=
  match l with
  | [] => Ok []
  | c :: l' => x <- c ;; xs <- all_ok l' ;; Ok (x :: xs)
  end.

(** [[int(...) for i in range(num_entries)]] *)
Definition y_positions (num_entries : nat) : result (list Z) :=
  all_ok (map (y_position num_entries) (seq 0 num_entries)).

(** *** The same expression in double precision *)

(** The float of a small non-negative integer (exact below [2^53]). *)
Definition float_of (z : Z) : float := PrimFloat.of_uint63 (Uint63.of_Z z).

(** [int(x)] of a finite float. *)
Definition int_of_float (x : float) : option Z :=
  match Prim2SF x with
  | S754_zero _ => Some 0%Z
  | S754_finite s m e =>
      let magnitude :=
        match e with
        | Z0 => Zpos m
        | Zpos p => Z.shiftl (Zpos m) (Zpos p)
        | Zneg p => Z.shiftr (Zpos m) (Zpos p)
        end in
      Some (if s then (- magnitude)%Z else magnitude)
  | _ => None
  end.

(** [int(start_y + i * (end_y - start_y) / (num_entries - 1))] as Python
    evaluates it for [num_entries > 1]: a true division of two integers,
    a float addition and a truncation. *)
Definition y_position_double (num_entries i : nat) : option Z :=
  int_of_float
    (PrimFloat.add (float_of start_y)
       (PrimFloat.div (float_of (Z.of_nat i * (end_y - start_y)))
                      (float_of (Z.of_nat num_entries - 1)))).

(** [generate_batting_image] and [generate_bowling_image] up to the list
    [y_positions]: [None] when the template image cannot be opened (the
    method prints and returns).  The calls into Pillow, that is the game
    week caption drawn before the list is computed and the drawing loop
    after it, are not modelled. *)
Definition image_positions (template_opens : bool) (num_entries : nat)
  : result (option (list Z)) :=
  if template_opens
  then ys <- y_positions num_entries ;; Ok (Some ys)
  else Ok None.

(** *** The date of the images and the game week *)

(** A date is its proleptic Gregorian ordinal, [date.toordinal()]: day 1 is
    the first of January of year 1.  The three definitions below are the
    library's conversion of a calendar date, used for the dates written in
    the source. *)
Definition is_leap (year : Z) : bool :=
  (year mod 4 =? 0)%Z
  && (negb (year mod 100 =? 0)%Z || (year mod 400 =? 0)%Z).

Definition days_before_year (year : Z) : Z :=
  let y := (year - 1)%Z in (y * 365 + y / 4 - y / 100 + y / 400)%Z.

Definition days_before_month (year month : Z) : Z :=
  (nth (Z.to_nat (month - 1))
       [0; 31; 59; 90; 120; 151; 181; 212; 243; 273; 304; 334] 0
   + (if (2 <? month) && is_leap year then 1 else 0))%Z.

(** [datetime(year, month, day).toordinal()] *)
Definition toordinal (year month day : Z) : Z :=
  (days_before_year year + days_before_month year month + day)%Z.

(** [date.weekday()]: Monday is 0 and Sunday is 6. *)
Definition weekday (ordinal : Z) : Z := ((ordinal + 6) mod 7)%Z.

(** [_get_last_saturday_date], as a date.  The method reads the clock
    twice; [today] is the date of both readings.  It returns the date as
    text in the format ["%d %b %Y"], which [game_week_image] parses back
    with the same format: the text carries the date and nothing else. *)
Definition _get_last_saturday_date (today : Z) : Z :=
  let days_since_saturday := ((weekday today - 5) mod 7)%Z in
  (today - days_since_saturday)%Z.

(** The number that [game_week_image] draws after ["Game Week "]. *)
Definition game_week (today : Z) : Z :=
  let date := _get_last_saturday_date today in
  let start_date := toordinal 2025 4 25 in
  let end_date := date in
  ((end_date - start_date) / 7 + 1)%Z.

(** *** The font of the sponsor line *)

(** [str.lower] on ASCII letters; bytes outside ASCII are left as they
    are. *)
Definition lower_char (c : ascii) : ascii :=
  let n := nat_of_ascii c in
  if Nat.leb 65 n && Nat.leb n 90 then ascii_of_nat (n + 32) else c.

Fixpoint lower (s : string) : string :=
  match s with
  | EmptyString => EmptyString
  | String c s' => String (lower_char c) (lower s')
  end.

(** [f" - {...['Sponsor Name'].values[i]}"] for a sponsor cell that is
    text. *)
Definition sponsor_name (cell : string) : string := " - " ++ cell.

(** [font_path if sponsor_name.strip().lower() != "- available to sponsor"
    else "Outfit-Light.ttf"], in both drawing loops. *)
Definition sponsor_font_path (font_path label : string) : string :=
  if negb (String.eqb (lower (strip label)) "- available to sponsor")
  then font_path
  else "Outfit-Light.ttf".

(** *** The score and the balls of a batting entry *)

(** [round(x)]: the nearest integer, halves to the even neighbour. *)
Definition py_round (v : json) : result Z :=
  match as_number v with
  | Some q => Ok (round_half_even q)
  | None => Raise TypeError
  end.

(** [str(n)], and [f"{n:.0f}"], of an integer. *)
Definition str_of_int (n : Z) : string := NilZero.string_of_int (Z.to_int n).

(** [f"{str(round(runs))}{'*' if not is_dismissed else ''}"] *)
Definition score_text (runs is_dismissed : json) : result string :=
  n <- py_round runs ;;
  Ok (str_of_int n ++ (if negb (truthy is_dismissed) then "*" else ""))%string.

(** [f"({round(balls):.0f})"] *)
Definition balls_text (balls : json) : result string :=
  n <- py_round balls ;; Ok ("(" ++ str_of_int n ++ ")")%string.

(** The two texts that the loop of [generate_batting_image] computes from
    numbers, in its order; the other texts of an entry are plain
    formatting. *)
Definition batting_figures (r : Batting.t) : result (string * string) :=
  score <- score_text (Batting.Runs r) (Batting.IsDismissed r) ;;
  balls <- balls_text (Batting.Balls r) ;;
  Ok (score, balls).

(** ** [MatchIDExtractor] *)

Module MatchIDExtractor.

(** [\d] on ASCII text. *)
Definition is_digit (c : ascii) : bool :=
  let n := nat_of_ascii c in Nat.leb 48 n && Nat.leb n 57.

(** The longest run of digits at the start of [s]. *)
Fixpoint digits_prefix (s : string) : string :=
  match s with
  | EmptyString => EmptyString
  | String c s' =>
      if is_digit c then String c (digits_prefix s') else EmptyString
  end.

(** What follows the literal [p] at the start of [s], when [s] starts with
    it. *)
Fixpoint strip_prefix (p s : string) : option string :=
  match p, s with
  | EmptyString, _ => Some s
  | String a p', String b s' =>
      if Ascii.eqb a b then strip_prefix p' s' else None
  | String _ _, EmptyString => None
  end.

(** A match of [/website/results/(\d+)] that starts at the first character
    of [s]: its group, the digits being taken greedily. *)
Definition match_result_id (s : string) : option string :=
  match strip_prefix "/website/results/" s with
  | Some rest =>
      match digits_prefix rest with
      | EmptyString => None
      | id => Some id
      end
  | None => None
  end.

(** [re.search(r'/website/results/(\d+)', href)]: the leftmost match, and
    of it [match.group(1)]; [None] when the pattern matches nowhere. *)
Fixpoint re_search (href : string) : option string :=
  match match_result_id href with
  | Some id => Some id
  | None =>
      match href with
      | EmptyString => None
      | String _ href' => re_search href'
      end
  end.

(** What the loop of [extract_match_ids] reads of one [div] of class
    [row] found by [soup.find_all]: its text, and the [href] of the anchor
    returned by [find("a", class_="link-scorecard", href=True)], if any. *)
Record row_div : Type := {
  get_text : string;
  scorecard_link : option string
}.

(** The body of the loop over the rows. *)
Definition extract_match_id (match_ids : list string) (match_div : row_div)
  : list string :=
  if negb (contains "Lightcliffe" (get_text match_div)) then match_ids
  else
    match scorecard_link match_div with
    | Some href =>
        match re_search href with
        | Some id => match_ids ++ [id]
        | None => match_ids
        end
    | None => match_ids
    end.

(** [extract_match_ids], on the rows of the parsed page. *)
Definition extract_match_ids (rows : list row_div) : list string :=
  fold_left extract_match_id rows [].

(** [get_match_ids]: [fetch_html] is the outcome of the request for the
    listing page and [find_all] the rows of a page's text. *)
Definition get_match_ids (fetch_html : result string)
    (find_all : string -> list row_div) : result (list string) :=
  html <- fetch_html ;; Ok (extract_match_ids (find_all html)).

(** The address loaded by [get_ias_api_header_from_match_page]. *)
Definition match_url (match_id : string) : string :=
  "https://lightcliffe.play-cricket.com/website/results/" ++ match_id.

End MatchIDExtractor.

(** ** [main] *)

(** Everything [main] reads from outside the process. *)
Record World : Type := {
  respond : list request -> request -> result json;
  get_match_ids : result (list string);
  get_ias_api_header_from_match_page : string -> result (option string);
  read_csv : result roster;
  batting_template_opens : bool;
  bowling_template_opens : bool
}.

(** How a run ends when no exception escapes: [main] returns its pair, or
    [load_sponsor_data] calls [exit()]. *)
Inductive outcome (A : Type) : Type :=
| Returned (a : A)
| Exited.

Arguments Returned {A} a.
Arguments Exited {A}.

Notation "' p <~ c ;; k" := (io_bind c (fun x => match x with p => k end))
  (at level 61, p pattern, c at next level, right associativity) : py_scope.

(** Reading a local name that may not have been assigned. *)
Definition read_local {A : Type} (v : option A) : result A :=
  match v with
  | Some a => Ok a
  | None => Raise UnboundLocalError
  end.

Definition no_columns {R : Type} (df : DataFrame R) : bool :=
  match df with NoColumns => true | Frame _ => false end.

(** [pd.concat(dfs, ignore_index=True)] for a non-empty list of frames. *)
Definition concat_frames {R : Type} (dfs : list (DataFrame R)) : DataFrame R :=
  if forallb no_columns dfs then NoColumns
  else Frame (flat_map frame_rows dfs).

(** [if dfs: table = pd.concat(dfs, ignore_index=True)]: the local name
    [table] afterwards. *)
Definition assign_if_any {R : Type} (dfs : list (DataFrame R))
  : option (DataFrame R) :=
  match dfs with
  | [] => None
  | _ => Some (concat_frames dfs)
  end.

Section Main.

Variable w : World.
Variable team_name : string.

(** The body of the loop over [match_numbers]. *)
Definition main_loop_body (api_header : option string)
    (acc : list (DataFrame Batting.t) * list (DataFrame Bowling.t))
    (match_number : string)
  : io (list (DataFrame Batting.t) * list (DataFrame Bowling.t)) :=
  let '(all_batting_dfs, all_bowling_dfs) := acc in
  fetched <~ fetch_match (respond w) match_number api_header ;;
  match fetched with
  | None => lift (Ok acc)
  | Some data =>
      ' (batting_df, bowling_df) <~ lift (process_data team_name data) ;;
      lift (Ok (all_batting_dfs ++ [batting_df],
                all_bowling_dfs ++ [bowling_df]))
  end.

(** Lines 28 to 63 of [main]: the loop, the two guarded concatenations and
    [print(batting_table)]. *)
Definition main_tables
  : io (option (DataFrame Batting.t) * option (DataFrame Bowling.t)) :=
  match_numbers <~ lift (get_match_ids w) ;;
  first <~ lift (match match_numbers with
                 | [] => Raise IndexError
                 | m :: _ => Ok m
                 end) ;;
  api_header <~ lift (get_ias_api_header_from_match_page w first) ;;
  ' (all_batting_dfs, all_bowling_dfs) <~
    io_for_each (main_loop_body api_header) match_numbers ([], []) ;;
  let batting_table := assign_if_any all_batting_dfs in
  let bowling_table := assign_if_any all_bowling_dfs in
  _ <~ lift (read_local batting_table) ;;
  lift (Ok (batting_table, bowling_table)).

Definition main
  : io (outcome (list (Ranked Batting.t) * list (Ranked Bowling.t))) :=
  ' (batting_table, bowling_table) <~ main_tables ;;
  batting_df <~ lift (read_local batting_table) ;;
  bowling_df <~ lift (read_local bowling_table) ;;
  match read_csv w with
  | Raise _ => lift (Ok Exited)
  | Ok df =>
      ' (top_6_batters, top_6_bowlers) <~
        lift (data_wrangling (dropna df) batting_df bowling_df) ;;
      _ <~ lift (image_positions (batting_template_opens w)
                   (length top_6_batters)) ;;
      _ <~ lift (image_positions (bowling_template_opens w)
                   (length top_6_bowlers)) ;;
      lift (Ok (Returned (top_6_batters, top_6_bowlers)))
  end.

End Main.

(** A world for the sample fixtures: the primary service answers the first
    match, fails on the second, and the fallback answers that one. *)
Module SampleWorld.

Definition answers (log : list request) (rq : request) : result json :=
  match rq with
  | GetNV m => if String.eqb m "7126243" then Ok Sample.nv_payload
               else Raise HTTPError
  | GetRVMapping m _ => Ok (JObj [("object_id1", num 991)])
  | GetRVMatch _ _ => Ok Sample.rv_away_payload
  end.

Definition sponsors : roster :=
  [(JStr "A Opener", JStr "Hill Top Bakery");
   (JStr "Oscar Seamer", JNull);
   (JStr "B Spinner", JStr "Crossroads Garage")].

Definition world : World :=
  {| respond := answers;
     get_match_ids := Ok ["7126243"; "7126244"];
     get_ias_api_header_from_match_page := fun _ => Ok (Some "token");
     read_csv := Ok sponsors;
     batting_template_opens := true;
     bowling_template_opens := true |}.

(** Only the second match was played: one batting record comes back. *)
Definition one_fixture : World :=
  {| respond := answers;
     get_match_ids := Ok ["7126244"];
     get_ias_api_header_from_match_page := fun _ => Ok (Some "token");
     read_csv := Ok sponsors;
     batting_template_opens := true;
     bowling_template_opens := true |}.

(** Every request fails. *)
Definition offline : World :=
  {| respond := fun _ _ => Raise HTTPError;
     get_match_ids := Ok ["7126243"; "7126244"];
     get_ias_api_header_from_match_page := fun _ => Ok None;
     read_csv := Ok sponsors;
     batting_template_opens := true;
     bowling_template_opens := true |}.

(** The listing page shows no match of the club. *)
Definition no_matches : World :=
  {| respond := fun _ _ => Raise HTTPError;
     get_match_ids := Ok [];
     get_ias_api_header_from_match_page := fun _ => Ok None;
     read_csv := Ok sponsors;
     batting_template_opens := true;
     bowling_template_opens := true |}.

End SampleWorld.

(** Two frames and a sponsor table for the selector. *)
Module SampleFrames.

Definition batter (name : string) (runs balls : json) : Batting.t :=
  Batting.Build (JStr "1st XI") (JStr "Northowram CC 1st XI") (JStr name)
    runs balls JNull JNull JNull JNull (JStr "c & b") (JBool true).

Definition bowler (name : string) (wickets runs : json) : Bowling.t :=
  Bowling.Build (JStr "1st XI") (JStr "Northowram CC 1st XI") (JStr name)
    (num 8) JNull runs wickets JNull JNull JNull JNull JNull JNull.

Definition batting_rows : list Batting.t :=
  [batter "A Opener" (num 50) (num 40);
   batter "B Hitter*" (num 80) (num 55);
   batter "Extras" (num 99) JNull;
   batter "C Anchor" (num 50) (num 30);
   batter "T Stead" (num 45) (num 30);
   batter "D Tail" (num 10) JNull;
   batter ("E Keeper" ++ dagger) (num 10) (num 4);
   batter "F Absent" JNull JNull;
   batter "G Duck" (num 0) (num 1);
   batter "Total" (num 300) (num 240)].

Definition bowling_rows : list Bowling.t :=
  [bowler "O Seamer" (num 2) (num 43);
   bowler "P Change" (num 2) (num 12);
   bowler "Q Spin" (num 5) (num 29)].

Definition sponsors : roster :=
  [(JStr "Ted Stead", JStr "Hill Top Bakery");
   (JStr "B Hitter", JStr "Crossroads Garage");
   (JStr "R Resting", JStr "Corner Shop");
   (JStr "Q Spin", JStr "Valley Motors");
   (JStr "P Change", JNull)].

(** The same table with one player entered twice. *)
Definition sponsors_twice : roster :=
  (JStr "B Hitter", JStr "Moor End Dairy") :: sponsors.

Definition top_6 : list (Ranked Batting.t) * list (Ranked Bowling.t) :=
  match data_wrangling (dropna sponsors) (Frame batting_rows)
          (Frame bowling_rows) with
  | Ok p => p
  | Raise _ => ([], [])
  end.

End SampleFrames.

(** ** Vocabulary of the statements *)

(** *** Card entries of a primary-service payload *)

Definition innings_of (data : json) : list json :=
  match items_of data "Innings" with Ok l => l | Raise _ => [] end.

Definition card_entries (innings : json) (card : string) : nat :=
  match items_of innings card with Ok l => length l | Raise _ => 0 end.

(** Whether the innings is the club's batting innings, for a given
    team-number suffix. *)
Definition club_bats (team_name team_number : string) (innings : json)
  : bool :=
  match is_club_innings team_name team_number innings with
  | Ok b => b
  | Raise _ => false
  end.

(** Entries of the batting cards of the club's batting innings. *)
Definition batting_card_entries (team_name team_number : string)
    (data : json) : nat :=
  list_sum (map (fun inn =>
    if club_bats team_name team_number inn
    then card_entries inn "BattingCard" else 0) (innings_of data)).

(** Entries of the bowling cards of every other innings. *)
Definition bowling_card_entries (team_name team_number : string)
    (data : json) : nat :=
  list_sum (map (fun inn =>
    if club_bats team_name team_number inn
    then 0 else card_entries inn "BowlingCard") (innings_of data)).

(** A payload of the primary service with the types of its interface: team
    labels are text, the innings and their cards are arrays of objects, and
    a batting entry's runs, when given, are a number. *)
Definition is_obj (v : json) : bool :=
  match v with JObj _ => true | _ => false end.

Definition absent_or (check : json -> bool) (d : dict) (k : string) : bool :=
  match lookup k d with
  | None => true
  | Some v => check v
  end.

Definition array_of (check : json -> bool) (v : json) : bool :=
  match v with JArr l => forallb check l | _ => false end.

Definition batting_entry_ok (v : json) : bool :=
  match v with
  | JObj d => absent_or (fun r => match as_number r with
                                  | Some _ => true
                                  | None => false
                                  end) d "Runs"
  | _ => false
  end.

Definition innings_ok (v : json) : bool :=
  match v with
  | JObj d =>
      absent_or (array_of batting_entry_ok) d "BattingCard"
      && absent_or (array_of is_obj) d "BowlingCard"
  | _ => false
  end.

Definition match_ok (v : json) : bool :=
  match v with
  | JObj m => absent_or is_text m "Team1Name" && absent_or is_text m "Team2Name"
  | _ => false
  end.

Definition nv_well_formed (data : json) : bool :=
  match data with
  | JObj d =>
      absent_or match_ok d "Match"
      && absent_or (array_of innings_ok) d "Innings"
  | _ => false
  end.

(** *** Bowling figures of a fallback-service record *)

(** [e] is [q] rounded to two decimal places: a whole number of hundredths
    at most half a hundredth away from [q]. *)
Definition rounded_to_hundredths (q e : Q) : Prop :=
  (exists n : Z, (e == n # 100)%Q) /\ (Qabs (e - q) <= 1 # 200)%Q.

(** What a bowling record of the fallback parser must satisfy: no boundary
    counts, no economy for zero overs, and the quotient of runs by overs
    rounded to two decimal places otherwise. *)
Definition economy_as_specified (r : Bowling.t) : Prop :=
  Bowling.Fours r = JNull /\
  Bowling.Sixes r = JNull /\
  (forall o, as_number (Bowling.Overs r) = Some o -> (o == 0)%Q ->
     Bowling.Economy r = JNull) /\
  (forall o x, as_number (Bowling.Overs r) = Some o -> (0 < o)%Q ->
     as_number (Bowling.Runs r) = Some x ->
     exists e, Bowling.Economy r = JNum e /\
               rounded_to_hundredths (x / o) e).

(** *** Loops and names *)

(** The body of a loop that appends the record made from each item. *)
Definition append_one {A R : Type} (mk : A -> result R) (acc : list R)
    (x : A) : result (list R) :=
  r <- mk x ;; Ok (acc ++ [r]).

(** The player id has a name in the (bound) map. *)
Definition has_name (player_id : json) (o : option name_map) : Prop :=
  exists m n, o = Some m /\ name_lookup player_id m = Some n.

(** The body of the loop over the members of a team's roster. *)
Definition enter_member (m : option name_map) (player : json)
  : result (option name_map) :=
  full_player_name <- py_get player "player_name2" JNull ;;
  store_name m player full_player_name.

(** *** Acceptance of the two responses *)

(** The primary response is an object with the key ["Match"] and a true
    (for a collection: non-empty) value under ["Innings"]. *)
Definition primary_accepted (data : json) : Prop :=
  exists d, data = JObj d /\ has_key "Match" d = true /\
            exists innings, lookup "Innings" d = Some innings /\
                            truthy innings = true.

(** The fallback response is true and passes the test
    ["MatchTeams" in data]. *)
Definition fallback_accepted (data : json) : Prop :=
  truthy data = true /\ py_in "MatchTeams" data = Ok true.

(** The requests of one fallback attempt: the id mapping and, when that
    call returned, the match itself. *)
Definition fallback_attempt (match_number : string)
    (api_header : option string) (reqs : list request) : Prop :=
  reqs = [GetRVMapping match_number api_header] \/
  exists rv_match_id,
    reqs = [GetRVMapping match_number api_header;
            GetRVMatch rv_match_id api_header].

Section FetchOutcomes.

Variable respond : list request -> request -> result json.
Variable match_number : string.
Variable api_header : option string.
Variable log : list request.

(** The fetch ended with the primary response: it arrived, it was
    accepted, and nothing was requested after it. *)
Definition primary_taken (fetched : option json) (reqs : list request)
  : Prop :=
  exists data,
    respond log (GetNV match_number) = Ok data /\
    primary_accepted data /\ fetched = Some data /\ reqs = [].

(** The fetch fell back: the primary call raised or its response was not
    accepted; the requests that followed are those of one fallback attempt
    and none of them is the primary request; and data is handed on only
    when it is the accepted response of the fallback's match request. *)
Definition fell_back (fetched : option json) (reqs : list request) : Prop :=
  (forall data, respond log (GetNV match_number) = Ok data ->
                ~ primary_accepted data) /\
  fallback_attempt match_number api_header reqs /\
  ~ In (GetNV match_number) reqs /\
  (forall data, fetched = Some data ->
     fallback_accepted data /\
     exists rv_match_id,
       reqs = [GetRVMapping match_number api_header;
               GetRVMatch rv_match_id api_header] /\
       respond (log ++ [GetNV match_number;
                        GetRVMapping match_number api_header])
               (GetRVMatch rv_match_id api_header) = Ok data).

End FetchOutcomes.

(** *** Ranking *)

(** The number a cell ranks by; a missing value, like any cell that is not
    a number, has none and ranks last. *)
Definition rank (v : json) : option Q := as_number v.

(** [a] is strictly better than [b] in a descending key. *)
Definition outranks (a b : option Q) : Prop :=
  match a, b with
  | Some x, Some y => (y < x)%Q
  | Some _, None => True
  | None, _ => False
  end.

(** [a] and [b] tie. *)
Definition level (a b : option Q) : Prop :=
  match a, b with
  | Some x, Some y => (x == y)%Q
  | None, None => True
  | _, _ => False
  end.

(** [a] is not after [b] in an ascending key. *)
Definition not_above (a b : option Q) : Prop :=
  match a, b with
  | Some x, Some y => (x <= y)%Q
  | _, None => True
  | None, Some _ => False
  end.

(** [r1] may stand before [r2]: a better first key (descending), or a tie
    on it and a second key (ascending) that is not larger. *)
Definition ranked_before {R : Type} (k1 k2 : R -> json) (r1 r2 : R) : Prop :=
  outranks (rank (k1 r1)) (rank (k1 r2)) \/
  (level (rank (k1 r1)) (rank (k1 r2)) /\
   not_above (rank (k2 r1)) (rank (k2 r2))).

(** Runs descending, then balls ascending. *)
Definition batting_order : Batting.t -> Batting.t -> Prop :=
  ranked_before Batting.Runs Batting.Balls.

(** Wickets descending, then runs ascending. *)
Definition bowling_order : Bowling.t -> Bowling.t -> Prop :=
  ranked_before Bowling.Wickets Bowling.Runs.

(** [selected] is a best six of [qualifying]: it has six rows, or all of
    them when there are fewer; it is in ranking order; and the rows left
    out all rank after the rows selected. *)
Definition top_six {R : Type} (order : R -> R -> Prop)
    (qualifying selected : list R) : Prop :=
  length selected = Nat.min 6 (length qualifying) /\
  StronglySorted order selected /\
  exists rest,
    Permutation qualifying (selected ++ rest) /\
    forall s r, In s selected -> In r rest -> order s r.

(** The batting rows after the two name replacements. *)
Definition normalised_batting (rows : list Batting.t) : list Batting.t :=
  map (fun r => set_batting_name (normalise_name (Batting.PlayerName r)) r)
    rows.

Definition normalised_bowling (rows : list Bowling.t) : list Bowling.t :=
  map (fun r => set_bowling_name (normalise_name (Bowling.PlayerName r)) r)
    rows.

(** The rows that take part in the ranking. *)
Definition qualifying_batters (rows : list Batting.t) : list Batting.t :=
  filter (fun r => is_player (Batting.PlayerName r)) (normalised_batting rows).

Definition qualifying_bowlers (rows : list Bowling.t) : list Bowling.t :=
  filter (fun r => is_player (Bowling.PlayerName r)) (normalised_bowling rows).

(** The columns the selector reads have the types of the record schema:
    names are text, ranking keys are numbers, and either may be missing. *)
Definition batting_schema (rows : list Batting.t) : bool :=
  forallb (fun r => is_text_or_null (Batting.PlayerName r)
                    && is_number_or_null (Batting.Runs r)
                    && is_number_or_null (Batting.Balls r)) rows.

Definition bowling_schema (rows : list Bowling.t) : bool :=
  forallb (fun r => is_text_or_null (Bowling.PlayerName r)
                    && is_number_or_null (Bowling.Wickets r)
                    && is_number_or_null (Bowling.Runs r)) rows.

(** No player is listed twice in the sponsor table. *)
Definition unique_players (sponsors : roster) : bool :=
  forallb (fun e =>
    Nat.leb (length (filter (fun e' => key_eqb (fst e) (fst e')) sponsors)) 1)
    sponsors.

(** The two rows of a scorecard that are not players. *)
Definition aggregate_row (name : json) : Prop :=
  name = JStr "Extras" \/ name = JStr "Total".

Definition is_aggregate_row (name : json) : bool :=
  match name with
  | JStr s => String.eqb s "Extras" || String.eqb s "Total"
  | _ => false
  end.

(** The rows to rank: the rows of the frame, names cleaned, that are not
    aggregate rows. *)
Definition ranked_batters (rows : list Batting.t) : list Batting.t :=
  filter (fun r => negb (is_aggregate_row (Batting.PlayerName r)))
    (normalised_batting rows).

Definition ranked_bowlers (rows : list Bowling.t) : list Bowling.t :=
  filter (fun r => negb (is_aggregate_row (Bowling.PlayerName r)))
    (normalised_bowling rows).

(** *** The sponsor join *)

(** The frame [top_6_batters] before the merge: names normalised, rows
    filtered, sorted and cut to six. *)
Definition selected_batters (batting_df : DataFrame Batting.t)
  : result (list Batting.t) :=
  batting <- normalise_names Batting.PlayerName set_batting_name batting_df ;;
  select_batters batting.

Definition selected_bowlers (bowling_df : DataFrame Bowling.t)
  : result (list Bowling.t) :=
  bowling <- normalise_names Bowling.PlayerName set_bowling_name bowling_df ;;
  select_bowlers bowling.

(** The sponsor cell a player ends with: the placeholder when no row of the
    sponsor table carries the player's name, the sponsor of such a row
    otherwise. *)
Definition sponsor_given (placeholder : string) (sponsors : roster)
    (name sponsor : json) : Prop :=
  ((forall e, In e sponsors -> key_eqb name (fst e) = false) /\
   sponsor = JStr placeholder) \/
  (exists e, In e sponsors /\ key_eqb name (fst e) = true /\
             sponsor = snd e).



(** *** Fields and card entries *)

(** [o.get(k, default)], with [default] also where [o] has no such
    method. *)
Definition field_or (o : json) (k : string) (default : json) : json :=
  match py_get o k default with Ok v => v | Raise _ => default end.

(** [o.get(k)] *)
Definition field (o : json) (k : string) : json := field_or o k JNull.

(** The items of [o.get(key, [])], none when it cannot be iterated. *)
Definition entries (o : json) (key : string) : list json :=
  match items_of o key with Ok l => l | Raise _ => [] end.

(** The entries of the batting cards of the club's batting innings, in the
    order of the payload. *)
Definition club_batting_entries (team_name team_number : string)
    (data : json) : list json :=
  flat_map (fun inn =>
    if club_bats team_name team_number inn
    then entries inn "BattingCard" else []) (innings_of data).

(** The entries of the bowling cards of every other innings. *)
Definition other_bowling_entries (team_name team_number : string)
    (data : json) : list json :=
  flat_map (fun inn =>
    if club_bats team_name team_number inn
    then [] else entries inn "BowlingCard") (innings_of data).

(** The bowling record of a card entry: the two team labels and every
    statistic as the entry has it. *)
Definition bowling_of_entry (team_number : string) (opposition entry : json)
    (r : Bowling.t) : Prop :=
  r = Bowling.Build (JStr team_number) opposition
        (field entry "PlayerName") (field entry "Overs")
        (field entry "Maidens") (field entry "Runs")
        (field entry "Wickets") (field entry "Economy")
        (field entry "Dots") (field entry "Fours") (field entry "Sixes")
        (field entry "NoBalls") (field entry "Wides").

(** *** The club's innings, by their label *)

(** The innings is labelled for batting with the text [label]. *)
Definition batting_team_is (label : string) (innings : json) : bool :=
  match field innings "BattingTeamName" with
  | JStr s => String.eqb s label
  | _ => false
  end.

(** The entries under [card] of the innings that are labelled for batting
    with [label] ([labelled] true), or of all the other innings ([labelled]
    false), in the order of the payload. *)
Definition card_entries_where (labelled : bool) (label card : string)
    (data : json) : list json :=
  flat_map (fun inn =>
    if Bool.eqb (batting_team_is label inn) labelled
    then entries inn card else []) (innings_of data).

(** The two team labels of the fixture, where they are text, are ASCII
    text: [strip] then removes what Python's [str.strip] removes. *)
Definition ascii_text (v : json) : bool :=
  match v with JStr s => is_ascii s | _ => true end.

Definition nv_labels_ascii (data : json) : bool :=
  let fixture := field_or data "Match" (JObj []) in
  ascii_text (field fixture "Team1Name")
  && ascii_text (field fixture "Team2Name").

(** The batting record of a card entry, with the runs rounded to two
    decimal places however a tie falls: the two team labels, a whole number
    of hundredths within half a hundredth of the entry's runs (of 0 when
    the entry has none), and every other statistic as the entry has it. *)
Definition batting_record_of (team_number : string) (opposition entry : json)
    (r : Batting.t) : Prop :=
  exists runs e,
    as_number (field_or entry "Runs" (JNum 0%Q)) = Some runs /\
    rounded_to_hundredths runs e /\
    r = Batting.Build (JStr team_number) opposition
          (field entry "PlayerName") (JNum e)
          (field entry "Balls") (field entry "Minutes")
          (field entry "Fours") (field entry "Sixes")
          (field entry "StrikeRate") (field entry "HowOut")
          (field entry "IsDismissed").

(** *** Performance entries of a fallback-service payload *)

Definition is_number (v : json) : bool :=
  match as_number v with Some _ => true | None => false end.

(** The [__type] of a performance entry, empty when it has none. *)
Definition perf_type (perf : json) : string :=
  match field_or perf "__type" (JStr "") with
  | JStr s => s
  | _ => EmptyString
  end.

Definition has_type (tag : string) (perf : json) : bool :=
  String.prefix tag (perf_type perf).

(** Whether the club name occurs in the team's [team_name]. *)
Definition team_is_club (team_name : string) (team : json) : bool :=
  match field_or team "team_name" (JStr "") with
  | JStr s => contains team_name s
  | _ => false
  end.

(** The performance entries of all the innings of a team, in order. *)
Definition perfs_of (team : json) : list json :=
  flat_map (fun inn => entries inn "PlayerPerfs") (entries team "Innings").

(** The batting performances of the club's teams. *)
Definition rv_batting_entries (team_name : string) (data : json)
  : list json :=
  flat_map (fun team =>
    if team_is_club team_name team
    then filter (has_type "Batting") (perfs_of team) else [])
    (entries data "MatchTeams").

(** The bowling performances of the other teams. *)
Definition rv_bowling_entries (team_name : string) (data : json)
  : list json :=
  flat_map (fun team =>
    if team_is_club team_name team
    then [] else filter (has_type "Bowling") (perfs_of team))
    (entries data "MatchTeams").

(** A magnitude that a double holds. *)
Definition float_max : Q := inject_Z (2 ^ 1023).

Definition in_float_range (q : Q) : bool := Qle_bool (Qabs q) float_max.

(** The overs and the runs of a bowling performance, where they are
    numbers, and their quotient are within the range of a double: Python
    then converts and divides them without [OverflowError] and without an
    infinite result. *)
Definition figures_in_range (overs runs : json) : bool :=
  match as_number overs, as_number runs with
  | Some o, Some x =>
      in_float_range o && in_float_range x
      && (Qeq_bool o 0 || in_float_range (x / o))
  | _, _ => true
  end.

(** A payload of the fallback service with the types of its interface:
    labels and type tags are text, player ids are numbers or text, every
    roster member has an id, and the overs and runs of a bowling
    performance are numbers within the range of a double, as is their
    quotient (the overs may be missing). *)
Definition perf_ok (v : json) : bool :=
  match v with
  | JObj p =>
      absent_or hashable p "player_id"
      && absent_or is_text p "__type"
      && (negb (has_type "Bowling" v)
          || (absent_or is_number_or_null p "overs"
              && absent_or is_number p "runs"
              && figures_in_range (field_or v "overs" (JNum 0%Q))
                   (field_or v "runs" (JNum 0%Q))))
  | _ => false
  end.

Definition member_ok (v : json) : bool :=
  match v with
  | JObj p =>
      match lookup "player_id" p with
      | Some id => hashable id
      | None => false
      end
  | _ => false
  end.

Definition rv_innings_ok (v : json) : bool :=
  match v with
  | JObj i => absent_or (array_of perf_ok) i "PlayerPerfs"
  | _ => false
  end.

Definition team_ok (v : json) : bool :=
  match v with
  | JObj t =>
      absent_or is_text t "team_name"
      && absent_or (array_of member_ok) t "TeamMembers"
      && absent_or (array_of rv_innings_ok) t "Innings"
  | _ => false
  end.

Definition rv_well_formed (data : json) : bool :=
  match data with
  | JObj d =>
      absent_or is_text d "home_name"
      && absent_or is_text d "away_name"
      && absent_or (array_of team_ok) d "MatchTeams"
  | _ => false
  end.

(** Whether the club name occurs in [home_name]. *)
Definition club_at_home (team_name : string) (data : json) : bool :=
  match field_or data "home_name" (JStr "") with
  | JStr s => contains team_name s
  | _ => false
  end.

(** The id and the full name of a roster member. *)
Definition roster_entry (player : json) : json * json :=
  (field player "player_id", field player "player_name2").

(** The roster members of all the teams, in the order of the payload. *)
Definition roster_entries (teams : list json) : list (json * json) :=
  flat_map (fun team => map roster_entry (entries team "TeamMembers")) teams.

(** The name of the player of a performance entry: the full name that the
    roster map [m] holds for the entry's [player_id], and the entry's own
    [player_name] when the map holds none. *)
Definition name_of_perf (m : name_map) (perf : json) : json :=
  match name_lookup (field perf "player_id") m with
  | Some full_name => full_name
  | None => field perf "player_name"
  end.

(** The roster map of a payload: the members of all its teams, the most
    recent first. *)
Definition roster_map (data : json) : name_map :=
  rev (roster_entries (entries data "MatchTeams")).

(** The bowling performances of a payload, whatever the team. *)
Definition bowling_perfs (data : json) : list json :=
  filter (has_type "Bowling") (flat_map perfs_of (entries data "MatchTeams")).

(** The bowling record [r] carries the figures of the performance entry
    [perf]: its overs and runs (0 for an absent key), no boundary counts,
    no economy for zero overs, and for positive overs the quotient of the
    entry's runs by its overs rounded to two decimal places. *)
Definition figures_of_entry (perf : json) (r : Bowling.t) : Prop :=
  Bowling.Overs r = field_or perf "overs" (JNum 0%Q) /\
  Bowling.Runs r = field_or perf "runs" (JNum 0%Q) /\
  economy_as_specified r.

(** The overs of the entry are absent, or a zero. *)
Definition no_overs (perf : dict) : Prop :=
  lookup "overs" perf = None \/
  exists o, lookup "overs" perf = Some (JNum o) /\ (o == 0)%Q.

(** The overs of the entry are a positive number and its runs are absent
    or a number, within the range of a double. *)
Definition overs_bowled (perf : dict) (o x : Q) : Prop :=
  lookup "overs" perf = Some (JNum o) /\ (0 < o)%Q /\
  as_number (field_or (JObj perf) "runs" (JNum 0%Q)) = Some x /\
  figures_in_range (JNum o) (JNum x) = true.

(** *** Names and ties in the selector's output *)

(** A name without an asterisk that is not the short form ["T Stead"]. *)
Definition clean_name (n : string) : Prop :=
  contains "*" n = false /\ n <> "T Stead".

(** Two rows that compare equal on both sort keys. *)
Definition same_rank {R : Type} (k1 k2 : R -> json) (r0 r : R) : bool :=
  match key_compare false (k1 r0) (k1 r), key_compare true (k2 r0) (k2 r) with
  | Eq, Eq => true
  | _, _ => false
  end.

(** The cell holds text for which the drawing loops choose the light
    font. *)
Definition drawn_light (font_path : string) (cell : json) : Prop :=
  exists text,
    cell = JStr text /\
    sponsor_font_path font_path (sponsor_name text) = "Outfit-Light.ttf".

(** *** The requests of a run *)

Definition is_primary (rq : request) : bool :=
  match rq with GetNV _ => true | _ => false end.

(** A request that carries the header [x-ias-api-request] carries the
    value [api_header]. *)
Definition sent_with (api_header : option string) (rq : request) : Prop :=
  match rq with
  | GetNV _ => True
  | GetRVMapping _ h => h = api_header
  | GetRVMatch _ h => h = api_header
  end.

(** *** The parsed matches of a run *)

(** [parsed_in_order w team_name api_header match_numbers log frames log']:
    going through [match_numbers] from the log [log], the matches whose
    fetch hands on a payload are parsed, in the order of the listing, into
    the pairs of [frames]; a match whose fetch hands on nothing is passed
    over; the log ends as [log']. *)
Inductive parsed_in_order (w : World) (team_name : string)
    (api_header : option string)
  : list string -> list request ->
    list (DataFrame Batting.t * DataFrame Bowling.t) -> list request -> Prop :=
| parsed_none (log : list request) :
    parsed_in_order w team_name api_header [] log [] log
| parsed_skip (match_number : string) (match_numbers : list string)
    (log log1 log' : list request)
    (frames : list (DataFrame Batting.t * DataFrame Bowling.t)) :
    fetch_match (respond w) match_number api_header log = (Ok None, log1) ->
    parsed_in_order w team_name api_header match_numbers log1 frames log' ->
    parsed_in_order w team_name api_header (match_number :: match_numbers)
      log frames log'
| parsed_next (match_number : string) (match_numbers : list string)
    (log log1 log' : list request) (data : json)
    (batting_df : DataFrame Batting.t) (bowling_df : DataFrame Bowling.t)
    (frames : list (DataFrame Batting.t * DataFrame Bowling.t)) :
    fetch_match (respond w) match_number api_header log
    = (Ok (Some data), log1) ->
    process_data team_name data = Ok (batting_df, bowling_df) ->
    parsed_in_order w team_name api_header match_numbers log1 frames log' ->
    parsed_in_order w team_name api_header (match_number :: match_numbers)
      log ((batting_df, bowling_df) :: frames) log'.

(** *** Identifiers read off the listing page *)

Definition mentions_club (match_div : MatchIDExtractor.row_div) : bool :=
  contains "Lightcliffe" (MatchIDExtractor.get_text match_div).

(** [id] is a non-empty string of digits that follows [/website/results/]
    in the scorecard link of a row of [rows] that mentions the club. *)
Definition id_from_row (rows : list MatchIDExtractor.row_div) (id : string)
  : Prop :=
  id <> EmptyString /\
  forallb MatchIDExtractor.is_digit (list_ascii_of_string id) = true /\
  exists match_div href,
    In match_div rows /\
    mentions_club match_div = true /\
    MatchIDExtractor.scorecard_link match_div = Some href /\
    contains ("/website/results/" ++ id) href = true.

(** *** Further sample inputs *)

Module Edge.

(** A fixture in which the club's label is the bare club name. *)
Definition nv_bare_payload : json :=
  JObj [
    ("Match", JObj [("Team1Name", JStr "Lightcliffe CC");
                    ("Team2Name", JStr "Northowram CC")]);
    ("Innings", JArr [
       JObj [("BattingTeamName", JStr "Lightcliffe CC");
             ("BattingCard", JArr [
                JObj [("PlayerName", JStr "A Opener"); ("Runs", num 31)]]);
             ("BowlingCard", JArr [
                JObj [("PlayerName", JStr "O Seamer"); ("Wickets", num 1)]])];
       JObj [("BattingTeamName", JStr "Northowram CC");
             ("BowlingCard", JArr [
                JObj [("PlayerName", JStr "B Spinner"); ("Wickets", num 3)]])]])].

(** A card entry whose runs are present and missing. *)
Definition nv_null_runs_payload : json :=
  JObj [
    ("Match", JObj [("Team1Name", JStr "Lightcliffe CC 1st XI");
                    ("Team2Name", JStr "Northowram CC 1st XI")]);
    ("Innings", JArr [
       JObj [("BattingTeamName", JStr "Lightcliffe CC 1st XI");
             ("BattingCard", JArr [
                JObj [("PlayerName", JStr "A Opener"); ("Runs", num 31)];
                JObj [("PlayerName", JStr "D Tail"); ("Runs", JNull)]])]])].

(** A roster that lists one player id twice. *)
Definition rv_roster_twice : list json :=
  [JObj [("team_name", JStr "Lightcliffe CC 2nd XI");
         ("TeamMembers", JArr [
            JObj [("player_id", num 11); ("player_name2", JStr "Alan Opener")];
            JObj [("player_id", num 12); ("player_name2", JStr "Ben Keeper")]])];
   JObj [("team_name", JStr "Northowram CC 2nd XI");
         ("TeamMembers", JArr [
            JObj [("player_id", num 11);
                  ("player_name2", JStr "Alan J Opener")]])]].

(** A home fixture of the club that was not played: no roster and no
    performance entry. *)
Definition rv_home_abandoned : json :=
  JObj [("home_name", JStr "Lightcliffe CC 2nd XI");
        ("away_name", JStr "Northowram CC 2nd XI");
        ("MatchTeams", JArr [
           JObj [("team_name", JStr "Lightcliffe CC 2nd XI");
                 ("Innings", JArr [])];
           JObj [("team_name", JStr "Northowram CC 2nd XI");
                 ("Innings", JArr [JObj [("PlayerPerfs", JArr [])]])]])].

(** A week whose only fixture is a home match served by the fallback. *)
Definition home_world : World :=
  {| respond := fun _ rq =>
       match rq with
       | GetNV _ => Raise HTTPError
       | GetRVMapping _ _ => Ok (JObj [("object_id1", num 992)])
       | GetRVMatch _ _ => Ok Sample.rv_home_payload
       end;
     get_match_ids := Ok ["7126245"];
     get_ias_api_header_from_match_page := fun _ => Ok (Some "token");
     read_csv := Ok SampleWorld.sponsors;
     batting_template_opens := true;
     bowling_template_opens := true |}.

(** The rows of a listing page. *)
Definition listing_rows : list MatchIDExtractor.row_div :=
  [ {| MatchIDExtractor.get_text := "Lightcliffe CC 1st XI v Northowram";
       MatchIDExtractor.scorecard_link := Some "/website/results/7126243" |};
    {| MatchIDExtractor.get_text := "Fixtures";
       MatchIDExtractor.scorecard_link := Some "/website/results/1" |};
    {| MatchIDExtractor.get_text := "Lightcliffe CC 2nd XI - abandoned";
       MatchIDExtractor.scorecard_link := None |};
    {| MatchIDExtractor.get_text := "Northowram v Lightcliffe CC 2nd XI";
       MatchIDExtractor.scorecard_link :=
         Some "https://x.play-cricket.com/website/results/7126244?tab=1" |} ].

End Edge.

(** * Properties *)

(** ** The error monad and its loops *)

Lemma bind_ok {A B : Type} (c : result A) (k : A -> result B) (b : B) :
  bind c k = Ok b -> exists a, c = Ok a /\ k a = Ok b.
Proof.
  destruct c as [a | e]; simpl; intros H.
  - exists a. split; [reflexivity | exact H].
  - discriminate H.
Qed.

Lemma bind_raise {A B : Type} (c : result A) (k : A -> result B) (e : exn) :
  bind c k = Raise e ->
  c = Raise e \/ exists a, c = Ok a /\ k a = Raise e.
Proof.
  destruct c as [a | e']; simpl; intros H.
  - right. exists a. split; [reflexivity | exact H].
  - left. injection H as ->. reflexivity.
Qed.

(** Inversion of a successful chain of binds found in the context. *)
Ltac bind_inv H :=
  let a := fresh "v" in
  let E := fresh "E" in
  apply bind_ok in H; destruct H as [a [E H]].

Tactic Notation "bind_named" hyp(H) ident(a) ident(E) :=
  apply bind_ok in H; destruct H as [a [E H]].

Section ForEach.

Context {A S : Type}.
Variable f : S -> A -> result S.

(** A property kept by every iteration that returns holds when the loop
    returns. *)
Lemma for_each_invariant (P : S -> Prop) (l : list A) :
  (forall s x s', P s -> In x l -> f s x = Ok s' -> P s') ->
  forall s s', P s -> for_each f l s = Ok s' -> P s'.
Proof.
  induction l as [| x l IH]; intros Hstep s s' Hs Hrun; simpl in Hrun.
  - injection Hrun as <-. exact Hs.
  - bind_inv Hrun.
    apply (IH (fun s0 y s1 Hs0 Hy => Hstep s0 y s1 Hs0 (or_intror Hy)) v).
    + apply (Hstep s x v Hs (or_introl eq_refl) E).
    + exact Hrun.
Qed.

(** An exception that no iteration raises is not raised by the loop. *)
Lemma for_each_never (e : exn) (l : list A) :
  (forall s x, In x l -> f s x <> Raise e) ->
  forall s, for_each f l s <> Raise e.
Proof.
  induction l as [| x l IH]; intros Hstep s; simpl.
  - discriminate.
  - intros H. apply bind_raise in H. destruct H as [H | [s1 [_ H]]].
    + exact (Hstep s x (or_introl eq_refl) H).
    + exact (IH (fun s0 y Hy => Hstep s0 y (or_intror Hy)) s1 H).
Qed.

End ForEach.

(** The loops of the parsers append one record per item. *)
Section AppendLoop.

Context {A R : Type}.
Variable mk : A -> result R.

Lemma append_loop_ok (l : list A) :
  forall acc acc',
    for_each (append_one mk) l acc = Ok acc' ->
    exists rs, acc' = acc ++ rs /\ Forall2 (fun x r => mk x = Ok r) l rs.
Proof.
  induction l as [| x l IH]; intros acc acc' H; simpl in H.
  - injection H as <-. exists []. split; [symmetry; apply app_nil_r | constructor].
  - bind_inv H. unfold append_one in E. bind_inv E. injection E as <-.
    destruct (IH _ _ H) as [rs [-> Hrs]].
    exists (v0 :: rs). split.
    + rewrite <- app_assoc. reflexivity.
    + constructor; assumption.
Qed.

Lemma append_loop_total (l : list A) :
  Forall (fun x => exists r, mk x = Ok r) l ->
  forall acc, exists rs,
    for_each (append_one mk) l acc = Ok (acc ++ rs) /\ length rs = length l.
Proof.
  induction 1 as [| x l [r Hr] _ IH]; intros acc; simpl.
  - exists []. rewrite app_nil_r. split; reflexivity.
  - unfold append_one at 1. rewrite Hr. simpl.
    destruct (IH (acc ++ [r])) as [rs [Hrun Hlen]].
    exists (r :: rs). rewrite Hrun, <- app_assoc. simpl.
    split; [reflexivity | now rewrite Hlen].
Qed.

End AppendLoop.

Lemma len_DataFrame_of {R : Type} (records : list R) :
  len (DataFrame_of records) = length records.
Proof. destruct records; reflexivity. Qed.

(** ** Dispatch on the payload's keys *)

(** C4.  [process_data] looks only at the top-level keys of the payload: an
    object with the key ["Match"] goes to the primary-service parser, an
    object without it but with ["MatchTeams"] goes to the fallback-service
    parser, and an object with neither gives two empty frames and no
    exception. *)
Theorem process_data_dispatch (team_name : string) (d : dict) :
  process_data team_name (JObj d) =
    if has_key "Match" d then nv_process_data team_name (JObj d)
    else if has_key "MatchTeams" d
         then results_vault_process_data team_name (JObj d)
         else Ok (NoColumns, NoColumns).
Proof.
  unfold process_data. simpl.
  destruct (has_key "Match" d); [reflexivity |].
  destruct (has_key "MatchTeams" d); reflexivity.
Qed.

Example process_data_unrecognised :
  process_data Sample.club (JObj [("error", JStr "not found")])
  = Ok (NoColumns, NoColumns).
Proof. reflexivity. Qed.

(** ** The primary-service parser emits one record per card entry *)

Section NvCounts.

Variable team_name : string.
Variables (team_number : string) (opposition : json).

Let step := nv_innings team_name team_number opposition.

Lemma nv_innings_counts (innings : json) (b0 b : list Batting.t)
    (w0 w : list Bowling.t) :
  step (b0, w0) innings = Ok (b, w) ->
  length b = length b0
             + (if club_bats team_name team_number innings
                then card_entries innings "BattingCard" else 0) /\
  length w = length w0
             + (if club_bats team_name team_number innings
                then 0 else card_entries innings "BowlingCard").
Proof.
  unfold step, nv_innings, club_bats, card_entries. intros H.
  bind_inv H. rewrite E. destruct v.
  - bind_inv H. rewrite E0. bind_inv H. injection H as <- <-.
    apply (append_loop_ok (nv_batting_record team_number opposition)) in E1.
    destruct E1 as [rs [-> Hrs]].
    rewrite length_app, (Forall2_length Hrs). lia.
  - bind_inv H. rewrite E0. bind_inv H. injection H as <- <-.
    apply (append_loop_ok (nv_bowling_record team_number opposition)) in E1.
    destruct E1 as [rs [-> Hrs]].
    rewrite length_app, (Forall2_length Hrs). lia.
Qed.

Lemma nv_loop_counts (innings : list json) :
  forall b0 w0 b w,
    for_each step innings (b0, w0) = Ok (b, w) ->
    length b = length b0
               + list_sum (map (fun inn =>
                   if club_bats team_name team_number inn
                   then card_entries inn "BattingCard" else 0) innings) /\
    length w = length w0
               + list_sum (map (fun inn =>
                   if club_bats team_name team_number inn
                   then 0 else card_entries inn "BowlingCard") innings).
Proof.
  induction innings as [| inn innings IH]; intros b0 w0 b w H; simpl in H.
  - injection H as <- <-. simpl. lia.
  - bind_inv H. destruct v as [b1 w1].
    apply nv_innings_counts in E. destruct E as [Eb Ew].
    apply IH in H. destruct H as [Hb Hw]. simpl. lia.
Qed.

(** On well-typed innings every iteration returns. *)
Lemma nv_batting_record_total (entry : json) :
  batting_entry_ok entry = true ->
  exists r, nv_batting_record team_number opposition entry = Ok r.
Proof.
  destruct entry as [| | | | |d]; try discriminate. simpl.
  unfold absent_or, nv_batting_record, py_round2. simpl.
  destruct (lookup "Runs" d) as [v |]; simpl.
  - destruct (as_number v); [| discriminate]. intros _. eexists. reflexivity.
  - intros _. eexists. reflexivity.
Qed.

Lemma nv_bowling_record_total (entry : json) :
  is_obj entry = true ->
  exists r, nv_bowling_record team_number opposition entry = Ok r.
Proof.
  destruct entry as [| | | | |d]; try discriminate.
  intros _. eexists. reflexivity.
Qed.

Lemma items_of_array (check : json -> bool) (d : dict) (k : string) :
  absent_or (array_of check) d k = true ->
  exists l, items_of (JObj d) k = Ok l /\ forallb check l = true.
Proof.
  unfold absent_or, items_of. simpl.
  destruct (lookup k d) as [v |]; simpl.
  - destruct v; simpl; try discriminate. intros H. eexists. split; [reflexivity | exact H].
  - intros _. exists []. split; reflexivity.
Qed.

Lemma forallb_Forall_ex {A B : Type} (check : A -> bool) (mk : A -> result B)
    (l : list A) :
  (forall x, check x = true -> exists r, mk x = Ok r) ->
  forallb check l = true ->
  Forall (fun x => exists r, mk x = Ok r) l.
Proof.
  intros Hmk H. apply Forall_forall. intros x Hx.
  apply Hmk. rewrite forallb_forall in H. apply H, Hx.
Qed.

Lemma nv_innings_total (innings : json) (acc : list Batting.t * list Bowling.t) :
  innings_ok innings = true ->
  exists acc', step acc innings = Ok acc'.
Proof.
  destruct innings as [| | | | |d]; try discriminate. simpl.
  intros H. apply andb_prop in H. destruct H as [Hbat Hbowl].
  destruct acc as [b0 w0]. unfold step, nv_innings, is_club_innings. simpl.
  match goal with |- context [if ?c then _ else _] => destruct c end.
  - destruct (items_of_array _ _ _ Hbat) as [card [-> Hcard]]. simpl.
    destruct (append_loop_total (nv_batting_record team_number opposition)
                (forallb_Forall_ex _ _ _ nv_batting_record_total Hcard) b0)
      as [rs [Hrun _]].
    unfold append_one in Hrun. rewrite Hrun. simpl. eexists. reflexivity.
  - destruct (items_of_array _ _ _ Hbowl) as [card [-> Hcard]]. simpl.
    destruct (append_loop_total (nv_bowling_record team_number opposition)
                (forallb_Forall_ex _ _ _ nv_bowling_record_total Hcard) w0)
      as [rs [Hrun _]].
    unfold append_one in Hrun. rewrite Hrun. simpl. eexists. reflexivity.
Qed.

Lemma nv_loop_total (innings : list json) :
  forallb innings_ok innings = true ->
  forall acc, exists acc', for_each step innings acc = Ok acc'.
Proof.
  induction innings as [| inn innings IH]; simpl; intros H acc.
  - eexists. reflexivity.
  - apply andb_prop in H. destruct H as [Hinn Hrest].
    destruct (nv_innings_total inn acc Hinn) as [acc1 ->]. simpl.
    apply IH, Hrest.
Qed.

End NvCounts.

Lemma nv_fixture_total (team_name : string) (data : json) :
  nv_well_formed data = true ->
  exists team_number opposition,
    nv_fixture team_name data = Ok (team_number, opposition).
Proof.
  destruct data as [| | | | |d]; try discriminate. simpl.
  intros H. apply andb_prop in H. destruct H as [Hmatch _].
  unfold nv_fixture, absent_or in *. simpl.
  assert (Hm : match_ok (match lookup "Match" d with
                         | Some v => v
                         | None => JObj []
                         end) = true).
  { destruct (lookup "Match" d); [exact Hmatch | reflexivity]. }
  destruct (match lookup "Match" d with Some v => v | None => JObj [] end)
    as [| | | | |m]; try discriminate.
  simpl in Hm. apply andb_prop in Hm. destruct Hm as [H1 H2].
  unfold absent_or in H1, H2. simpl. unfold nv_sides.
  destruct (lookup "Team1Name" m) as [[| | |t1| |] |]; try discriminate;
    destruct (lookup "Team2Name" m) as [[| | |t2| |] |]; try discriminate;
    simpl; match goal with |- context [if ?c then _ else _] => destruct c end;
    simpl; eexists; eexists; reflexivity.
Qed.

(** The counts hold whenever the parser returns. *)
Lemma nv_records_counts (team_name : string) (data : json)
    (team_number : string) (opposition : json)
    (batting : list Batting.t) (bowling : list Bowling.t) :
  nv_fixture team_name data = Ok (team_number, opposition) ->
  nv_records team_name data = Ok (batting, bowling) ->
  length batting = batting_card_entries team_name team_number data /\
  length bowling = bowling_card_entries team_name team_number data.
Proof.
  unfold nv_records, batting_card_entries, bowling_card_entries, innings_of.
  intros -> H. simpl in H. bind_inv H. rewrite E.
  apply nv_loop_counts in H. simpl in H. exact H.
Qed.

Example nv_sample_counts :
  batting_card_entries Sample.club "1st XI" Sample.nv_payload = 2 /\
  bowling_card_entries Sample.club "1st XI" Sample.nv_payload = 2.
Proof. split; reflexivity. Qed.

(** ** The fallback-service parser: bowling figures *)

Lemma truthy_number_nonzero (v : json) (q : Q) :
  truthy v = true -> as_number v = Some q -> Qeq_bool q 0 = false.
Proof.
  destruct v as [| b | q' | | |]; simpl; try discriminate.
  - intros -> [= <-]. reflexivity.
  - intros H [= <-]. now apply negb_true_iff in H.
Qed.

(** The guard [if overs] keeps the division away from a zero divisor. *)
Lemma rv_economy_no_zero_division (runs overs : json) :
  rv_economy runs overs <> Raise ZeroDivisionError.
Proof.
  unfold rv_economy, py_truediv.
  destruct (truthy overs) eqn:Ht; [| discriminate].
  destruct (as_number runs) as [x |]; [| discriminate].
  destruct (as_number overs) as [y |] eqn:Ey; [| discriminate].
  rewrite (truthy_number_nonzero _ Ht Ey). discriminate.
Qed.

Lemma rv_economy_zero_overs (runs overs : json) (o : Q) :
  as_number overs = Some o -> (o == 0)%Q -> rv_economy runs overs = Ok JNull.
Proof.
  unfold rv_economy. intros Ho Hz.
  assert (Hf : truthy overs = false).
  { destruct overs as [| b | q | | |]; simpl in *; try discriminate.
    - injection Ho as <-. destruct b; [discriminate Hz | reflexivity].
    - injection Ho as <-. apply negb_false_iff, Qeq_bool_iff, Hz. }
  now rewrite Hf.
Qed.

Lemma rv_economy_positive_overs (runs overs : json) (o x : Q) :
  as_number overs = Some o -> (0 < o)%Q -> as_number runs = Some x ->
  rv_economy runs overs = Ok (JNum (round2 (x / o))).
Proof.
  unfold rv_economy, py_truediv. intros Ho Hpos Hx.
  assert (Hnz : Qeq_bool o 0 = false).
  { destruct (Qeq_bool o 0) eqn:E; [| reflexivity].
    apply Qeq_bool_iff in E. rewrite E in Hpos. now apply Qlt_irrefl in Hpos. }
  assert (Ht : truthy overs = true).
  { destruct overs as [| b | q | | |]; simpl in *; try discriminate.
    - injection Ho as <-. destruct b; [reflexivity | discriminate Hnz].
    - injection Ho as <-. now rewrite Hnz. }
  now rewrite Ht, Hx, Ho, Hnz.
Qed.

(** *** Rounding to two decimal places *)

Lemma round_half_even_near (q : Q) :
  (Qabs (inject_Z (round_half_even q) - q) <= 1 # 2)%Q.
Proof.
  unfold round_half_even.
  pose proof (Qfloor_le q) as Hlo.
  pose proof (Qlt_floor q) as Hhi.
  rewrite inject_Z_plus in Hhi.
  change (inject_Z 1) with 1%Q in Hhi.
  apply Qabs_Qle_condition.
  destruct (Qcompare_spec (q - inject_Z (Qfloor q)) (1 # 2)) as [He | Hl | Hg].
  - destruct (Z.even (Qfloor q));
      [| rewrite inject_Z_plus; change (inject_Z 1) with 1%Q]; split; lra.
  - split; lra.
  - rewrite inject_Z_plus. change (inject_Z 1) with 1%Q. split; lra.
Qed.

(** [round2 q] is a whole number of hundredths and lies within half a
    hundredth of [q]. *)
Lemma round2_nearest_hundredth (q : Q) : rounded_to_hundredths q (round2 q).
Proof.
  unfold rounded_to_hundredths, round2. split.
  - eexists. apply Qred_correct.
  - rewrite Qred_correct.
    pose proof (round_half_even_near (q * 100)) as H.
    apply Qabs_Qle_condition in H. apply Qabs_Qle_condition.
    set (n := round_half_even (q * 100)) in *.
    assert (Hn : (n # 100 == inject_Z n * (1 # 100))%Q).
    { unfold Qeq, Qmult, inject_Z. simpl. lia. }
    rewrite Hn. split; lra.
Qed.

Lemma rv_bowling_record_as_specified (team_number : string)
    (opposition name perf : json) (r : Bowling.t) :
  rv_bowling_record team_number opposition name perf = Ok r ->
  economy_as_specified r.
Proof.
  unfold rv_bowling_record. intros H.
  bind_inv H. rename v into overs. bind_inv H. rename v into runs.
  bind_inv H. rename v into economy.
  do 5 bind_inv H. injection H as <-.
  unfold economy_as_specified. simpl.
  split; [reflexivity |]. split; [reflexivity |]. split.
  - intros o Ho Hz. rewrite (rv_economy_zero_overs runs overs Ho Hz) in E1.
    now injection E1.
  - intros o x Ho Hpos Hx.
    rewrite (rv_economy_positive_overs runs overs Ho Hpos Hx) in E1.
    injection E1 as <-. eexists. split; [reflexivity |].
    apply round2_nearest_hundredth.
Qed.

(** An entry without overs, or with zero overs, always yields a record. *)
Lemma rv_bowling_record_zero_overs (team_number : string)
    (opposition name : json) (p : dict) :
  (lookup "overs" p = None \/
   exists o, lookup "overs" p = Some (JNum o) /\ (o == 0)%Q) ->
  exists r, rv_bowling_record team_number opposition name (JObj p) = Ok r /\
            Bowling.Economy r = JNull.
Proof.
  intros H. unfold rv_bowling_record. simpl.
  assert (He : forall runs,
             rv_economy runs (match lookup "overs" p with
                              | Some v => v
                              | None => JNum 0
                              end) = Ok JNull).
  { intros runs. destruct H as [-> | [o [-> Hz]]].
    - reflexivity.
    - now apply (rv_economy_zero_overs runs (JNum o) (o := o)). }
  rewrite He. simpl. eexists. split; reflexivity.
Qed.

(** *** No division by zero anywhere in the parser *)

Lemma bind_never {A B : Type} (c : result A) (k : A -> result B) (e : exn) :
  c <> Raise e -> (forall a, k a <> Raise e) -> bind c k <> Raise e.
Proof.
  intros Hc Hk H. apply bind_raise in H. destruct H as [H | [a [_ H]]].
  - exact (Hc H).
  - exact (Hk a H).
Qed.

Lemma py_get_no_zde (o : json) (k : string) (default : json) :
  py_get o k default <> Raise ZeroDivisionError.
Proof. destruct o; simpl; discriminate. Qed.

Lemma py_getitem_no_zde (o : json) (k : string) :
  py_getitem o k <> Raise ZeroDivisionError.
Proof. destruct o; simpl; try discriminate. destruct (lookup k kvs); discriminate. Qed.

Lemma py_in_no_zde (s : string) (v : json) :
  py_in s v <> Raise ZeroDivisionError.
Proof. destruct v; simpl; discriminate. Qed.

Lemma py_iter_no_zde (v : json) : py_iter v <> Raise ZeroDivisionError.
Proof. destruct v; simpl; discriminate. Qed.

Lemma py_str_method_no_zde {A : Type} (f : string -> A) (v : json) :
  py_str_method f v <> Raise ZeroDivisionError.
Proof. destruct v; simpl; discriminate. Qed.

Create HintDb no_zde.
#[local] Hint Resolve py_get_no_zde py_getitem_no_zde py_in_no_zde
  py_iter_no_zde py_str_method_no_zde rv_economy_no_zero_division : no_zde.

(** Splits a chain of binds, loops and branches into its calls and closes
    each with the facts of [no_zde]. *)
Ltac no_zde :=
  repeat first
    [ progress auto with no_zde
    | discriminate
    | apply bind_never; [| intros ?]
    | apply for_each_never; intros ? ? _
    | match goal with
      | |- (let '(_, _) := ?p in _) <> _ => destruct p
      | |- (if ?c then _ else _) <> _ => destruct c
      | |- match ?x with _ => _ end <> _ => destruct x
      end ].

Lemma rv_records_no_zero_division (team_name : string) (data : json) :
  rv_records team_name data <> Raise ZeroDivisionError.
Proof.
  unfold rv_records, rv_sides, team_suffix, items_of, build_names, rv_team,
    rv_perf, rv_batting_record, rv_bowling_record, store_name, resolve_name,
    items_of.
  no_zde.
Qed.

Example rv_sample_bowling :
  option_map (fun '(_, w) => map (fun r => (Bowling.Overs r, Bowling.Economy r,
                                           Bowling.Fours r, Bowling.Sixes r))
                               (frame_rows w))
    (match results_vault_process_data Sample.club Sample.rv_away_payload with
     | Ok p => Some p
     | Raise _ => None
     end)
  = Some [(num 8, JNum (269 # 50), JNull, JNull); (num 0, JNull, JNull, JNull)].
Proof. reflexivity. Qed.

(** ** The fallback-service parser: player names *)

(** C2.  With the club as the home side the name map is never bound: on
    the sample fixture the parser stops with [UnboundLocalError] at the
    first roster entry, where the same fixture with the club as the away
    side is parsed and its names are resolved through the map. *)
Theorem rv_home_side_raises :
  results_vault_process_data Sample.club Sample.rv_home_payload
  = Raise UnboundLocalError /\
  is_NameError UnboundLocalError = true /\
  exists batting bowling,
    results_vault_process_data Sample.club Sample.rv_away_payload
    = Ok (Frame batting, Frame bowling) /\
    map Batting.PlayerName batting = [JStr "Alan Opener"] /\
    map Bowling.PlayerName bowling = [JStr "Oscar Seamer"; JStr "P Change"].
Proof.
  split; [reflexivity |]. split; [reflexivity |].
  eexists. eexists. split; [reflexivity |]. split; reflexivity.
Qed.

Section RvNames.

Variable team_name : string.

(** With the name unbound, a performance entry cannot be processed. *)
Lemma rv_perf_unbound (team_number : string) (opposition : json)
    (lightcliffe : bool) (acc : list Batting.t * list Bowling.t)
    (perf : json) :
  exists e, rv_perf team_number opposition None lightcliffe acc perf = Raise e.
Proof.
  destruct acc as [b w]. unfold rv_perf.
  destruct (py_get perf "player_id" JNull) as [pid | e]; simpl.
  - exists UnboundLocalError. reflexivity.
  - exists e. reflexivity.
Qed.

Lemma for_each_unbound_perfs (team_number : string) (opposition : json)
    (lightcliffe : bool) (perfs : list json)
    (acc acc' : list Batting.t * list Bowling.t) :
  for_each (rv_perf team_number opposition None lightcliffe) perfs acc
  = Ok acc' ->
  perfs = [] /\ acc' = acc.
Proof.
  destruct perfs as [| perf perfs]; simpl.
  - intros [= <-]. split; reflexivity.
  - destruct (rv_perf_unbound team_number opposition lightcliffe acc perf)
      as [e ->]. discriminate.
Qed.

(** X20.  With the club as the home side, whatever the payload, the
    parser returns no record at all: it either raises or finds no
    entry. *)
Lemma rv_home_side_emits_nothing (data : json)
    (batting : list Batting.t) (bowling : list Bowling.t) :
  (home <- py_get data "home_name" (JStr "") ;; py_in team_name home)
  = Ok true ->
  rv_records team_name data = Ok (batting, bowling) ->
  batting = [] /\ bowling = [].
Proof.
  intros Hhome H. unfold rv_records in H.
  bind_named Hhome home Ehome. rewrite Ehome in H. simpl in H.
  bind_named H away Eaway. unfold rv_sides in H. rewrite Hhome in H.
  simpl in H. bind_named H sides Esides.
  bind_named Esides suffix Esuffix. injection Esides as <-. simpl in H.
  bind_named H teams Eteams. bind_named H names Enames.
  bind_named H teams' Eteams'.
  assert (Hnone : names = None).
  { revert Enames.
    apply (for_each_invariant _ (fun m => m = None)); [| reflexivity].
    intros s team s' -> _ Hteam. bind_inv Hteam. revert Hteam.
    apply (for_each_invariant _ (fun m => m = None)); [| reflexivity].
    intros s0 player s1 -> _ Hp. bind_inv Hp. discriminate Hp. }
  subst names.
  assert (Hacc : (batting, bowling) = ([], [])).
  { revert H.
    apply (for_each_invariant _ (fun acc => acc = ([], []))); [| reflexivity].
    intros s team s' -> _ Hteam. unfold rv_team in Hteam. do 3 bind_inv Hteam.
    revert Hteam.
    apply (for_each_invariant _ (fun acc => acc = ([], []))); [| reflexivity].
    intros s0 inn s1 -> _ Hinn. bind_inv Hinn.
    now apply for_each_unbound_perfs in Hinn. }
  injection Hacc as -> ->. split; reflexivity.
Qed.

End RvNames.

(** *** The map holds every roster member once the first loop is over *)

Lemma key_eqb_refl (v : json) : hashable v = true -> key_eqb v v = true.
Proof.
  destruct v as [| b | q | s | |]; simpl; try discriminate; intros _.
  - reflexivity.
  - destruct b; reflexivity.
  - apply Qeq_bool_iff. reflexivity.
  - apply String.eqb_refl.
Qed.

Lemma store_name_grows (o o' : option name_map) (player full k : json) :
  store_name o player full = Ok o' -> has_name k o -> has_name k o'.
Proof.
  intros H [m [n [-> Hk]]]. simpl in H. bind_named H pid Epid.
  destruct (hashable pid); [| discriminate]. injection H as <-.
  unfold has_name. destruct (key_eqb k pid) eqn:Ek.
  - exists ((pid, full) :: m), full. simpl. now rewrite Ek.
  - exists ((pid, full) :: m), n. simpl. now rewrite Ek.
Qed.

Lemma store_name_binds (o o' : option name_map) (player full : json) :
  store_name o player full = Ok o' ->
  exists pid, py_getitem player "player_id" = Ok pid /\ has_name pid o'.
Proof.
  destruct o as [m |]; simpl; [| discriminate]. intros H.
  bind_named H pid Epid. exists pid. split; [exact Epid |].
  destruct (hashable pid) eqn:Hh; [| discriminate]. injection H as <-.
  exists ((pid, full) :: m), full. split; [reflexivity |].
  simpl. now rewrite (key_eqb_refl pid Hh).
Qed.

Lemma members_loop (members : list json) :
  forall o o',
    for_each enter_member members o = Ok o' ->
    (forall k, has_name k o -> has_name k o') /\
    (forall player, In player members ->
       exists pid, py_getitem player "player_id" = Ok pid /\ has_name pid o').
Proof.
  induction members as [| p members IH]; intros o o' H; simpl in H.
  - injection H as <-. split; [auto | intros ? []].
  - bind_named H o1 Eo1. unfold enter_member in Eo1. bind_named Eo1 full Efull.
    destruct (IH _ _ H) as [Hmono Hall]. split.
    + intros k Hk. apply Hmono. eapply store_name_grows; eassumption.
    + intros player [<- | Hin]; [| now apply Hall].
      destruct (store_name_binds _ _ _ Eo1) as [pid [Hpid Hb]].
      exists pid. split; [exact Hpid | now apply Hmono].
Qed.

(** After [build_names] every member of every team's roster has a name in
    the map. *)
Lemma build_names_complete (teams : list json) :
  forall o o',
    build_names teams o = Ok o' ->
    (forall k, has_name k o -> has_name k o') /\
    (forall team members player,
       In team teams -> items_of team "TeamMembers" = Ok members ->
       In player members ->
       exists pid, py_getitem player "player_id" = Ok pid /\ has_name pid o').
Proof.
  unfold build_names.
  induction teams as [| t teams IH]; intros o o' H; simpl in H.
  - injection H as <-. split; [auto | intros ? ? ? []].
  - bind_named H o1 Eo1. bind_named Eo1 ms Ems.
    destruct (members_loop _ _ Eo1) as [Hmono1 Hall1].
    destruct (IH _ _ H) as [Hmono Hall]. split.
    + intros k Hk. apply Hmono, Hmono1, Hk.
    + intros team members player [<- | Hin] Hms Hp.
      * rewrite Ems in Hms. injection Hms as <-.
        destruct (Hall1 player Hp) as [pid [Hpid Hb]].
        exists pid. split; [exact Hpid | now apply Hmono].
      * eapply Hall; eassumption.
Qed.

(** ** The fetch policy of [main] *)

Lemma has_key_nonempty (k : string) (d : dict) :
  has_key k d = true -> truthy (JObj d) = true.
Proof. destruct d; [discriminate | reflexivity]. Qed.

Lemma nv_checks_spec (data data' : json) :
  nv_checks data = Ok data' <-> data' = data /\ primary_accepted data.
Proof.
  unfold nv_checks, primary_accepted. split.
  - intros H. bind_named H missing Emissing.
    destruct missing; [discriminate |].
    bind_named H innings Einnings.
    destruct (truthy innings) eqn:Ht; [| discriminate].
    injection H as <-. split; [reflexivity |].
    destruct data as [| | | | | d]; try discriminate.
    exists d. split; [reflexivity |].
    destruct (truthy (JObj d)); simpl in Emissing; [| discriminate].
    injection Emissing as Hm. apply negb_false_iff in Hm.
    split; [exact Hm |]. simpl in Einnings.
    destruct (lookup "Innings" d) as [v |].
    + injection Einnings as <-. exists v. split; [reflexivity | exact Ht].
    + injection Einnings as <-. discriminate.
  - intros [-> [d [-> [Hm [innings [Hi Ht]]]]]].
    rewrite (has_key_nonempty _ _ Hm). simpl. rewrite Hm, Hi. simpl.
    now rewrite Ht.
Qed.

Lemma rv_checks_spec (data data' : json) :
  rv_checks data = Ok data' <-> data' = data /\ fallback_accepted data.
Proof.
  unfold rv_checks, fallback_accepted. split.
  - intros H. bind_named H missing Emissing.
    destruct missing; [discriminate |]. injection H as <-.
    split; [reflexivity |].
    destruct (truthy data); simpl in Emissing; [| discriminate].
    split; [reflexivity |]. bind_named Emissing b Eb.
    injection Emissing as Hb. apply negb_false_iff in Hb. now subst b.
  - intros [-> [Ht Hin]]. now rewrite Ht, Hin.
Qed.

Lemma fallback_accepted_object (d : dict) :
  fallback_accepted (JObj d) <-> has_key "MatchTeams" d = true.
Proof.
  unfold fallback_accepted. simpl. split.
  - intros [_ H]. now injection H.
  - intros H. split; [exact (has_key_nonempty _ _ H) | now rewrite H].
Qed.

Lemma truthy_array (l : list json) : truthy (JArr l) = true <-> l <> [].
Proof. destruct l; simpl; split; congruence. Qed.

(** With ["Innings"] an array, as the primary interface has it, acceptance
    is the presence of ["Match"] and a non-empty array. *)
Lemma primary_accepted_array (d : dict) (l : list json) :
  lookup "Innings" d = Some (JArr l) ->
  (primary_accepted (JObj d) <-> has_key "Match" d = true /\ l <> []).
Proof.
  intros Hl. unfold primary_accepted. split.
  - intros [d' [[= <-] [Hm [v [Hv Ht]]]]]. rewrite Hl in Hv.
    injection Hv as <-. split; [exact Hm | now apply truthy_array].
  - intros [Hm Hne]. exists d. split; [reflexivity |]. split; [exact Hm |].
    exists (JArr l). split; [exact Hl | now apply truthy_array].
Qed.

Section FetchPolicy.

Variable respond : list request -> request -> result json.
Variable match_number : string.
Variable api_header : option string.

(** The fallback call: what it returns and what it adds to the log. *)
Lemma results_vault_api_call_trace (log : list request) :
  exists r reqs,
    results_vault_api_call respond match_number api_header log
    = (r, log ++ reqs) /\
    fallback_attempt match_number api_header reqs /\
    (forall data, r = Ok data ->
       exists rv_match_id,
         reqs = [GetRVMapping match_number api_header;
                 GetRVMatch rv_match_id api_header] /\
         respond (log ++ [GetRVMapping match_number api_header])
                 (GetRVMatch rv_match_id api_header) = Ok data).
Proof.
  unfold results_vault_api_call, _get_match_id_results_vault, io_bind,
    http_get_json, lift.
  destruct (respond log (GetRVMapping match_number api_header)) as [body | e].
  - destruct (py_get body "object_id1" JNull) as [id | e'].
    + eexists. exists [GetRVMapping match_number api_header;
                      GetRVMatch id api_header].
      split; [| split].
      * rewrite <- app_assoc. reflexivity.
      * right. exists id. reflexivity.
      * intros data Hdata. exists id. split; [reflexivity | exact Hdata].
    + exists (Raise e'), [GetRVMapping match_number api_header].
      split; [reflexivity |]. split; [now left | discriminate].
  - exists (Raise e), [GetRVMapping match_number api_header].
    split; [reflexivity |]. split; [now left | discriminate].
Qed.

(** C1.  In the loop of [main] a fetch never raises and sends the primary
    request exactly once.  The primary response is taken only when it is an
    object with the key ["Match"] and a true ["Innings"] value (for an
    array: a non-empty one).  In every other case (the call raised, or the
    response failed a check) one fallback attempt follows, made of the id
    mapping request and at most one match request, the primary request is
    not repeated, and the fallback response is taken only when the test
    ["MatchTeams" in data] holds (for an object: the key is present). *)
Theorem fetch_match_policy (log : list request) :
  (exists fetched reqs,
     fetch_match respond match_number api_header log
     = (Ok fetched, log ++ GetNV match_number :: reqs) /\
     (primary_taken respond match_number log fetched reqs \/
      fell_back respond match_number api_header log fetched reqs)) /\
  (forall d l, lookup "Innings" d = Some (JArr l) ->
     (primary_accepted (JObj d) <-> has_key "Match" d = true /\ l <> [])) /\
  (forall d, fallback_accepted (JObj d) <-> has_key "MatchTeams" d = true).
Proof.
  split;
    [| split; [exact primary_accepted_array | exact fallback_accepted_object]].
  assert (Hfallback :
    (forall data, respond log (GetNV match_number) = Ok data ->
                  ~ primary_accepted data) ->
    exists fetched reqs,
      try_except
        (data <~ results_vault_api_call respond match_number api_header ;;
         data <~ lift (rv_checks data) ;;
         lift (Ok (Some data)))
        (fun _ => lift (Ok None)) (log ++ [GetNV match_number])
      = (Ok fetched, log ++ GetNV match_number :: reqs) /\
      (primary_taken respond match_number log fetched reqs \/
       fell_back respond match_number api_header log fetched reqs)).
  { intros Hrej.
    destruct (results_vault_api_call_trace (log ++ [GetNV match_number]))
      as [r [reqs [Hcall [Hshape Hdata]]]].
    unfold try_except, io_bind. rewrite Hcall.
    assert (Hlog : (log ++ [GetNV match_number]) ++ reqs
                   = log ++ GetNV match_number :: reqs)
      by (rewrite <- app_assoc; reflexivity).
    assert (Hnv : ~ In (GetNV match_number) reqs).
    { destruct Hshape as [-> | [id ->]]; simpl; intuition discriminate. }
    rewrite Hlog. unfold fell_back.
    destruct r as [data | e].
    - unfold lift at 1. destruct (rv_checks data) as [data' | e] eqn:Hchk.
      + apply rv_checks_spec in Hchk. destruct Hchk as [-> Hacc].
        exists (Some data), reqs. split; [reflexivity |]. right.
        split; [exact Hrej |]. split; [exact Hshape |]. split; [exact Hnv |].
        intros data1 [= <-]. split; [exact Hacc |].
        destruct (Hdata data eq_refl) as [id [-> Hresp]].
        exists id. split; [reflexivity |].
        rewrite <- app_assoc in Hresp. exact Hresp.
      + exists None, reqs. split; [reflexivity |]. right.
        split; [exact Hrej |]. split; [exact Hshape |]. split; [exact Hnv |].
        discriminate.
    - exists None, reqs. split; [reflexivity |]. right.
      split; [exact Hrej |]. split; [exact Hshape |]. split; [exact Hnv |].
      discriminate. }
  unfold fetch_match.
  unfold try_except at 1. unfold io_bind at 1 2.
  unfold nv_api_call, http_get_json.
  destruct (respond log (GetNV match_number)) as [data | e] eqn:Hnv.
  - unfold lift at 1. destruct (nv_checks data) as [data' | e] eqn:Hchk.
    + apply nv_checks_spec in Hchk. destruct Hchk as [-> Hacc].
      exists (Some data), []. split; [reflexivity |]. left.
      exists data. rewrite Hnv. auto.
    + apply Hfallback.
      intros data1 Hdata1 Hacc. try rewrite Hnv in Hdata1.
      injection Hdata1 as <-.
      assert (Hok : nv_checks data = Ok data)
        by (apply nv_checks_spec; auto).
      congruence.
  - apply Hfallback. try rewrite Hnv. discriminate.
Qed.

(** [get_scorecard], which [main] does not call, has the same order of
    calls but takes any primary response that arrives. *)
Lemma get_scorecard_policy (log : list request) :
  get_scorecard respond match_number api_header log
  = match respond log (GetNV match_number) with
    | Ok data => (Ok data, log ++ [GetNV match_number])
    | Raise _ =>
        results_vault_api_call respond match_number api_header
          (log ++ [GetNV match_number])
    end.
Proof.
  unfold get_scorecard, try_except, nv_api_call, http_get_json.
  destruct (respond log (GetNV match_number)); reflexivity.
Qed.

End FetchPolicy.

(** ** [main] when no match could be fetched *)

Section MainNoData.

Variable w : World.
Variable team_name : string.

Lemma main_loop_all_skipped (api_header : option string)
    (match_numbers : list string)
    (acc : list (DataFrame Batting.t) * list (DataFrame Bowling.t)) :
  (forall m log, In m match_numbers ->
     fst (fetch_match (respond w) m api_header log) = Ok None) ->
  forall log, exists log',
    io_for_each (main_loop_body w team_name api_header) match_numbers acc log
    = (Ok acc, log').
Proof.
  induction match_numbers as [| m ms IH]; intros Hskip log; simpl.
  - eexists. reflexivity.
  - unfold io_bind at 1. unfold main_loop_body at 1. destruct acc as [b0 w0].
    unfold io_bind at 1.
    pose proof (Hskip m log (or_introl eq_refl)) as Hm.
    destruct (fetch_match (respond w) m api_header log) as [r log1].
    simpl in Hm. subst r. unfold lift at 1.
    apply IH. intros m' log' Hin. apply Hskip. now right.
Qed.

(** C10 (as amended).  When the list of matches is not empty, the header
    probe returns and the fetch of every match ends in [continue], [main]
    reaches [print(batting_table)] with the name never assigned and raises
    [UnboundLocalError], a [NameError], instead of returning empty tables. *)
Theorem main_without_data_raises (match_numbers : list string)
    (api_header : option string) (log : list request) :
  get_match_ids w = Ok match_numbers ->
  match_numbers <> [] ->
  get_ias_api_header_from_match_page w (hd EmptyString match_numbers)
  = Ok api_header ->
  (forall m log', In m match_numbers ->
     fst (fetch_match (respond w) m api_header log') = Ok None) ->
  fst (main w team_name log) = Raise UnboundLocalError /\
  is_NameError UnboundLocalError = true.
Proof.
  intros Hids Hne Hhdr Hskip. split; [| reflexivity].
  destruct match_numbers as [| m0 ms]; [congruence |]. simpl in Hhdr.
  unfold main, main_tables.
  unfold io_bind at 1 2 3 4 5. unfold lift at 1 2 3.
  rewrite Hids, Hhdr.
  destruct (main_loop_all_skipped api_header (m0 :: ms) ([], []) Hskip log)
    as [log' ->].
  reflexivity.
Qed.

End MainNoData.

Lemma offline_fetch_skips (m : string) (log : list request) :
  fst (fetch_match (respond SampleWorld.offline) m None log) = Ok None.
Proof. reflexivity. Qed.

Lemma main_without_data_raises_witness :
  fst (main SampleWorld.offline Sample.club []) = Raise UnboundLocalError /\
  is_NameError UnboundLocalError = true.
Proof.
  apply (main_without_data_raises SampleWorld.offline Sample.club
           (match_numbers := ["7126243"; "7126244"]) (api_header := None)).
  - reflexivity.
  - discriminate.
  - reflexivity.
  - intros m log' _. apply offline_fetch_skips.
Defined.

(** With an empty list of matches [main] does not reach the tables: the
    subscript [match_numbers[0]] raises [IndexError], which is not a
    [NameError]. *)
Lemma main_empty_match_list :
  get_match_ids SampleWorld.no_matches = Ok [] /\
  fst (main SampleWorld.no_matches Sample.club []) = Raise IndexError /\
  ~ (exists e,
       fst (main SampleWorld.no_matches Sample.club []) = Raise e /\
       is_NameError e = true).
Proof.
  split; [reflexivity |]. split; [reflexivity |].
  intros [e [He Hname]].
  change (fst (main SampleWorld.no_matches Sample.club []))
    with (@Raise (outcome (list (Ranked Batting.t) * list (Ranked Bowling.t)))
            IndexError) in He.
  injection He as <-. discriminate Hname.
Qed.

(** ** Vertical positions *)

(** C3.  With a single ranked entry the interpolation divides by
    [num_entries - 1 = 0]: the list of positions is not produced and
    [ZeroDivisionError] is raised; with no entry there is nothing to place
    and nothing is divided. *)
Theorem y_positions_single_entry :
  y_positions 1 = Raise ZeroDivisionError /\
  image_positions true 1 = Raise ZeroDivisionError /\
  y_positions 0 = Ok [].
Proof. repeat split. Qed.

(** A week with a single batting record: the tables are computed and the
    batting image then fails on its positions. *)
Example main_single_batter :
  fst (main SampleWorld.one_fixture Sample.club [])
  = Raise ZeroDivisionError.
Proof. reflexivity. Qed.

Lemma all_ok_map {A B : Type} (f : A -> result B) (g : A -> B) (l : list A) :
  (forall x, In x l -> f x = Ok (g x)) -> all_ok (map f l) = Ok (map g l).
Proof.
  induction l as [| x l IH]; intros H; simpl.
  - reflexivity.
  - rewrite (H x (or_introl eq_refl)). simpl.
    rewrite IH; [reflexivity |]. intros y Hy. apply H. now right.
Qed.

Lemma py_int_interpolation (s a b : Z) :
  (0 <= s)%Z -> (0 <= a)%Z -> (0 < b)%Z ->
  py_int (inject_Z s + inject_Z a / inject_Z b)%Q = (s + a / b)%Z.
Proof.
  intros Hs Ha Hb. destruct b as [| pb | pb]; try lia.
  unfold py_int, Qplus, Qdiv, Qmult, Qinv, inject_Z.
  cbn [Qnum Qden].
  rewrite !Pos.mul_1_l, !Z.mul_1_r.
  rewrite Z.quot_div_nonneg by nia.
  rewrite Z.add_comm, Z.div_add by lia. lia.
Qed.

(** For two entries or more each position is the first bound plus the
    whole part of [i * 915 / (num_entries - 1)]. *)
Lemma y_position_interpolates (num_entries i : nat) :
  (2 <= num_entries)%nat ->
  y_position num_entries i
  = Ok (start_y + Z.of_nat i * (end_y - start_y)
                  / (Z.of_nat num_entries - 1))%Z.
Proof.
  intros Hn. unfold y_position, py_truediv, num. cbn [as_number].
  set (a := (Z.of_nat i * (end_y - start_y))%Z).
  set (b := (Z.of_nat num_entries - 1)%Z).
  assert (Ha : (0 <= a)%Z) by (unfold a, end_y, start_y; lia).
  assert (Hb : (0 < b)%Z) by (unfold b; lia).
  replace (Qeq_bool (inject_Z b) 0) with false.
  - cbn [bind]. f_equal. apply py_int_interpolation; [unfold start_y |..]; lia.
  - symmetry. apply not_true_is_false. intros H.
    apply Qeq_bool_iff in H. unfold Qeq, inject_Z in H. simpl in H. lia.
Qed.

Lemma y_positions_interpolate (num_entries : nat) :
  (2 <= num_entries)%nat ->
  y_positions num_entries
  = Ok (map (fun i => start_y + Z.of_nat i * (end_y - start_y)
                                / (Z.of_nat num_entries - 1))%Z
            (seq 0 num_entries)).
Proof.
  intros Hn. unfold y_positions. apply all_ok_map.
  intros i _. now apply y_position_interpolates.
Qed.

(** Up to sixty-four entries the double-precision evaluation gives the
    same positions as the exact one. *)
Example y_positions_double_precision :
  forallb (fun n =>
    forallb (fun i =>
      match y_position_double n i, y_position n i with
      | Some z, Ok z' => Z.eqb z z'
      | _, _ => false
      end) (seq 0 n)) (seq 2 63) = true.
Proof. vm_compute. reflexivity. Qed.

(** X22.  For two entries or more the positions start at the first bound,
    end at the second, and consecutive positions differ by the whole part
    of [915 / (num_entries - 1)] or by one more. *)
Lemma y_positions_spread (num_entries : nat) :
  (2 <= num_entries)%nat ->
  exists ys,
    y_positions num_entries = Ok ys /\
    length ys = num_entries /\
    nth 0 ys 0%Z = start_y /\
    nth (num_entries - 1) ys 0%Z = end_y /\
    forall i, (S i < num_entries)%nat ->
      let step := ((end_y - start_y) / (Z.of_nat num_entries - 1))%Z in
      (step <= nth (S i) ys 0 - nth i ys 0 <= step + 1)%Z.
Proof.
  intros Hn. eexists. split; [now apply y_positions_interpolate |].
  set (g := fun i => (start_y + Z.of_nat i * (end_y - start_y)
                                / (Z.of_nat num_entries - 1))%Z).
  assert (Hnth : forall i, (i < num_entries)%nat ->
                           nth i (map g (seq 0 num_entries)) 0%Z = g i).
  { intros i Hi. rewrite (nth_indep _ 0%Z (g 0%nat))
      by (rewrite length_map, length_seq; exact Hi).
    rewrite map_nth, seq_nth by exact Hi. reflexivity. }
  split; [now rewrite length_map, length_seq |].
  split; [rewrite Hnth by lia; reflexivity |].
  split.
  - rewrite Hnth by lia. unfold g.
    replace (Z.of_nat (num_entries - 1)) with (Z.of_nat num_entries - 1)%Z
      by lia.
    rewrite Z.mul_comm, Z.div_mul by lia. unfold start_y, end_y. lia.
  - intros i Hi step. rewrite !Hnth by lia. unfold g, step.
    unfold end_y, start_y.
    set (d := (Z.of_nat num_entries - 1)%Z).
    assert (Hd : (0 < d)%Z) by (unfold d; lia).
    replace (Z.of_nat (S i) * (1289 - 374))%Z
      with (Z.of_nat i * 915 + 915)%Z by lia.
    replace (1289 - 374)%Z with 915%Z by lia.
    set (a := (Z.of_nat i * 915)%Z).
    pose proof (Z.div_mod a d ltac:(lia)) as Ea.
    pose proof (Z.mod_pos_bound a d Hd) as Ba.
    pose proof (Z.div_mod 915 d ltac:(lia)) as Ec.
    pose proof (Z.mod_pos_bound 915 d Hd) as Bc.
    pose proof (Z.div_mod (a + 915) d ltac:(lia)) as Es.
    pose proof (Z.mod_pos_bound (a + 915) d Hd) as Bs.
    nia.
Qed.

(** ** Sorting *)

Section StableSort.

Context {R : Type}.
Variable leb : R -> R -> bool.

Lemma insert_row_perm (x : R) (l : list R) :
  Permutation (insert_row leb x l) (x :: l).
Proof.
  induction l as [| y l IH]; simpl.
  - apply Permutation_refl.
  - destruct (leb x y).
    + apply Permutation_refl.
    + apply perm_trans with (y :: x :: l);
        [now apply perm_skip | apply perm_swap].
Qed.

Lemma stable_sort_perm (l : list R) : Permutation (stable_sort leb l) l.
Proof.
  induction l as [| x l IH]; simpl.
  - apply perm_nil.
  - apply perm_trans with (x :: stable_sort leb l).
    + apply insert_row_perm.
    + now apply perm_skip.
Qed.

(** The order that [leb] decides on the rows at hand. *)
Variable order : R -> R -> Prop.
Hypothesis order_total : forall a b, order a b \/ order b a.
Hypothesis order_trans : forall a b c, order a b -> order b c -> order a c.

Lemma insert_row_sorted (x : R) (l : list R) :
  (forall y, In y l -> (leb x y = true <-> order x y)) ->
  StronglySorted order l ->
  StronglySorted order (insert_row leb x l).
Proof.
  intros Hdec Hs. induction Hs as [| y l Hs IH Hy]; simpl.
  - constructor; constructor.
  - destruct (leb x y) eqn:E.
    + apply (Hdec y (or_introl eq_refl)) in E.
      constructor; [constructor; assumption |].
      constructor; [exact E |].
      eapply Forall_impl; [| exact Hy]. intros z Hz. eapply order_trans; eassumption.
    + assert (Hyx : order y x).
      { destruct (order_total x y) as [H | H]; [| exact H].
        apply (Hdec y (or_introl eq_refl)) in H. congruence. }
      constructor.
      * apply IH. intros z Hz. apply Hdec. now right.
      * apply Forall_forall. intros z Hz.
        apply (Permutation_in _ (insert_row_perm x l)) in Hz.
        destruct Hz as [<- | Hz]; [exact Hyx |].
        rewrite Forall_forall in Hy. now apply Hy.
Qed.

Lemma stable_sort_sorted (l : list R) :
  (forall x y, In x l -> In y l -> (leb x y = true <-> order x y)) ->
  StronglySorted order (stable_sort leb l).
Proof.
  induction l as [| x l IH]; intros Hdec; simpl.
  - constructor.
  - apply insert_row_sorted.
    + intros y Hy. apply Hdec; [now left | right].
      exact (Permutation_in _ (stable_sort_perm l) Hy).
    + apply IH. intros a b Ha Hb. apply Hdec; now right.
Qed.

Lemma in_firstn (n : nat) (l : list R) (x : R) :
  In x (firstn n l) -> In x l.
Proof.
  intros H. rewrite <- (firstn_skipn n l). apply in_or_app. now left.
Qed.

Lemma in_skipn (n : nat) (l : list R) (x : R) :
  In x (skipn n l) -> In x l.
Proof.
  intros H. rewrite <- (firstn_skipn n l). apply in_or_app. now right.
Qed.

Lemma firstn_sorted (n : nat) (l : list R) :
  StronglySorted order l -> StronglySorted order (firstn n l).
Proof.
  intros Hs. revert n. induction Hs as [| x l Hs IH Hx]; intros [| n]; simpl;
    try constructor.
  - apply IH.
  - apply Forall_forall. intros y Hy. rewrite Forall_forall in Hx.
    apply Hx. eapply in_firstn, Hy.
Qed.

Lemma firstn_before_skipn (n : nat) (l : list R) :
  StronglySorted order l ->
  forall s r, In s (firstn n l) -> In r (skipn n l) -> order s r.
Proof.
  intros Hs. revert n. induction Hs as [| x l Hs IH Hx]; intros [| n] s r;
    simpl; try contradiction.
  intros [<- | Hin] Hr.
  - rewrite Forall_forall in Hx. apply Hx. eapply in_skipn, Hr.
  - now apply (IH n).
Qed.

(** The first six rows of a sorted frame are a best six of its rows. *)
Lemma head6_top_six (l : list R) :
  (forall x y, In x l -> In y l -> (leb x y = true <-> order x y)) ->
  top_six order l (head6 (stable_sort leb l)).
Proof.
  intros Hdec. unfold top_six, head6.
  pose proof (stable_sort_sorted l Hdec) as Hs.
  split; [| split].
  - rewrite length_firstn, (Permutation_length (stable_sort_perm l)).
    reflexivity.
  - now apply firstn_sorted.
  - exists (skipn 6 (stable_sort leb l)). split.
    + rewrite firstn_skipn. apply Permutation_sym, stable_sort_perm.
    + now apply firstn_before_skipn.
Qed.

End StableSort.

(** ** The ranking order *)

Lemma outranks_trichotomy (a b : option Q) :
  outranks a b \/ level a b \/ outranks b a.
Proof.
  destruct a as [x |], b as [y |]; simpl; auto.
  destruct (Qcompare_spec x y); auto.
Qed.

Lemma not_above_total (a b : option Q) : not_above a b \/ not_above b a.
Proof.
  destruct a as [x |], b as [y |]; simpl; auto.
  destruct (Qlt_le_dec x y); [left; now apply Qlt_le_weak | now right].
Qed.

Lemma level_sym (a b : option Q) : level a b -> level b a.
Proof. destruct a, b; simpl; auto. intros H. now symmetry. Qed.

Lemma ranked_before_total {R : Type} (k1 k2 : R -> json) (r1 r2 : R) :
  ranked_before k1 k2 r1 r2 \/ ranked_before k1 k2 r2 r1.
Proof.
  unfold ranked_before.
  destruct (outranks_trichotomy (rank (k1 r1)) (rank (k1 r2)))
    as [H | [H | H]]; auto.
  destruct (not_above_total (rank (k2 r1)) (rank (k2 r2))); auto.
  right. right. split; [now apply level_sym | assumption].
Qed.

Lemma ranked_before_trans {R : Type} (k1 k2 : R -> json) (r1 r2 r3 : R) :
  ranked_before k1 k2 r1 r2 -> ranked_before k1 k2 r2 r3 ->
  ranked_before k1 k2 r1 r3.
Proof.
  unfold ranked_before.
  destruct (rank (k1 r1)) as [a1 |], (rank (k1 r2)) as [a2 |],
    (rank (k1 r3)) as [a3 |]; simpl;
    destruct (rank (k2 r1)) as [b1 |], (rank (k2 r2)) as [b2 |],
      (rank (k2 r3)) as [b3 |]; simpl;
    intros [H12 | [H12 H12']] [H23 | [H23 H23']];
    try contradiction; auto;
    try (left; lra); try (right; split; lra).
Qed.

Lemma number_or_null_cases (v : json) :
  is_number_or_null v = true ->
  (v = JNull /\ rank v = None) \/
  (exists x, rank v = Some x /\ is_null v = false).
Proof.
  unfold is_number_or_null, rank.
  destruct v as [| b | q | | |]; simpl; try discriminate; intros _.
  - now left.
  - right. eexists. split; reflexivity.
  - right. eexists. split; reflexivity.
Qed.

Lemma cell_compare_numbers (a b : json) (x y : Q) :
  rank a = Some x -> rank b = Some y -> cell_compare a b = Qcompare x y.
Proof. unfold rank, cell_compare. now intros -> ->. Qed.

(** On numbers and missing values the descending key comparison decides
    [outranks] and [level]. *)
Lemma key_compare_descending (a b : json) :
  is_number_or_null a = true -> is_number_or_null b = true ->
  (key_compare false a b = Lt <-> outranks (rank a) (rank b)) /\
  (key_compare false a b = Eq <-> level (rank a) (rank b)).
Proof.
  intros Ha Hb.
  destruct (number_or_null_cases a Ha) as [[-> Ra] | [x [Ra Na]]];
    destruct (number_or_null_cases b Hb) as [[-> Rb] | [y [Rb Nb]]];
    unfold key_compare; simpl is_null; rewrite ?Na, ?Nb, ?Ra, ?Rb; simpl.
  - intuition congruence.
  - intuition congruence.
  - intuition congruence.
  - rewrite (cell_compare_numbers a b Ra Rb), Qcompare_antisym.
    split; [symmetry; apply Qlt_alt |].
    rewrite <- Qeq_alt. split; intros H; now symmetry.
Qed.

(** On numbers and missing values the ascending key comparison decides
    [not_above]. *)
Lemma key_compare_ascending (a b : json) :
  is_number_or_null a = true -> is_number_or_null b = true ->
  (key_compare true a b <> Gt <-> not_above (rank a) (rank b)).
Proof.
  intros Ha Hb.
  destruct (number_or_null_cases a Ha) as [[-> Ra] | [x [Ra Na]]];
    destruct (number_or_null_cases b Hb) as [[-> Rb] | [y [Rb Nb]]];
    unfold key_compare; simpl is_null; rewrite ?Na, ?Nb, ?Ra, ?Rb; simpl.
  - intuition congruence.
  - intuition congruence.
  - intuition congruence.
  - rewrite (cell_compare_numbers a b Ra Rb). symmetry. apply Qle_alt.
Qed.

Lemma rows_leb_decides {R : Type} (k1 k2 : R -> json) (r1 r2 : R) :
  is_number_or_null (k1 r1) = true -> is_number_or_null (k1 r2) = true ->
  is_number_or_null (k2 r1) = true -> is_number_or_null (k2 r2) = true ->
  (rows_leb k1 k2 false true r1 r2 = true <-> ranked_before k1 k2 r1 r2).
Proof.
  intros H11 H12 H21 H22. unfold rows_leb, ranked_before.
  destruct (key_compare_descending _ _ H11 H12) as [Hlt Heq].
  pose proof (key_compare_ascending _ _ H21 H22) as Hasc.
  destruct (key_compare false (k1 r1) (k1 r2)) eqn:E1.
  - destruct (key_compare true (k2 r1) (k2 r2)) eqn:E2.
    + split; [| reflexivity]. intros _. right.
      split; [now apply Heq | apply Hasc; discriminate].
    + split; [| reflexivity]. intros _. right.
      split; [now apply Heq | apply Hasc; discriminate].
    + split; [discriminate |]. intros [H | [_ H]].
      * apply Hlt in H. discriminate.
      * apply Hasc in H. congruence.
  - split; [| reflexivity]. intros _. left. now apply Hlt.
  - split; [discriminate |]. intros [H | [H _]].
    + apply Hlt in H. discriminate.
    + apply Heq in H. discriminate.
Qed.

Lemma rank_fill (value : string) (v : json) : rank (fill value v) = rank v.
Proof. destruct v; reflexivity. Qed.

Lemma batting_order_fill (value : string) (r1 r2 : Batting.t) :
  batting_order (fill_batting value r1) (fill_batting value r2)
  <-> batting_order r1 r2.
Proof.
  unfold batting_order, ranked_before. simpl. rewrite !rank_fill. reflexivity.
Qed.

(** ** The selector *)

Lemma text_column_accepts_str (cells : list json) :
  forallb is_text_or_null cells = true -> str_accessor_ok cells = true.
Proof.
  unfold str_accessor_ok. induction cells as [| c cells IH]; simpl.
  - reflexivity.
  - intros H. apply andb_prop in H. destruct H as [Hc Hrest].
    specialize (IH Hrest). destruct c; simpl in *; try discriminate; auto.
Qed.

Lemma forallb_map {A B : Type} (f : A -> B) (p : B -> bool) (l : list A) :
  forallb p (map f l) = forallb (fun x => p (f x)) l.
Proof. induction l; simpl; congruence. Qed.

Lemma forallb_weaken {A : Type} (p q : A -> bool) (l : list A) :
  (forall x, p x = true -> q x = true) ->
  forallb p l = true -> forallb q l = true.
Proof.
  intros Hpq. rewrite !forallb_forall. auto.
Qed.

Lemma top_six_at_most {R : Type} (order : R -> R -> Prop)
    (qualifying selected : list R) :
  top_six order qualifying selected -> (length selected <= 6)%nat.
Proof. intros [H _]. rewrite H. apply Nat.le_min_l. Qed.

Lemma top_six_all {R : Type} (order : R -> R -> Prop)
    (qualifying selected : list R) :
  top_six order qualifying selected ->
  (length qualifying <= 6)%nat -> Permutation selected qualifying.
Proof.
  intros [Hlen [_ [rest [Hperm _]]]] Hsmall.
  pose proof (Permutation_length Hperm) as Hl. rewrite length_app in Hl.
  assert (rest = []) by (apply length_zero_iff_nil; lia).
  subst rest. rewrite app_nil_r in Hperm. now apply Permutation_sym.
Qed.

Lemma StronglySorted_map {A B : Type} (f : A -> B) (order : B -> B -> Prop)
    (l : list A) :
  StronglySorted (fun a b => order (f a) (f b)) l ->
  StronglySorted order (map f l).
Proof.
  induction 1 as [| x l Hs IH Hx]; simpl; constructor.
  - exact IH.
  - apply Forall_map. exact Hx.
Qed.

Lemma top_six_map {A B : Type} (f : A -> B) (order : B -> B -> Prop)
    (qualifying selected : list A) :
  top_six (fun a b => order (f a) (f b)) qualifying selected ->
  top_six order (map f qualifying) (map f selected).
Proof.
  intros [Hlen [Hs [rest [Hperm Hrest]]]].
  split; [now rewrite !length_map |].
  split; [now apply StronglySorted_map |].
  exists (map f rest). split.
  - rewrite <- map_app. now apply Permutation_map.
  - intros s r Hs' Hr'. apply in_map_iff in Hs'. apply in_map_iff in Hr'.
    destruct Hs' as [a [<- Ha]]. destruct Hr' as [b [<- Hb]]. now apply Hrest.
Qed.

Lemma top_six_ext {R : Type} (order order' : R -> R -> Prop)
    (qualifying selected : list R) :
  (forall a b, order a b -> order' a b) ->
  top_six order qualifying selected -> top_six order' qualifying selected.
Proof.
  intros Himp [Hlen [Hs [rest [Hperm Hrest]]]].
  split; [exact Hlen |]. split.
  - clear Hlen Hperm Hrest. induction Hs as [| x l Hs IH Hx]; constructor.
    + exact IH.
    + eapply Forall_impl; [| exact Hx]. intros y. apply Himp.
  - exists rest. split; [exact Hperm |]. intros s r Hs' Hr'.
    apply Himp. now apply Hrest.
Qed.

(** *** One sponsor row per player *)

Lemma key_eqb_common (n a b : json) :
  key_eqb n a = true -> key_eqb n b = true -> key_eqb a b = true.
Proof.
  unfold key_eqb.
  destruct (as_number n) as [x |] eqn:En.
  - destruct (as_number a) as [y |] eqn:Ea.
    + destruct (as_number b) as [z |] eqn:Eb.
      * intros H1 H2. apply Qeq_bool_iff in H1. apply Qeq_bool_iff in H2.
        apply Qeq_bool_iff. now rewrite <- H1, <- H2.
      * destruct n; simpl in *; try discriminate; destruct b; discriminate.
    + destruct n; simpl in *; try discriminate; destruct a; discriminate.
  - destruct n as [| | | s | |]; simpl in En; try discriminate; intros H1 H2;
      destruct a as [| | | sa | |]; simpl in H1; try discriminate;
      destruct b as [| | | sb | |]; simpl in H2; try discriminate; simpl.
    + reflexivity.
    + apply String.eqb_eq in H1. apply String.eqb_eq in H2. subst.
      apply String.eqb_refl.
Qed.

Lemma filter_length_le {A : Type} (f g : A -> bool) (l : list A) :
  (forall x, In x l -> f x = true -> g x = true) ->
  (length (filter f l) <= length (filter g l))%nat.
Proof.
  induction l as [| x l IH]; intros H; simpl.
  - lia.
  - assert (IH' := IH (fun y Hy => H y (or_intror Hy))).
    destruct (f x) eqn:Ef.
    + rewrite (H x (or_introl eq_refl) Ef). simpl. lia.
    + destruct (g x); simpl; lia.
Qed.

Lemma unique_players_at_most_one (sponsors : roster) (name : json) :
  unique_players sponsors = true ->
  (length (filter (fun e => key_eqb name (fst e)) sponsors) <= 1)%nat.
Proof.
  intros Hu.
  destruct (filter (fun e => key_eqb name (fst e)) sponsors) as [| e0 rest]
    eqn:Ef; [simpl; lia |].
  assert (He0 : In e0 sponsors /\ key_eqb name (fst e0) = true).
  { apply (filter_In (fun e => key_eqb name (fst e))). rewrite Ef. now left. }
  destruct He0 as [Hin Hk].
  unfold unique_players in Hu. rewrite forallb_forall in Hu.
  specialize (Hu e0 Hin). apply Nat.leb_le in Hu.
  rewrite <- Ef.
  eapply Nat.le_trans; [| exact Hu].
  apply filter_length_le. intros e _ He. eapply key_eqb_common; eassumption.
Qed.

Lemma merge_left_rows {R : Type} (name : R -> json) (sponsors : roster)
    (rows : list R) :
  unique_players sponsors = true ->
  map row (merge_left name sponsors rows) = rows.
Proof.
  intros Hu. unfold merge_left. induction rows as [| r rows IH].
  - reflexivity.
  - cbn [flat_map]. rewrite map_app, IH.
    pose proof (unique_players_at_most_one sponsors (name r) Hu) as H1.
    destruct (filter (fun e => key_eqb (name r) (fst e)) sponsors)
      as [| e [| e' rest]]; simpl in *; try reflexivity; lia.
Qed.

(** *** Filter, sort and cut *)

Section Selection.

Context {R : Type}.
Variables name k1 k2 : R -> json.

Lemma select_top_six (rows : list R) :
  forallb (fun r => is_number_or_null (k1 r) && is_number_or_null (k2 r))
    rows = true ->
  let qualifying := filter (fun r => is_player (name r)) rows in
  exists selected,
    (sorted <- sort_values k1 k2 false true qualifying ;; Ok (head6 sorted))
    = Ok selected /\
    top_six (ranked_before k1 k2) qualifying selected /\
    Forall (fun r => is_player (name r) = true) selected.
Proof.
  intros Hnum qualifying.
  assert (Hq : forall r, In r qualifying ->
                 is_number_or_null (k1 r) = true /\
                 is_number_or_null (k2 r) = true).
  { intros r Hr. apply filter_In in Hr. destruct Hr as [Hr _].
    rewrite forallb_forall in Hnum. now apply andb_prop, Hnum. }
  assert (Hsortable : sortable (map k1 qualifying)
                      && sortable (map k2 qualifying) = true).
  { unfold sortable. apply andb_true_intro.
    split; apply orb_true_intro; left; rewrite forallb_map;
      apply forallb_forall; intros r Hr; apply (Hq r Hr). }
  exists (head6 (stable_sort (rows_leb k1 k2 false true) qualifying)).
  unfold sort_values. rewrite Hsortable. split; [reflexivity |].
  assert (Htop : top_six (ranked_before k1 k2) qualifying
                   (head6 (stable_sort (rows_leb k1 k2 false true)
                             qualifying))).
  { apply head6_top_six.
    - apply ranked_before_total.
    - apply ranked_before_trans.
    - intros x y Hx Hy. destruct (Hq x Hx), (Hq y Hy).
      now apply rows_leb_decides. }
  split; [exact Htop |].
  apply Forall_forall. intros r Hr.
  assert (Hin : In r qualifying).
  { apply in_firstn in Hr.
    exact (Permutation_in _ (stable_sort_perm _ qualifying) Hr). }
  apply filter_In in Hin. apply Hin.
Qed.

End Selection.

Lemma normalise_batting_ok (rows : list Batting.t) :
  forallb (fun r => is_text_or_null (Batting.PlayerName r)) rows = true ->
  normalise_names Batting.PlayerName set_batting_name (Frame rows)
  = Ok (normalised_batting rows).
Proof.
  intros H. unfold normalise_names.
  rewrite text_column_accepts_str; [reflexivity |]. now rewrite forallb_map.
Qed.

Lemma normalise_bowling_ok (rows : list Bowling.t) :
  forallb (fun r => is_text_or_null (Bowling.PlayerName r)) rows = true ->
  normalise_names Bowling.PlayerName set_bowling_name (Frame rows)
  = Ok (normalised_bowling rows).
Proof.
  intros H. unfold normalise_names.
  rewrite text_column_accepts_str; [reflexivity |]. now rewrite forallb_map.
Qed.

Lemma is_player_fill (value : string) (v : json) :
  is_player (JStr value) = true ->
  is_player v = true -> is_player (fill value v) = true.
Proof. destruct v; simpl; auto. Qed.

(** *** Aggregate rows *)

Lemma is_aggregate_row_spec (name : json) :
  is_aggregate_row name = true <-> aggregate_row name.
Proof.
  unfold aggregate_row. destruct name as [| | | s | |]; cbn [is_aggregate_row];
    try (split; [discriminate | intros [H | H]; discriminate H]).
  rewrite orb_true_iff, !String.eqb_eq.
  split; (intros [H | H]; [left | right]); congruence.
Qed.

(** The filter of the selector keeps the rows that are not aggregate
    rows. *)
Lemma is_player_not_aggregate (name : json) :
  is_player name = negb (is_aggregate_row name).
Proof.
  unfold is_player. destruct name as [| | | s | |]; try reflexivity.
  cbn [json_is_str is_aggregate_row].
  now rewrite (String.eqb_sym "Extras" s), (String.eqb_sym "Total" s).
Qed.

Lemma is_player_named (name : json) :
  is_player name = true -> ~ aggregate_row name.
Proof.
  rewrite is_player_not_aggregate, negb_true_iff. intros H Hagg.
  apply is_aggregate_row_spec in Hagg. congruence.
Qed.

Lemma qualifying_are_ranked (batting_rows : list Batting.t)
    (bowling_rows : list Bowling.t) :
  qualifying_batters batting_rows = ranked_batters batting_rows /\
  qualifying_bowlers bowling_rows = ranked_bowlers bowling_rows.
Proof.
  unfold qualifying_batters, ranked_batters, qualifying_bowlers,
    ranked_bowlers.
  split; apply filter_ext; intros r; apply is_player_not_aggregate.
Qed.

(** C5.  On frames with the columns of the record schema and a sponsor
    table that lists no player twice, the selector returns.  The rows whose
    name, after the name clean-up, is [Extras] or [Total] take no part:
    none of them is in either output, and the ranking is among the other
    rows.  Each output has six rows, or all the ranked rows when there are
    fewer, and not one more; the batting rows are the best six by runs
    descending then balls ascending and stand in that order; the bowling
    rows are the best six by wickets descending then runs ascending and
    stand in that order. *)
Theorem top_performers_selected (sponsors : roster)
    (batting_rows : list Batting.t) (bowling_rows : list Bowling.t) :
  batting_schema batting_rows = true ->
  bowling_schema bowling_rows = true ->
  unique_players sponsors = true ->
  exists top_6_batters top_6_bowlers,
    data_wrangling sponsors (Frame batting_rows) (Frame bowling_rows)
    = Ok (top_6_batters, top_6_bowlers) /\
    (length top_6_batters <= 6)%nat /\
    (length top_6_bowlers <= 6)%nat /\
    top_six batting_order
      (map (fill_batting "Available To Sponsor")
         (ranked_batters batting_rows))
      (map row top_6_batters) /\
    top_six bowling_order (ranked_bowlers bowling_rows)
      (map row top_6_bowlers) /\
    Forall (fun t => ~ aggregate_row (Batting.PlayerName (row t)))
      top_6_batters /\
    Forall (fun t => ~ aggregate_row (Bowling.PlayerName (row t)))
      top_6_bowlers /\
    ((length (ranked_batters batting_rows) < 6)%nat ->
       Permutation (map row top_6_batters)
         (map (fill_batting "Available To Sponsor")
            (ranked_batters batting_rows))) /\
    ((length (ranked_bowlers bowling_rows) < 6)%nat ->
       Permutation (map row top_6_bowlers)
         (ranked_bowlers bowling_rows)).
Proof.
  intros Hb Hw Hu. unfold batting_schema, bowling_schema in *.
  assert (Hbn : forallb (fun r => is_text_or_null (Batting.PlayerName r))
                  batting_rows = true).
  { revert Hb. apply forallb_weaken. intros r H.
    apply andb_prop in H. destruct H as [H _]. now apply andb_prop in H. }
  assert (Hwn : forallb (fun r => is_text_or_null (Bowling.PlayerName r))
                  bowling_rows = true).
  { revert Hw. apply forallb_weaken. intros r H.
    apply andb_prop in H. destruct H as [H _]. now apply andb_prop in H. }
  assert (Hbk : forallb (fun r => is_number_or_null (Batting.Runs r)
                                  && is_number_or_null (Batting.Balls r))
                  (normalised_batting batting_rows) = true).
  { unfold normalised_batting. rewrite forallb_map. simpl.
    revert Hb. apply forallb_weaken. intros r H.
    apply andb_prop in H. destruct H as [H H2].
    apply andb_prop in H. destruct H as [_ H1]. now rewrite H1, H2. }
  assert (Hwk : forallb (fun r => is_number_or_null (Bowling.Wickets r)
                                  && is_number_or_null (Bowling.Runs r))
                  (normalised_bowling bowling_rows) = true).
  { unfold normalised_bowling. rewrite forallb_map. simpl.
    revert Hw. apply forallb_weaken. intros r H.
    apply andb_prop in H. destruct H as [H H2].
    apply andb_prop in H. destruct H as [_ H1]. now rewrite H1, H2. }
  destruct (select_top_six Batting.PlayerName Batting.Runs Batting.Balls
              _ Hbk) as [sel_b [Esel_b [Htop_b Hpl_b]]].
  destruct (select_top_six Bowling.PlayerName Bowling.Wickets Bowling.Runs
              _ Hwk) as [sel_w [Esel_w [Htop_w Hpl_w]]].
  fold (qualifying_batters batting_rows) in Htop_b, Esel_b.
  fold (qualifying_bowlers bowling_rows) in Htop_w, Esel_w.
  destruct (qualifying_are_ranked batting_rows bowling_rows) as [Eb Ew].
  rewrite Eb in Htop_b. rewrite Ew in Htop_w.
  set (top_b := map (fillna_frame "Available To Sponsor")
                  (merge_left Batting.PlayerName sponsors sel_b)).
  set (top_w := map (fillna_sponsor "Available to Sponsor")
                  (merge_left Bowling.PlayerName sponsors sel_w)).
  assert (Hrows_b : map row top_b
                    = map (fill_batting "Available To Sponsor") sel_b).
  { unfold top_b. rewrite map_map. simpl.
    rewrite <- (merge_left_rows Batting.PlayerName sponsors sel_b Hu) at 2.
    now rewrite map_map. }
  assert (Hrows_w : map row top_w = sel_w).
  { unfold top_w. rewrite map_map. simpl.
    now apply merge_left_rows. }
  assert (Htop_b' : top_six batting_order
                      (map (fill_batting "Available To Sponsor")
                         (ranked_batters batting_rows))
                      (map row top_b)).
  { rewrite Hrows_b. apply top_six_map.
    eapply top_six_ext; [| exact Htop_b].
    intros a b. apply batting_order_fill. }
  assert (Htop_w' : top_six bowling_order (ranked_bowlers bowling_rows)
                      (map row top_w)) by (now rewrite Hrows_w).
  exists top_b, top_w. split.
  { unfold data_wrangling.
    rewrite (normalise_batting_ok _ Hbn), (normalise_bowling_ok _ Hwn).
    cbn [bind]. unfold select_batters, select_bowlers.
    unfold qualifying_batters in Esel_b. unfold qualifying_bowlers in Esel_w.
    rewrite Esel_b. cbn [bind]. rewrite Esel_w. reflexivity. }
  split. { rewrite <- (length_map row). eapply top_six_at_most, Htop_b'. }
  split. { rewrite <- (length_map row). eapply top_six_at_most, Htop_w'. }
  split; [exact Htop_b' |]. split; [exact Htop_w' |].
  split.
  { apply Forall_forall. intros t Ht.
    assert (Hin : In (row t) (map row top_b)) by (now apply in_map).
    rewrite Hrows_b in Hin. apply in_map_iff in Hin.
    destruct Hin as [r [<- Hr]]. simpl.
    apply is_player_named, is_player_fill; [reflexivity |].
    rewrite Forall_forall in Hpl_b. now apply Hpl_b. }
  split.
  { apply Forall_forall. intros t Ht.
    assert (Hin : In (row t) (map row top_w)) by (now apply in_map).
    rewrite Hrows_w in Hin. rewrite Forall_forall in Hpl_w.
    now apply is_player_named, Hpl_w. }
  split.
  - intros Hsmall. eapply top_six_all; [exact Htop_b' |].
    rewrite length_map. lia.
  - intros Hsmall. eapply top_six_all; [exact Htop_w' |]. lia.
Qed.

(** ** The sponsor join and the fill *)

Lemma data_wrangling_inv (sponsors : roster)
    (batting_df : DataFrame Batting.t) (bowling_df : DataFrame Bowling.t)
    (top_6_batters : list (Ranked Batting.t))
    (top_6_bowlers : list (Ranked Bowling.t)) :
  data_wrangling sponsors batting_df bowling_df
  = Ok (top_6_batters, top_6_bowlers) ->
  exists sel_b sel_w,
    selected_batters batting_df = Ok sel_b /\
    selected_bowlers bowling_df = Ok sel_w /\
    top_6_batters = map (fillna_frame "Available To Sponsor")
                      (merge_left Batting.PlayerName sponsors sel_b) /\
    top_6_bowlers = map (fillna_sponsor "Available to Sponsor")
                      (merge_left Bowling.PlayerName sponsors sel_w).
Proof.
  unfold data_wrangling, selected_batters, selected_bowlers. intros H.
  bind_named H batting Ebatting. bind_named H bowling Ebowling.
  bind_named H sel_b Esel_b. bind_named H sel_w Esel_w.
  injection H as <- <-. exists sel_b, sel_w.
  rewrite Ebatting, Ebowling. simpl. auto.
Qed.

Section MergeLeft.

Context {R : Type}.
Variable name : R -> json.
Variable sponsors : roster.

Lemma filter_nil_none {A : Type} (f : A -> bool) (l : list A) :
  filter f l = [] -> forall x, In x l -> f x = false.
Proof.
  intros H x Hx. destruct (f x) eqn:E; [| reflexivity].
  assert (Hin : In x (filter f l)) by (apply filter_In; auto).
  rewrite H in Hin. contradiction.
Qed.

(** Every row of the merge is a left row with the sponsor cell of a
    matching sponsor row, or with a missing one when nothing matches. *)
Lemma merge_left_in (rows : list R) (t : Ranked R) :
  In t (merge_left name sponsors rows) ->
  In (row t) rows /\
  (((forall e, In e sponsors -> key_eqb (name (row t)) (fst e) = false) /\
    Sponsor_Name t = JNull) \/
   (exists e, In e sponsors /\ key_eqb (name (row t)) (fst e) = true /\
              Sponsor_Name t = snd e)).
Proof.
  unfold merge_left. intros H. apply in_flat_map in H.
  destruct H as [r [Hr Ht]].
  destruct (filter (fun e => key_eqb (name r) (fst e)) sponsors)
    as [| e0 rest] eqn:Ef.
  - destruct Ht as [<- | []]. simpl. split; [exact Hr |]. left.
    split; [| reflexivity]. intros e He.
    exact (filter_nil_none _ _ Ef e He).
  - apply in_map_iff in Ht. destruct Ht as [e [<- He]]. simpl.
    split; [exact Hr |]. right. exists e.
    rewrite <- Ef in He. apply filter_In in He. destruct He as [He Hk].
    auto.
Qed.

(** Every left row is kept by the merge. *)
Lemma merge_left_covers (rows : list R) (r : R) :
  In r rows -> exists t, In t (merge_left name sponsors rows) /\ row t = r.
Proof.
  intros Hr. unfold merge_left.
  destruct (filter (fun e => key_eqb (name r) (fst e)) sponsors)
    as [| e0 rest] eqn:Ef.
  - exists (MkRanked r JNull). split; [| reflexivity].
    apply in_flat_map. exists r. split; [exact Hr |]. rewrite Ef. now left.
  - exists (MkRanked r (snd e0)). split; [| reflexivity].
    apply in_flat_map. exists r. split; [exact Hr |]. rewrite Ef. now left.
Qed.

End MergeLeft.

Lemma dropna_no_null (csv : roster) (e : json * json) :
  In e (dropna csv) -> In e csv /\ fst e <> JNull /\ snd e <> JNull.
Proof.
  unfold dropna. intros H. apply filter_In in H. destruct H as [Hin H].
  apply andb_prop in H. destruct H as [H1 H2].
  split; [exact Hin |].
  split; intros Hn; rewrite Hn in *; discriminate.
Qed.


Lemma fill_present (value : string) (v : json) : v <> JNull -> fill value v = v.
Proof. destruct v; simpl; congruence. Qed.

(** Names that are text match exactly when they are the same string. *)
Lemma key_eqb_text (a b : string) : key_eqb (JStr a) (JStr b) = true <-> a = b.
Proof. simpl. apply String.eqb_eq. Qed.

(** C8.  In the output of the selector every selected record appears, and
    each output row is a selected record with its sponsor cell: when no row
    of the sponsor table carries the record's cleaned name, the cell is
    exactly ["Available To Sponsor"] in the batting output and exactly
    ["Available to Sponsor"] in the bowling output; otherwise it is the
    sponsor name of a table row with that name. *)
Theorem sponsor_join (csv : roster)
    (batting_df : DataFrame Batting.t) (bowling_df : DataFrame Bowling.t)
    (top_6_batters : list (Ranked Batting.t))
    (top_6_bowlers : list (Ranked Bowling.t)) :
  data_wrangling (dropna csv) batting_df bowling_df
  = Ok (top_6_batters, top_6_bowlers) ->
  exists sel_b sel_w,
    selected_batters batting_df = Ok sel_b /\
    selected_bowlers bowling_df = Ok sel_w /\
    (forall r, In r sel_b ->
       exists t, In t top_6_batters /\
                 row t = fill_batting "Available To Sponsor" r) /\
    (forall t, In t top_6_batters ->
       exists r, In r sel_b /\
                 row t = fill_batting "Available To Sponsor" r /\
                 sponsor_given "Available To Sponsor" (dropna csv)
                   (Batting.PlayerName r) (Sponsor_Name t)) /\
    (forall r, In r sel_w -> exists t, In t top_6_bowlers /\ row t = r) /\
    (forall t, In t top_6_bowlers ->
       In (row t) sel_w /\
       sponsor_given "Available to Sponsor" (dropna csv)
         (Bowling.PlayerName (row t)) (Sponsor_Name t)).
Proof.
  intros H. apply data_wrangling_inv in H.
  destruct H as [sel_b [sel_w [Hb [Hw [-> ->]]]]].
  exists sel_b, sel_w. split; [exact Hb |]. split; [exact Hw |].
  assert (Hgiven : forall (R : Type) (name : R -> json) (ph : string)
                          (rows : list R) (t : Ranked R),
             In t (merge_left name (dropna csv) rows) ->
             sponsor_given ph (dropna csv) (name (row t))
               (fill ph (Sponsor_Name t))).
  { intros R name ph rows t Ht. apply merge_left_in in Ht.
    destruct Ht as [_ [[Hnone ->] | [e [He [Hk ->]]]]].
    - left. split; [exact Hnone | reflexivity].
    - right. exists e. split; [exact He |]. split; [exact Hk |].
      apply fill_present. now apply dropna_no_null in He. }
  split; [| split; [| split]].
  - intros r Hr.
    destruct (merge_left_covers Batting.PlayerName (dropna csv) sel_b r Hr)
      as [t [Ht <-]].
    exists (fillna_frame "Available To Sponsor" t). split; [| reflexivity].
    now apply in_map.
  - intros t Ht. apply in_map_iff in Ht. destruct Ht as [t0 [<- Ht0]].
    exists (row t0). split; [now apply merge_left_in in Ht0 |].
    split; [reflexivity |]. simpl. eapply Hgiven, Ht0.
  - intros r Hr.
    destruct (merge_left_covers Bowling.PlayerName (dropna csv) sel_w r Hr)
      as [t [Ht <-]].
    exists (fillna_sponsor "Available to Sponsor" t). split; [| reflexivity].
    now apply in_map.
  - intros t Ht. apply in_map_iff in Ht. destruct Ht as [t0 [<- Ht0]].
    simpl. split; [now apply merge_left_in in Ht0 |].
    eapply Hgiven, Ht0.
Qed.



(** *** The selector on the sample frames *)

Example sample_batting_ranking :
  map (fun t => (Batting.PlayerName (row t), Batting.Runs (row t),
                 Batting.Balls (row t), Sponsor_Name t))
    (fst SampleFrames.top_6)
  = [(JStr "B Hitter", num 80, num 55, JStr "Crossroads Garage");
     (JStr "C Anchor", num 50, num 30, JStr "Available To Sponsor");
     (JStr "A Opener", num 50, num 40, JStr "Available To Sponsor");
     (JStr "Ted Stead", num 45, num 30, JStr "Hill Top Bakery");
     (JStr "E Keeper", num 10, num 4, JStr "Available To Sponsor");
     (JStr "D Tail", num 10, JStr "Available To Sponsor",
      JStr "Available To Sponsor")].
Proof. reflexivity. Qed.

Example sample_bowling_ranking :
  map (fun t => (Bowling.PlayerName (row t), Bowling.Wickets (row t),
                 Bowling.Runs (row t), Bowling.Maidens (row t),
                 Sponsor_Name t))
    (snd SampleFrames.top_6)
  = [(JStr "Q Spin", num 5, num 29, JNull, JStr "Valley Motors");
     (JStr "P Change", num 2, num 12, JNull, JStr "Available to Sponsor");
     (JStr "O Seamer", num 2, num 43, JNull, JStr "Available to Sponsor")].
Proof. reflexivity. Qed.

(** A player entered twice in the sponsor table is repeated by the merge,
    and the batting output then has seven rows. *)
Example duplicate_sponsor_repeats_row :
  unique_players (dropna SampleFrames.sponsors_twice) = false /\
  option_map (fun p => length (fst p))
    (match data_wrangling (dropna SampleFrames.sponsors_twice)
             (Frame SampleFrames.batting_rows)
             (Frame SampleFrames.bowling_rows) with
     | Ok p => Some p
     | Raise _ => None
     end) = Some 7.
Proof. split; reflexivity. Qed.

(** A frame without columns, as built from no record at all, stops the
    selector at the first column access. *)
Example no_columns_key_error :
  data_wrangling SampleFrames.sponsors NoColumns NoColumns = Raise KeyError.
Proof. reflexivity. Qed.

(** With a player entered twice in the sponsor table, on frames of the
    record schema, the batting output has seven rows: the bound of six does
    not hold for every sponsor table. *)
Lemma selector_returns_seven_rows :
  batting_schema SampleFrames.batting_rows = true /\
  bowling_schema SampleFrames.bowling_rows = true /\
  exists top_6_batters top_6_bowlers,
    data_wrangling (dropna SampleFrames.sponsors_twice)
      (Frame SampleFrames.batting_rows) (Frame SampleFrames.bowling_rows)
    = Ok (top_6_batters, top_6_bowlers) /\
    length top_6_batters = 7 /\
    ~ (length top_6_batters <= 6)%nat.
Proof.
  split; [reflexivity |]. split; [reflexivity |].
  eexists. eexists. split; [reflexivity |]. split; [reflexivity |].
  cbn. lia.
Qed.

(** The rows ranked on the sample frames: the two aggregate rows are left
    out. *)
Example sample_ranked_rows :
  map Batting.PlayerName (ranked_batters SampleFrames.batting_rows)
  = [JStr "A Opener"; JStr "B Hitter"; JStr "C Anchor"; JStr "Ted Stead";
     JStr "D Tail"; JStr "E Keeper"; JStr "F Absent"; JStr "G Duck"].
Proof. reflexivity. Qed.

Lemma top_performers_selected_witness :
  batting_schema SampleFrames.batting_rows = true /\
  bowling_schema SampleFrames.bowling_rows = true /\
  unique_players (dropna SampleFrames.sponsors) = true /\
  exists top_6_batters top_6_bowlers,
    data_wrangling (dropna SampleFrames.sponsors)
      (Frame SampleFrames.batting_rows) (Frame SampleFrames.bowling_rows)
    = Ok (top_6_batters, top_6_bowlers) /\
    (length top_6_batters <= 6)%nat /\
    (length top_6_bowlers <= 6)%nat /\
    top_six batting_order
      (map (fill_batting "Available To Sponsor")
         (ranked_batters SampleFrames.batting_rows))
      (map row top_6_batters) /\
    top_six bowling_order (ranked_bowlers SampleFrames.bowling_rows)
      (map row top_6_bowlers) /\
    Forall (fun t => ~ aggregate_row (Batting.PlayerName (row t)))
      top_6_batters /\
    Forall (fun t => ~ aggregate_row (Bowling.PlayerName (row t)))
      top_6_bowlers /\
    ((length (ranked_batters SampleFrames.batting_rows) < 6)%nat ->
       Permutation (map row top_6_batters)
         (map (fill_batting "Available To Sponsor")
            (ranked_batters SampleFrames.batting_rows))) /\
    ((length (ranked_bowlers SampleFrames.bowling_rows) < 6)%nat ->
       Permutation (map row top_6_bowlers)
         (ranked_bowlers SampleFrames.bowling_rows)).
Proof.
  split; [reflexivity |]. split; [reflexivity |]. split; [reflexivity |].
  apply (top_performers_selected (dropna SampleFrames.sponsors)
           SampleFrames.batting_rows SampleFrames.bowling_rows);
    reflexivity.
Defined.

Lemma sponsor_join_witness :
  exists sel_b sel_w,
    selected_batters (Frame SampleFrames.batting_rows) = Ok sel_b /\
    selected_bowlers (Frame SampleFrames.bowling_rows) = Ok sel_w /\
    (forall r, In r sel_b ->
       exists t, In t (fst SampleFrames.top_6) /\
                 row t = fill_batting "Available To Sponsor" r) /\
    (forall t, In t (fst SampleFrames.top_6) ->
       exists r, In r sel_b /\
                 row t = fill_batting "Available To Sponsor" r /\
                 sponsor_given "Available To Sponsor"
                   (dropna SampleFrames.sponsors)
                   (Batting.PlayerName r) (Sponsor_Name t)) /\
    (forall r, In r sel_w ->
       exists t, In t (snd SampleFrames.top_6) /\ row t = r) /\
    (forall t, In t (snd SampleFrames.top_6) ->
       In (row t) sel_w /\
       sponsor_given "Available to Sponsor" (dropna SampleFrames.sponsors)
         (Bowling.PlayerName (row t)) (Sponsor_Name t)).
Proof.
  apply (sponsor_join SampleFrames.sponsors
           (Frame SampleFrames.batting_rows) (Frame SampleFrames.bowling_rows)
           (top_6_batters := fst SampleFrames.top_6)
           (top_6_bowlers := snd SampleFrames.top_6)).
  reflexivity.
Defined.


(** * Further properties *)

(** ** Strings *)

Lemma append_nil_r (s : string) : (s ++ "")%string = s.
Proof. induction s as [| c s IH]; simpl; congruence. Qed.

Lemma append_assoc (a b c : string) :
  ((a ++ b) ++ c)%string = (a ++ b ++ c)%string.
Proof. induction a as [| x a IH]; simpl; congruence. Qed.

Lemma prefix_app (p s : string) : String.prefix p (p ++ s)%string = true.
Proof.
  induction p as [| c p IH]; simpl.
  - destruct s; reflexivity.
  - destruct (ascii_dec c c); [exact IH | congruence].
Qed.

Lemma contains_prefix (p s : string) :
  String.prefix p s = true -> contains p s = true.
Proof. intros H. destruct s; simpl in *; rewrite H; reflexivity. Qed.

Lemma contains_tail (p : string) (c : ascii) (s : string) :
  contains p s = true -> contains p (String c s) = true.
Proof. intros H. cbn [contains]. rewrite H. apply orb_true_r. Qed.

Lemma contains_nonempty (old s : string) :
  contains old s = false -> old <> ""%string.
Proof. intros H ->. destruct s; discriminate H. Qed.

Lemma contains_refl (s : string) : contains s s = true.
Proof.
  apply contains_prefix. rewrite <- (append_nil_r s) at 2. apply prefix_app.
Qed.

(** ** The match identifiers read off the listing page *)

Section MatchIds.

Import MatchIDExtractor.

Lemma strip_prefix_some (p s rest : string) :
  strip_prefix p s = Some rest -> s = (p ++ rest)%string.
Proof.
  revert s. induction p as [| a p IH]; intros s H; simpl in H.
  - now injection H as ->.
  - destruct s as [| b s]; [discriminate |].
    destruct (Ascii.eqb a b) eqn:E; [| discriminate].
    apply Ascii.eqb_eq in E. subst b. simpl. f_equal. now apply IH.
Qed.

Lemma strip_prefix_app (p rest : string) :
  strip_prefix p (p ++ rest)%string = Some rest.
Proof.
  induction p as [| a p IH]; simpl.
  - reflexivity.
  - now rewrite Ascii.eqb_refl.
Qed.

Lemma digits_prefix_digits (s : string) :
  forallb is_digit (list_ascii_of_string (digits_prefix s)) = true.
Proof.
  induction s as [| c s IH]; simpl; [reflexivity |].
  destruct (is_digit c) eqn:E; simpl; [now rewrite E | reflexivity].
Qed.

Lemma digits_prefix_split (s : string) :
  exists rest, s = (digits_prefix s ++ rest)%string.
Proof.
  induction s as [| c s [rest IH]]; simpl.
  - now exists ""%string.
  - destruct (is_digit c).
    + exists rest. simpl. now f_equal.
    + now exists (String c s).
Qed.

Lemma digits_prefix_app (id rest : string) :
  forallb is_digit (list_ascii_of_string id) = true ->
  digits_prefix rest = ""%string ->
  digits_prefix (id ++ rest)%string = id.
Proof.
  intros Hid Hrest. induction id as [| c id IH]; simpl in *.
  - exact Hrest.
  - apply andb_prop in Hid. destruct Hid as [Hc Hid].
    rewrite Hc. f_equal. now apply IH.
Qed.

Lemma match_result_id_some (s id : string) :
  match_result_id s = Some id ->
  id <> ""%string /\
  forallb is_digit (list_ascii_of_string id) = true /\
  String.prefix ("/website/results/" ++ id)%string s = true.
Proof.
  unfold match_result_id. intros H.
  destruct (strip_prefix "/website/results/" s) as [rest |] eqn:Es;
    [| discriminate].
  apply strip_prefix_some in Es.
  pose proof (digits_prefix_digits rest) as Hd.
  destruct (digits_prefix_split rest) as [rest' Hrest].
  destruct (digits_prefix rest) as [| c ds] eqn:Ed; [discriminate |].
  injection H as <-. split; [discriminate |]. split; [exact Hd |].
  rewrite Es, Hrest, <- append_assoc. apply prefix_app.
Qed.

Lemma re_search_some (href id : string) :
  re_search href = Some id ->
  id <> ""%string /\
  forallb is_digit (list_ascii_of_string id) = true /\
  contains ("/website/results/" ++ id)%string href = true.
Proof.
  induction href as [| c href IH]; intros H.
  - discriminate H.
  - cbn [re_search] in H.
    destruct (match_result_id (String c href)) as [id' |] eqn:Em.
    + injection H as ->. apply match_result_id_some in Em.
      destruct Em as [Hne [Hd Hp]].
      split; [exact Hne |]. split; [exact Hd |]. now apply contains_prefix.
    + destruct (IH H) as [Hne [Hd Hc]].
      split; [exact Hne |]. split; [exact Hd |]. now apply contains_tail.
Qed.

Lemma re_search_skip (c : ascii) (s : string) :
  match_result_id (String c s) = None ->
  re_search (String c s) = re_search s.
Proof. intros H. cbn [re_search]. now rewrite H. Qed.

Lemma re_search_here (id rest : string) :
  id <> ""%string ->
  forallb is_digit (list_ascii_of_string id) = true ->
  digits_prefix rest = ""%string ->
  re_search ("/website/results/" ++ id ++ rest)%string = Some id.
Proof.
  intros Hne Hd Hrest.
  assert (Hm : match_result_id ("/website/results/" ++ id ++ rest)%string
               = Some id).
  { unfold match_result_id. rewrite strip_prefix_app.
    rewrite (@digits_prefix_app id rest Hd Hrest).
    destruct id; [congruence | reflexivity]. }
  destruct ("/website/results/" ++ id ++ rest)%string eqn:E;
    [discriminate E |].
  cbn [re_search]. now rewrite Hm.
Qed.

Lemma extract_match_id_step (rows : list row_div) (acc : list string)
    (match_div : row_div) :
  In match_div rows ->
  Forall (id_from_row rows) acc ->
  Forall (id_from_row rows) (extract_match_id acc match_div) /\
  (length (extract_match_id acc match_div)
   <= length acc + (if mentions_club match_div then 1 else 0))%nat.
Proof.
  intros Hin Hacc. unfold extract_match_id.
  fold (mentions_club match_div).
  destruct (mentions_club match_div) eqn:Ec; simpl.
  - destruct (scorecard_link match_div) as [href |] eqn:El;
      [| split; [exact Hacc | lia]].
    destruct (re_search href) as [id |] eqn:Er;
      [| split; [exact Hacc | lia]].
    split.
    + apply Forall_app. split; [exact Hacc |].
      constructor; [| constructor].
      destruct (@re_search_some href id Er) as [Hne [Hd Hc]].
      split; [exact Hne |]. split; [exact Hd |].
      exists match_div, href. auto.
    + rewrite length_app. simpl. lia.
  - split; [exact Hacc | lia].
Qed.

Lemma extract_loop (rows0 rows : list row_div) :
  incl rows rows0 ->
  forall acc,
    Forall (id_from_row rows0) acc ->
    Forall (id_from_row rows0) (fold_left extract_match_id rows acc) /\
    (length (fold_left extract_match_id rows acc)
     <= length acc + length (filter mentions_club rows))%nat.
Proof.
  induction rows as [| d rows IH]; intros Hincl acc Hacc; simpl.
  - split; [exact Hacc | lia].
  - destruct (@extract_match_id_step rows0 acc d
                (Hincl d (or_introl eq_refl)) Hacc) as [Hstep Hlen].
    destruct (IH (fun x Hx => Hincl x (or_intror Hx)) _ Hstep) as [Hall Hl].
    split; [exact Hall |].
    destruct (mentions_club d); simpl; lia.
Qed.

(** X1.  [get_match_ids] raises what the request for the listing page
    raises; when it returns, on a page whose scorecard links are ASCII
    text, every identifier is a non-empty string of digits that follows
    [/website/results/] in the scorecard link of a row whose text mentions
    the club, and there is at most one identifier per such row. *)
Theorem match_ids_are_digits (fetch_html : result string)
    (find_all : string -> list row_div) :
  (forall html match_div href,
     In match_div (find_all html) ->
     scorecard_link match_div = Some href -> is_ascii href = true) ->
  match get_match_ids fetch_html find_all with
  | Ok match_ids =>
      exists html,
        fetch_html = Ok html /\
        match_ids = extract_match_ids (find_all html) /\
        Forall (id_from_row (find_all html)) match_ids /\
        (length match_ids
         <= length (filter mentions_club (find_all html)))%nat
  | Raise e => fetch_html = Raise e
  end.
Proof.
  intros _. unfold get_match_ids.
  destruct fetch_html as [html | e]; cbn [bind]; [| reflexivity].
  exists html. split; [reflexivity |]. split; [reflexivity |].
  unfold extract_match_ids.
  apply (@extract_loop (find_all html) (find_all html) (incl_refl _) []
           (Forall_nil _)).
Qed.

(** X2.  The identifier of a match is read back from a scorecard link to
    it, whatever ASCII text other than a digit follows the digits, and from
    the address of the match page that [get_ias_api_header_from_match_page]
    builds from it. *)
Theorem match_id_round_trip (match_id rest : string) :
  match_id <> ""%string ->
  forallb is_digit (list_ascii_of_string match_id) = true ->
  is_ascii rest = true ->
  digits_prefix rest = ""%string ->
  re_search ("/website/results/" ++ match_id ++ rest)%string = Some match_id /\
  re_search (match_url match_id) = Some match_id.
Proof.
  intros Hne Hd _ Hrest. split; [now apply re_search_here |].
  unfold match_url. cbn [String.append].
  repeat (rewrite re_search_skip by reflexivity).
  change (re_search ("/website/results/" ++ match_id)%string = Some match_id).
  rewrite <- (append_nil_r match_id) at 1.
  now apply re_search_here.
Qed.

End MatchIds.

Lemma match_id_round_trip_witness :
  MatchIDExtractor.re_search
    ("/website/results/" ++ "7126243" ++ "?tab=scorecard")%string
  = Some "7126243"%string /\
  MatchIDExtractor.re_search (MatchIDExtractor.match_url "7126243")
  = Some "7126243"%string.
Proof.
  apply (@match_id_round_trip "7126243" "?tab=scorecard").
  - discriminate.
  - reflexivity.
  - reflexivity.
  - reflexivity.
Defined.

Lemma match_ids_are_digits_witness :
  exists html,
    Ok "<html>"%string = Ok html /\
    ["7126243"; "7126244"]%string
    = MatchIDExtractor.extract_match_ids Edge.listing_rows /\
    Forall (id_from_row Edge.listing_rows) ["7126243"; "7126244"]%string /\
    (2 <= length (filter mentions_club Edge.listing_rows))%nat.
Proof.
  apply (@match_ids_are_digits (Ok "<html>"%string)
           (fun _ => Edge.listing_rows)).
  intros html match_div href Hin Hlink.
  repeat (destruct Hin as [<- | Hin];
          [first [discriminate Hlink | injection Hlink as <-; reflexivity] |]).
  contradiction.
Defined.

Example extract_match_ids_sample :
  MatchIDExtractor.extract_match_ids Edge.listing_rows
  = ["7126243"; "7126244"]%string.
Proof. reflexivity. Qed.

(** ** The date of the images and the game week *)

Example start_date_is_a_friday :
  toordinal 2025 4 25 = 739366%Z /\ weekday (toordinal 2025 4 25) = 4%Z.
Proof. split; reflexivity. Qed.

(** X3.  The date computed by [_get_last_saturday_date] is a Saturday, it
    is not after today, and it is less than seven days before today: it is
    the most recent Saturday, today included. *)
Theorem last_saturday_is_most_recent (today : Z) :
  let saturday := _get_last_saturday_date today in
  weekday saturday = 5%Z /\
  (saturday <= today < saturday + 7)%Z /\
  (weekday today = 5%Z -> saturday = today).
Proof.
  unfold _get_last_saturday_date, weekday. cbv zeta.
  split; [| split; [split |]].
  - Z.div_mod_to_equations.
    assert (exists k, r - 5 = 7 * k)%Z as [k Hk]
      by (exists (q1 + q0 - q)%Z; lia).
    lia.
  - Z.div_mod_to_equations; lia.
  - Z.div_mod_to_equations; lia.
  - intros H. Z.div_mod_to_equations; lia.
Qed.

(** X4.  The game week is one more than the number of whole weeks from
    Saturday 26 April 2025 to today: it is 1 from that Saturday to the
    following Friday, it grows by one every seven days, and it is zero or
    negative before that Saturday. *)
Theorem game_week_counts_saturdays (today : Z) :
  let first_saturday := toordinal 2025 4 26 in
  game_week today = ((today - first_saturday) / 7 + 1)%Z /\
  game_week (today + 7) = (game_week today + 1)%Z /\
  ((1 <= game_week today)%Z <-> (first_saturday <= today)%Z) /\
  ((first_saturday <= today < first_saturday + 7)%Z ->
   game_week today = 1%Z).
Proof.
  change (toordinal 2025 4 26) with 739367%Z. cbv zeta.
  unfold game_week, _get_last_saturday_date, weekday.
  change (toordinal 2025 4 25) with 739366%Z.
  split; [| split; [| split; [split |]]].
  - Z.div_mod_to_equations. lia.
  - Z.div_mod_to_equations. lia.
  - intros H. Z.div_mod_to_equations. lia.
  - intros H. Z.div_mod_to_equations. lia.
  - intros H. Z.div_mod_to_equations. lia.
Qed.

(** ** The club's label and its team-number suffix *)

Lemma remove_from_skip (old o rest : string) :
  remove_from (String.length o) old (o ++ rest)%string
  = remove_from 0 old rest.
Proof. induction o as [| c o IH]; simpl; [reflexivity | exact IH]. Qed.

Lemma remove_from_absent (old s : string) :
  contains old s = false -> remove_from 0 old s = s.
Proof.
  induction s as [| c s IH]; intros H; [reflexivity |].
  cbn [contains] in H. apply orb_false_elim in H. destruct H as [Hp Hc].
  cbn [remove_from]. rewrite Hp. f_equal. now apply IH.
Qed.

Lemma str_remove_leading (old rest : string) :
  old <> ""%string -> contains old rest = false ->
  str_remove old (old ++ rest)%string = rest.
Proof.
  intros Hne Hrest. destruct old as [| c o]; [congruence |].
  unfold str_remove. cbn [String.append remove_from].
  change (String c (o ++ rest)%string) with (String c o ++ rest)%string.
  rewrite prefix_app. cbn [String.length]. rewrite Nat.sub_1_r. cbn [Nat.pred].
  rewrite remove_from_skip. now apply remove_from_absent.
Qed.

Lemma team_suffix_of_label (team_name sfx : string) :
  contains team_name (" " ++ sfx)%string = false ->
  strip sfx = sfx ->
  team_suffix team_name (JStr (team_label team_name sfx)) = Ok sfx.
Proof.
  intros Hc Hs. unfold team_suffix, team_label. simpl. f_equal.
  rewrite str_remove_leading; [| now apply contains_nonempty in Hc | exact Hc].
  exact Hs.
Qed.

(** X5.  When the club's label in the fixture is the club name, a space and
    an ASCII suffix without outer blanks in which the club name does not
    occur, the derived team number is that suffix, whichever of the two
    sides the club is, and an innings labelled for batting with the club's
    label is recognised as the club's. *)
Theorem club_label_round_trip (team_name sfx : string) :
  is_ascii sfx = true ->
  contains team_name (" " ++ sfx)%string = false ->
  strip sfx = sfx ->
  let label := JStr (team_label team_name sfx) in
  team_suffix team_name label = Ok sfx /\
  (forall other, nv_sides team_name label other = Ok (sfx, other)) /\
  (forall other, py_in team_name other = Ok false ->
     nv_sides team_name other label = Ok (sfx, other)) /\
  (forall innings, lookup "BattingTeamName" innings = Some label ->
     is_club_innings team_name sfx (JObj innings) = Ok true).
Proof.
  intros _ Hc Hs label.
  pose proof (@team_suffix_of_label team_name sfx Hc Hs) as Hsfx.
  fold label in Hsfx.
  split; [exact Hsfx |]. split; [| split].
  - intros other. unfold nv_sides.
    assert (Hin : py_in team_name label = Ok true).
    { unfold label, team_label. simpl. f_equal.
      apply contains_prefix, prefix_app. }
    rewrite Hin. cbn [bind]. rewrite Hsfx. reflexivity.
  - intros other Hout. unfold nv_sides. rewrite Hout. cbn [bind].
    rewrite Hsfx. reflexivity.
  - intros innings Hl. unfold is_club_innings. simpl. rewrite Hl.
    unfold label. simpl. now rewrite String.eqb_refl.
Qed.

Lemma club_label_round_trip_witness :
  let label := JStr (team_label "Lightcliffe CC" "2nd XI") in
  team_suffix "Lightcliffe CC" label = Ok "2nd XI"%string /\
  (forall other,
     nv_sides "Lightcliffe CC" label other = Ok ("2nd XI"%string, other)) /\
  (forall other, py_in "Lightcliffe CC" other = Ok false ->
     nv_sides "Lightcliffe CC" other label = Ok ("2nd XI"%string, other)) /\
  (forall innings, lookup "BattingTeamName" innings = Some label ->
     is_club_innings "Lightcliffe CC" "2nd XI" (JObj innings) = Ok true).
Proof.
  apply (@club_label_round_trip "Lightcliffe CC" "2nd XI"); reflexivity.
Defined.

(** ** The primary-service parser: records follow the cards *)

Lemma nv_batting_record_spec (team_number : string) (opposition entry : json)
    (r : Batting.t) :
  nv_batting_record team_number opposition entry = Ok r ->
  batting_record_of team_number opposition entry r.
Proof.
  destruct entry as [| | | | | d]; try discriminate.
  unfold nv_batting_record, batting_record_of, field, field_or, py_round2.
  simpl.
  destruct (as_number (match lookup "Runs" d with
                       | Some v => v
                       | None => JNum 0
                       end)) as [q |]; simpl; [| discriminate].
  intros [= <-]. exists q, (round2 q).
  split; [reflexivity |].
  split; [apply round2_nearest_hundredth | reflexivity].
Qed.

Lemma nv_bowling_record_spec (team_number : string) (opposition entry : json)
    (r : Bowling.t) :
  nv_bowling_record team_number opposition entry = Ok r ->
  bowling_of_entry team_number opposition entry r.
Proof.
  destruct entry as [| | | | | d]; try discriminate.
  unfold nv_bowling_record, bowling_of_entry, field, field_or. simpl.
  intros [= <-]. reflexivity.
Qed.

Lemma Forall2_weaken {A B : Type} (P Q : A -> B -> Prop) (l : list A)
    (l' : list B) :
  (forall a b, P a b -> Q a b) -> Forall2 P l l' -> Forall2 Q l l'.
Proof. intros H. induction 1; constructor; auto. Qed.

Section NvFollow.

Variable team_name : string.
Variables (team_number : string) (opposition : json).

Let made_batting (entry : json) (r : Batting.t) : Prop :=
  nv_batting_record team_number opposition entry = Ok r.

Let made_bowling (entry : json) (r : Bowling.t) : Prop :=
  nv_bowling_record team_number opposition entry = Ok r.

Lemma nv_innings_follow (innings : json) (b0 b : list Batting.t)
    (w0 w : list Bowling.t) :
  nv_innings team_name team_number opposition (b0, w0) innings = Ok (b, w) ->
  exists rb rw,
    b = b0 ++ rb /\ w = w0 ++ rw /\
    Forall2 made_batting
      (if club_bats team_name team_number innings
       then entries innings "BattingCard" else []) rb /\
    Forall2 made_bowling
      (if club_bats team_name team_number innings
       then [] else entries innings "BowlingCard") rw.
Proof.
  unfold nv_innings, club_bats, entries. intros H.
  bind_named H club Eclub. rewrite Eclub. destruct club.
  - bind_named H card Ecard. rewrite Ecard. bind_named H b' Eb.
    injection H as <- <-.
    apply (append_loop_ok (nv_batting_record team_number opposition)) in Eb.
    destruct Eb as [rs [-> Hrs]].
    exists rs, []. rewrite app_nil_r. repeat split; [exact Hrs | constructor].
  - bind_named H card Ecard. rewrite Ecard. bind_named H w' Ew.
    injection H as <- <-.
    apply (append_loop_ok (nv_bowling_record team_number opposition)) in Ew.
    destruct Ew as [rs [-> Hrs]].
    exists [], rs. rewrite app_nil_r. repeat split; [constructor | exact Hrs].
Qed.

Lemma nv_loop_follow (innings : list json) :
  forall b0 w0 b w,
    for_each (nv_innings team_name team_number opposition) innings (b0, w0)
    = Ok (b, w) ->
    exists rb rw,
      b = b0 ++ rb /\ w = w0 ++ rw /\
      Forall2 made_batting
        (flat_map (fun inn =>
           if club_bats team_name team_number inn
           then entries inn "BattingCard" else []) innings) rb /\
      Forall2 made_bowling
        (flat_map (fun inn =>
           if club_bats team_name team_number inn
           then [] else entries inn "BowlingCard") innings) rw.
Proof.
  induction innings as [| inn innings IH]; intros b0 w0 b w H; simpl in H.
  - injection H as <- <-. exists [], []. rewrite !app_nil_r.
    repeat split; constructor.
  - bind_named H acc Eacc. destruct acc as [b1 w1].
    apply nv_innings_follow in Eacc.
    destruct Eacc as [rb1 [rw1 [-> [-> [Hb1 Hw1]]]]].
    apply IH in H. destruct H as [rb [rw [-> [-> [Hb Hw]]]]].
    exists (rb1 ++ rb), (rw1 ++ rw). rewrite <- !app_assoc.
    repeat split; cbn [flat_map]; now apply Forall2_app.
Qed.

End NvFollow.

(** Whenever the parser returns, its records are those of the card
    entries, in their order. *)
Lemma nv_records_follow (team_name : string) (data : json)
    (team_number : string) (opposition : json)
    (batting : list Batting.t) (bowling : list Bowling.t) :
  nv_fixture team_name data = Ok (team_number, opposition) ->
  nv_records team_name data = Ok (batting, bowling) ->
  Forall2 (batting_record_of team_number opposition)
    (club_batting_entries team_name team_number data) batting /\
  Forall2 (bowling_of_entry team_number opposition)
    (other_bowling_entries team_name team_number data) bowling.
Proof.
  unfold nv_records, club_batting_entries, other_bowling_entries, innings_of.
  intros -> H. cbn [bind] in H. bind_named H inns Einns. rewrite Einns.
  apply nv_loop_follow in H.
  destruct H as [rb [rw [-> [-> [Hb Hw]]]]]. cbn [app]. split.
  - eapply Forall2_weaken; [| exact Hb].
    intros a r. apply nv_batting_record_spec.
  - eapply Forall2_weaken; [| exact Hw].
    intros a r. apply nv_bowling_record_spec.
Qed.

Lemma nv_records_total (team_name : string) (data : json) :
  nv_well_formed data = true ->
  exists team_number opposition batting bowling,
    nv_fixture team_name data = Ok (team_number, opposition) /\
    nv_records team_name data = Ok (batting, bowling).
Proof.
  intros Hwf.
  destruct (nv_fixture_total team_name data Hwf) as [tn [opp Hfix]].
  exists tn, opp.
  assert (Hrun : exists acc, nv_records team_name data = Ok acc).
  { unfold nv_records. rewrite Hfix. cbn [bind].
    destruct data as [| | | | |d]; try discriminate.
    simpl in Hwf. apply andb_prop in Hwf. destruct Hwf as [_ Hinn].
    destruct (items_of_array _ _ _ Hinn) as [inns [-> Hinns]]. cbn [bind].
    apply nv_loop_total, Hinns. }
  destruct Hrun as [[batting bowling] Hrun].
  exists batting, bowling. split; [exact Hfix | exact Hrun].
Qed.

(** ** The primary-service parser: the club's innings by their label *)

(** The test of the loop is the comparison of the innings' label with the
    club name, a space and the team number. *)
Lemma club_bats_label (team_name team_number : string) (innings : json) :
  club_bats team_name team_number innings
  = batting_team_is (team_name ++ " " ++ team_number)%string innings.
Proof.
  unfold club_bats, is_club_innings, batting_team_is, field, field_or,
    team_label.
  destruct innings as [| | | | | d]; try reflexivity. cbn [py_get bind].
  destruct (lookup "BattingTeamName" d) as [[| | | s | |] |]; try reflexivity.
  cbn [json_is_str]. apply String.eqb_sym.
Qed.

Lemma card_entries_length (innings : json) (card : string) :
  length (entries innings card) = card_entries innings card.
Proof.
  unfold entries, card_entries. destruct (items_of innings card); reflexivity.
Qed.

Lemma club_card_entries (team_name team_number : string) (data : json) :
  club_batting_entries team_name team_number data
  = card_entries_where true (team_name ++ " " ++ team_number)%string
      "BattingCard" data /\
  other_bowling_entries team_name team_number data
  = card_entries_where false (team_name ++ " " ++ team_number)%string
      "BowlingCard" data.
Proof.
  unfold club_batting_entries, other_bowling_entries, card_entries_where.
  split; apply flat_map_ext; intros inn; rewrite club_bats_label;
    destruct (batting_team_is _ inn); reflexivity.
Qed.



Example nv_sample_cards :
  map (fun entry => field entry "PlayerName")
    (card_entries_where true "Lightcliffe CC 1st XI" "BattingCard"
       Sample.nv_payload)
  = [JStr "A Opener*"; JStr "Extras"] /\
  map (fun entry => field entry "PlayerName")
    (card_entries_where false "Lightcliffe CC 1st XI" "BowlingCard"
       Sample.nv_payload)
  = [JStr "B Spinner"; JStr "C Quick"].
Proof. split; reflexivity. Qed.

(** X6.  For a payload of the primary service with the types of its
    interface and ASCII team labels, the batting records are made, one by
    one and in order, from the entries of the batting cards of the innings
    labelled with the club name, a space and the derived team number, and
    the bowling records from the entries of the bowling cards of the other
    innings: each record carries the derived team number, the opposition
    label, the runs of a batting entry rounded to two decimal places (0
    when absent) and every other statistic exactly as its entry has it. *)
Theorem nv_records_follow_cards (team_name : string) (data : json) :
  nv_well_formed data = true ->
  nv_labels_ascii data = true ->
  exists team_number opposition batting bowling,
    nv_fixture team_name data = Ok (team_number, opposition) /\
    nv_process_data team_name data
    = Ok (DataFrame_of batting, DataFrame_of bowling) /\
    Forall2 (batting_record_of team_number opposition)
      (card_entries_where true (team_name ++ " " ++ team_number)%string
         "BattingCard" data) batting /\
    Forall2 (bowling_of_entry team_number opposition)
      (card_entries_where false (team_name ++ " " ++ team_number)%string
         "BowlingCard" data) bowling.
Proof.
  intros Hwf _.
  destruct (nv_records_total team_name data Hwf)
    as [tn [opp [batting [bowling [Hfix Hrun]]]]].
  destruct (@nv_records_follow team_name data tn opp batting bowling Hfix Hrun)
    as [Hb Hw].
  destruct (club_card_entries team_name tn data) as [Eb Ew].
  rewrite Eb in Hb. rewrite Ew in Hw.
  exists tn, opp, batting, bowling. split; [exact Hfix |]. split.
  - unfold nv_process_data. rewrite Hrun. reflexivity.
  - split; [exact Hb | exact Hw].
Qed.

Lemma nv_records_follow_cards_witness :
  exists team_number opposition batting bowling,
    nv_fixture Sample.club Sample.nv_payload = Ok (team_number, opposition) /\
    nv_process_data Sample.club Sample.nv_payload
    = Ok (DataFrame_of batting, DataFrame_of bowling) /\
    Forall2 (batting_record_of team_number opposition)
      (card_entries_where true (Sample.club ++ " " ++ team_number)%string
         "BattingCard" Sample.nv_payload) batting /\
    Forall2 (bowling_of_entry team_number opposition)
      (card_entries_where false (Sample.club ++ " " ++ team_number)%string
         "BowlingCard" Sample.nv_payload) bowling.
Proof.
  apply (@nv_records_follow_cards Sample.club Sample.nv_payload);
    reflexivity.
Defined.

(** X7.  A card entry of the club's innings whose runs are present and not
    a number, a missing value included, stops the parser: the default 0
    stands in only for an absent key. *)
Theorem nv_runs_not_a_number_raises (team_name : string) (data : json)
    (team_number : string) (opposition : json) (entry : dict) (runs : json) :
  nv_fixture team_name data = Ok (team_number, opposition) ->
  In (JObj entry) (club_batting_entries team_name team_number data) ->
  lookup "Runs" entry = Some runs ->
  as_number runs = None ->
  exists e, nv_process_data team_name data = Raise e.
Proof.
  intros Hfix Hin Hruns Hnan.
  destruct (nv_process_data team_name data) as [[bdf wdf] | e] eqn:Hrun;
    [| now exists e].
  exfalso. unfold nv_process_data in Hrun.
  bind_named Hrun acc Eacc. destruct acc as [batting bowling].
  destruct (@nv_records_follow team_name data team_number opposition
              batting bowling Hfix Eacc) as [Hb _].
  clear - Hb Hin Hruns Hnan.
  induction Hb as [| a r l l' Har Hb IH]; [contradiction |].
  destruct Hin as [-> | Hin]; [| now apply IH].
  destruct Har as [q [e [Hq _]]]. unfold field_or in Hq. simpl in Hq.
  rewrite Hruns in Hq. congruence.
Qed.

Lemma nv_runs_not_a_number_raises_witness :
  exists e, nv_process_data Sample.club Edge.nv_null_runs_payload = Raise e.
Proof.
  apply (@nv_runs_not_a_number_raises Sample.club Edge.nv_null_runs_payload
           "1st XI" (JStr "Northowram CC 1st XI")
           [("PlayerName", JStr "D Tail"); ("Runs", JNull)] JNull).
  - reflexivity.
  - right. left. reflexivity.
  - reflexivity.
  - reflexivity.
Defined.

Example nv_null_runs_type_error :
  nv_process_data Sample.club Edge.nv_null_runs_payload = Raise TypeError.
Proof. reflexivity. Qed.

(** ** The primary-service parser: a club label without a suffix *)

Lemma str_remove_self (s : string) : str_remove s s = ""%string.
Proof.
  destruct s as [| c o]; [reflexivity |].
  rewrite <- (append_nil_r (String c o)) at 2.
  apply str_remove_leading; [discriminate | reflexivity].
Qed.

Lemma list_sum_zero {A : Type} (f : A -> nat) (l : list A) :
  (forall x, In x l -> f x = 0) -> list_sum (map f l) = 0.
Proof.
  induction l as [| x l IH]; intros H; simpl; [reflexivity |].
  rewrite (H x (or_introl eq_refl)), IH; [reflexivity |].
  intros y Hy. apply H. now right.
Qed.

(** X8.  When the club's label in the fixture is the bare club name, the
    derived team number is empty and the label looked for is the club name
    followed by a space: unless an innings carries that very label, no
    innings is taken for the club's, the batting frame has no record at
    all, and the bowling cards of all the innings go to the bowling
    frame. *)
Theorem bare_club_label_no_batting (team_name : string) (d m : dict)
    (batting_df : DataFrame Batting.t) (bowling_df : DataFrame Bowling.t) :
  team_name <> ""%string ->
  lookup "Match" d = Some (JObj m) ->
  lookup "Team1Name" m = Some (JStr team_name) ->
  (forall innings, In innings (innings_of (JObj d)) ->
     field innings "BattingTeamName" <> JStr (team_name ++ " ")) ->
  nv_process_data team_name (JObj d) = Ok (batting_df, bowling_df) ->
  batting_df = NoColumns /\
  len bowling_df
  = list_sum (map (fun inn => card_entries inn "BowlingCard")
                  (innings_of (JObj d))).
Proof.
  intros Hne Hm H1 Hlabels Hrun.
  assert (Hfix : nv_fixture team_name (JObj d)
                 = Ok (""%string, field_or (JObj m) "Team2Name" (JStr ""))).
  { unfold nv_fixture, nv_sides, team_suffix, field_or. simpl.
    rewrite Hm. simpl. rewrite H1. simpl.
    rewrite contains_refl. simpl. rewrite str_remove_self. reflexivity. }
  unfold nv_process_data in Hrun.
  bind_named Hrun acc Eacc. destruct acc as [batting bowling].
  injection Hrun as <- <-.
  destruct (nv_records_counts _ _ Hfix Eacc) as [Hb Hw].
  assert (Hclub : forall inn, In inn (innings_of (JObj d)) ->
                    club_bats team_name "" inn = false).
  { intros inn Hin. specialize (Hlabels inn Hin).
    unfold club_bats, is_club_innings, field, field_or in *.
    destruct (py_get inn "BattingTeamName" JNull) as [v | e]; [| reflexivity].
    simpl. unfold team_label. rewrite append_nil_r.
    destruct v as [| | | s | |]; try reflexivity. simpl.
    destruct (String.eqb_spec (team_name ++ " ") s) as [<- | Hs];
      [congruence | reflexivity]. }
  split.
  - assert (Hlen : length batting = 0).
    { rewrite Hb. unfold batting_card_entries. apply list_sum_zero.
      intros inn Hin. now rewrite (Hclub inn Hin). }
    destruct batting; [reflexivity | discriminate Hlen].
  - rewrite len_DataFrame_of, Hw. unfold bowling_card_entries.
    f_equal. apply map_ext_in. intros inn Hin. now rewrite (Hclub inn Hin).
Qed.

Lemma bare_club_label_no_batting_witness :
  exists bowling_df,
    nv_process_data "Lightcliffe CC" Edge.nv_bare_payload
    = Ok (NoColumns, bowling_df) /\
    len bowling_df = 2.
Proof.
  destruct (nv_process_data "Lightcliffe CC" Edge.nv_bare_payload)
    as [[batting_df bowling_df] | e] eqn:Hrun; [| discriminate Hrun].
  exists bowling_df.
  destruct (@bare_club_label_no_batting "Lightcliffe CC"
              [("Match", JObj [("Team1Name", JStr "Lightcliffe CC");
                               ("Team2Name", JStr "Northowram CC")]);
               ("Innings", field Edge.nv_bare_payload "Innings")]
              [("Team1Name", JStr "Lightcliffe CC");
               ("Team2Name", JStr "Northowram CC")]
              batting_df bowling_df) as [Hb Hw].
  - discriminate.
  - reflexivity.
  - reflexivity.
  - intros innings [<- | [<- | []]]; discriminate.
  - exact Hrun.
  - rewrite Hb. split; [reflexivity | exact Hw].
Defined.

(** ** The fallback-service parser: one record per performance *)

Lemma length_flat_map_sum {A B : Type} (f : A -> list B) (l : list A) :
  length (flat_map f l) = list_sum (map (fun x => length (f x)) l).
Proof.
  induction l as [| x l IH]; simpl; [reflexivity |].
  now rewrite length_app, IH.
Qed.

Lemma length_filter_flat_map {A B : Type} (p : B -> bool) (f : A -> list B)
    (l : list A) :
  length (filter p (flat_map f l))
  = list_sum (map (fun x => length (filter p (f x))) l).
Proof.
  induction l as [| x l IH]; simpl; [reflexivity |].
  now rewrite filter_app, length_app, IH.
Qed.

Lemma length_filter_sum {A : Type} (p : A -> bool) (l : list A) :
  length (filter p l) = list_sum (map (fun x => if p x then 1 else 0) l).
Proof.
  induction l as [| x l IH]; simpl; [reflexivity |].
  destruct (p x); simpl; now rewrite IH.
Qed.

(** A loop whose iterations all return on admissible items, each adding a
    known number of records to either list. *)
Section CountingLoop.

Context {A S : Type}.
Variable f : S -> A -> result S.
Variables size1 size2 : S -> nat.
Variables weight1 weight2 : A -> nat.
Variable ok : A -> bool.

Hypothesis step : forall s x, ok x = true ->
  exists s', f s x = Ok s' /\
             size1 s' = size1 s + weight1 x /\
             size2 s' = size2 s + weight2 x.

Lemma counting_loop (l : list A) :
  forallb ok l = true ->
  forall s, exists s',
    for_each f l s = Ok s' /\
    size1 s' = size1 s + list_sum (map weight1 l) /\
    size2 s' = size2 s + list_sum (map weight2 l).
Proof.
  induction l as [| x l IH]; simpl; intros Hok s.
  - exists s. repeat split; lia.
  - apply andb_prop in Hok. destruct Hok as [Hx Hl].
    destruct (step s Hx) as [s1 [-> [H1 H2]]]. cbn [bind].
    destruct (IH Hl s1) as [s' [Hrun [H1' H2']]].
    exists s'. split; [exact Hrun |]. lia.
Qed.

End CountingLoop.

Lemma absent_or_default (check : json -> bool) (d : dict) (k : string)
    (default : json) :
  absent_or check d k = true -> check default = true ->
  check (match lookup k d with Some v => v | None => default end) = true.
Proof. unfold absent_or. destruct (lookup k d); auto. Qed.

Lemma rv_economy_total (runs overs : json) :
  is_number_or_null overs = true -> is_number runs = true ->
  exists e, rv_economy runs overs = Ok e.
Proof.
  unfold rv_economy, py_truediv, is_number, is_number_or_null.
  intros Ho Hr. destruct (truthy overs) eqn:Ht; [| eexists; reflexivity].
  destruct (as_number runs) as [x |]; [| discriminate].
  destruct (as_number overs) as [y |] eqn:Ey.
  - rewrite (truthy_number_nonzero _ Ht Ey). eexists. reflexivity.
  - destruct overs; discriminate.
Qed.

Lemma perf_tag (p : dict) :
  absent_or is_text p "__type" = true ->
  match lookup "__type" p with Some v => v | None => JStr "" end
  = JStr (perf_type (JObj p)).
Proof.
  unfold absent_or, perf_type, field_or. cbn [py_get].
  destruct (lookup "__type" p) as [[| | | s | |] |]; try discriminate;
    reflexivity.
Qed.

Section RvCounts.

Variable team_name : string.
Variables (team_number : string) (opposition : json) (m : name_map).

Lemma rv_batting_record_total (name : json) (p : dict) :
  exists r, rv_batting_record team_number opposition name (JObj p) = Ok r.
Proof. eexists. reflexivity. Qed.

Lemma rv_bowling_record_total (name : json) (p : dict) :
  absent_or is_number_or_null p "overs" = true ->
  absent_or is_number p "runs" = true ->
  exists r, rv_bowling_record team_number opposition name (JObj p) = Ok r.
Proof.
  intros Ho Hr. unfold rv_bowling_record. cbn [py_get bind].
  destruct (@rv_economy_total
              (match lookup "runs" p with Some v => v | None => JNum 0 end)
              (match lookup "overs" p with Some v => v | None => JNum 0 end))
    as [e ->].
  - now apply absent_or_default.
  - now apply absent_or_default.
  - cbn [bind]. eexists. reflexivity.
Qed.

Lemma rv_perf_step (club : bool) (acc : list Batting.t * list Bowling.t)
    (perf : json) :
  perf_ok perf = true ->
  exists acc',
    rv_perf team_number opposition (Some m) club acc perf = Ok acc' /\
    length (fst acc')
    = length (fst acc) + (if club && has_type "Batting" perf then 1 else 0) /\
    length (snd acc')
    = length (snd acc)
      + (if negb club && has_type "Bowling" perf then 1 else 0).
Proof.
  intros Hok. destruct perf as [| | | | | p]; try discriminate.
  destruct acc as [b w].
  cbn [perf_ok] in Hok. apply andb_prop in Hok. destruct Hok as [Hok Hbowl].
  apply andb_prop in Hok. destruct Hok as [Hid Htype].
  unfold rv_perf, resolve_name. cbn [py_get bind].
  rewrite (absent_or_default hashable p "player_id" JNull Hid eq_refl).
  cbn [bind].
  rewrite (@perf_tag p Htype). cbn [bind py_str_method]. unfold has_type in *.
  set (tag := perf_type (JObj p)) in *.
  destruct club; cbn [negb andb fst snd].
  - rewrite andb_true_r, andb_false_r.
    destruct (String.prefix "Batting" tag).
    + destruct (rv_batting_record_total
                  (match name_lookup
                           (match lookup "player_id" p with
                            | Some v => v
                            | None => JNull
                            end) m with
                   | Some n => n
                   | None => match lookup "player_name" p with
                             | Some v => v
                             | None => JNull
                             end
                   end) p) as [r ->].
      cbn [bind]. eexists. split; [reflexivity |].
      cbn [fst snd]. rewrite length_app. simpl. lia.
    + eexists. split; [reflexivity |]. cbn [fst snd]. lia.
  - rewrite andb_false_r, andb_true_r.
    destruct (String.prefix "Bowling" tag) eqn:Eb.
    + cbn [negb orb] in Hbowl.
      apply andb_prop in Hbowl. destruct Hbowl as [Hbowl _].
      apply andb_prop in Hbowl. destruct Hbowl as [Ho Hr].
      destruct (rv_bowling_record_total
                  (match name_lookup
                           (match lookup "player_id" p with
                            | Some v => v
                            | None => JNull
                            end) m with
                   | Some n => n
                   | None => match lookup "player_name" p with
                             | Some v => v
                             | None => JNull
                             end
                   end) p Ho Hr) as [r ->].
      cbn [bind]. eexists. split; [reflexivity |].
      cbn [fst snd]. rewrite length_app. simpl. lia.
    + eexists. split; [reflexivity |]. cbn [fst snd]. lia.
Qed.

(** The loop over the performance entries of one innings. *)
Lemma rv_innings_step (club : bool) (acc : list Batting.t * list Bowling.t)
    (inn : json) :
  rv_innings_ok inn = true ->
  exists acc',
    (perfs <- items_of inn "PlayerPerfs" ;;
     for_each (rv_perf team_number opposition (Some m) club) perfs acc)
    = Ok acc' /\
    length (fst acc')
    = length (fst acc)
      + (if club
         then length (filter (has_type "Batting") (entries inn "PlayerPerfs"))
         else 0) /\
    length (snd acc')
    = length (snd acc)
      + (if club then 0
         else length (filter (has_type "Bowling")
                        (entries inn "PlayerPerfs"))).
Proof.
  intros Hok. destruct inn as [| | | | | i]; try discriminate.
  cbn [rv_innings_ok] in Hok.
  destruct (items_of_array _ _ _ Hok) as [perfs [Hitems Hperfs]].
  unfold entries. rewrite Hitems. cbn [bind].
  destruct (counting_loop
              (rv_perf team_number opposition (Some m) club)
              (fun a => length (fst a)) (fun a => length (snd a))
              (fun perf => if club && has_type "Batting" perf then 1 else 0)
              (fun perf => if negb club && has_type "Bowling" perf
                           then 1 else 0)
              perf_ok (fun s x => @rv_perf_step club s x) perfs Hperfs acc)
    as [acc' [Hrun [H1 H2]]].
  exists acc'. split; [exact Hrun |].
  rewrite H1, H2, !length_filter_sum.
  destruct club; cbn [negb andb]; split; try reflexivity;
    f_equal; apply list_sum_zero; intros x _; reflexivity.
Qed.

Lemma rv_team_step (acc : list Batting.t * list Bowling.t) (team : json) :
  team_ok team = true ->
  exists acc',
    rv_team team_name team_number opposition (Some m) acc team = Ok acc' /\
    length (fst acc')
    = length (fst acc)
      + length (if team_is_club team_name team
                then filter (has_type "Batting") (perfs_of team) else []) /\
    length (snd acc')
    = length (snd acc)
      + length (if team_is_club team_name team
                then [] else filter (has_type "Bowling") (perfs_of team)).
Proof.
  intros Hok. destruct team as [| | | | | t]; try discriminate.
  cbn [team_ok] in Hok. apply andb_prop in Hok. destruct Hok as [Hok Hinn].
  apply andb_prop in Hok. destruct Hok as [Hname _].
  destruct (items_of_array _ _ _ Hinn) as [inns [Hitems Hinns]].
  unfold rv_team, team_is_club, perfs_of, entries, field_or.
  rewrite Hitems. cbn [py_get bind].
  assert (Hlabel : exists s,
            match lookup "team_name" t with
            | Some v => v
            | None => JStr ""
            end = JStr s).
  { unfold absent_or in Hname.
    destruct (lookup "team_name" t) as [[| | | s | |] |]; try discriminate;
      eexists; reflexivity. }
  destruct Hlabel as [label ->]. cbn [py_in bind].
  set (club := contains team_name label).
  destruct (counting_loop
              (fun acc inn =>
                 perfs <- items_of inn "PlayerPerfs" ;;
                 for_each (rv_perf team_number opposition (Some m) club)
                   perfs acc)
              (fun a => length (fst a)) (fun a => length (snd a))
              (fun inn =>
                 if club
                 then length (filter (has_type "Batting")
                                (entries inn "PlayerPerfs"))
                 else 0)
              (fun inn =>
                 if club then 0
                 else length (filter (has_type "Bowling")
                                (entries inn "PlayerPerfs")))
              rv_innings_ok (fun s x => @rv_innings_step club s x)
              inns Hinns acc)
    as [acc' [Hrun [H1 H2]]].
  exists acc'. split; [exact Hrun |].
  rewrite H1, H2.
  destruct club; cbn [length]; split;
    rewrite ?length_filter_flat_map, ?Nat.add_0_r;
    try reflexivity;
    rewrite list_sum_zero by (intros x _; reflexivity); lia.
Qed.

Lemma rv_teams_loop (teams : list json) :
  forallb team_ok teams = true ->
  forall acc, exists acc',
    for_each (rv_team team_name team_number opposition (Some m)) teams acc
    = Ok acc' /\
    length (fst acc')
    = length (fst acc)
      + length (flat_map (fun team =>
                  if team_is_club team_name team
                  then filter (has_type "Batting") (perfs_of team) else [])
                  teams) /\
    length (snd acc')
    = length (snd acc)
      + length (flat_map (fun team =>
                  if team_is_club team_name team
                  then [] else filter (has_type "Bowling") (perfs_of team))
                  teams).
Proof.
  intros Hok acc. rewrite !length_flat_map_sum.
  apply (counting_loop
           (rv_team team_name team_number opposition (Some m))
           (fun a => length (fst a)) (fun a => length (snd a))
           (fun team =>
              length (if team_is_club team_name team
                      then filter (has_type "Batting") (perfs_of team)
                      else []))
           (fun team =>
              length (if team_is_club team_name team
                      then []
                      else filter (has_type "Bowling") (perfs_of team)))
           team_ok (fun s x => @rv_team_step s x) teams Hok).
Qed.

End RvCounts.

(** *** The roster map *)

Lemma enter_member_inv (m : name_map) (player : json)
    (o : option name_map) :
  enter_member (Some m) player = Ok o ->
  o = Some (roster_entry player :: m).
Proof.
  destruct player as [| | | | | p]; try discriminate.
  unfold enter_member, store_name, roster_entry, field, field_or.
  cbn [py_get py_getitem bind].
  destruct (lookup "player_id" p) as [id |]; [| discriminate]. cbn [bind].
  destruct (hashable id); [| discriminate]. now intros [= <-].
Qed.

Lemma enter_member_total (m : name_map) (player : json) :
  member_ok player = true ->
  exists o, enter_member (Some m) player = Ok o.
Proof.
  destruct player as [| | | | | p]; try discriminate.
  unfold enter_member, store_name. cbn [member_ok py_get py_getitem bind].
  destruct (lookup "player_id" p) as [id |]; [| discriminate]. cbn [bind].
  intros ->. eexists. reflexivity.
Qed.

Lemma members_loop_rev (members : list json) :
  forall m o,
    for_each enter_member members (Some m) = Ok o ->
    o = Some (rev (map roster_entry members) ++ m).
Proof.
  induction members as [| p members IH]; intros m o H; simpl in H.
  - now injection H as <-.
  - bind_named H o1 Eo1. apply enter_member_inv in Eo1. subst o1.
    apply IH in H. subst o. cbn [map rev]. now rewrite <- app_assoc.
Qed.

Lemma members_loop_total (members : list json) :
  forallb member_ok members = true ->
  forall m, exists o, for_each enter_member members (Some m) = Ok o.
Proof.
  induction members as [| p members IH]; simpl; intros Hok m.
  - eexists. reflexivity.
  - apply andb_prop in Hok. destruct Hok as [Hp Hl].
    destruct (enter_member_total m p Hp) as [o1 Ho1]. rewrite Ho1.
    apply enter_member_inv in Ho1. subst o1. cbn [bind]. now apply IH.
Qed.

(** Whenever the first loop returns, the map is the roster read backwards:
    the most recent entry of an id comes first. *)
Lemma build_names_rev (teams : list json) :
  forall m o,
    build_names teams (Some m) = Ok o ->
    o = Some (rev (roster_entries teams) ++ m).
Proof.
  unfold build_names.
  induction teams as [| t teams IH]; intros m o H; simpl in H.
  - now injection H as <-.
  - bind_named H o1 Eo1. bind_named Eo1 members Emembers.
    apply members_loop_rev in Eo1. subst o1.
    apply IH in H. subst o. cbn [roster_entries flat_map].
    unfold entries. rewrite Emembers.
    now rewrite rev_app_distr, <- app_assoc.
Qed.

Lemma build_names_total (teams : list json) :
  forallb team_ok teams = true ->
  forall m, exists o, build_names teams (Some m) = Ok o.
Proof.
  unfold build_names.
  induction teams as [| t teams IH]; simpl; intros Hok m.
  - eexists. reflexivity.
  - apply andb_prop in Hok. destruct Hok as [Ht Hl].
    destruct t as [| | | | | d]; try discriminate.
    cbn [team_ok] in Ht. apply andb_prop in Ht. destruct Ht as [Ht _].
    apply andb_prop in Ht. destruct Ht as [_ Hmembers].
    destruct (items_of_array _ _ _ Hmembers) as [members [-> Hms]].
    cbn [bind].
    destruct (members_loop_total members Hms m) as [o1 Ho1].
    change (for_each enter_member members (Some m) = Ok o1) in Ho1.
    pose proof (members_loop_rev _ _ Ho1) as ->.
    unfold enter_member in Ho1. rewrite Ho1. cbn [bind]. now apply IH.
Qed.

Lemma name_lookup_skip (k : json) (l1 l2 : name_map) :
  (forall e, In e l1 -> key_eqb k (fst e) = false) ->
  name_lookup k (l1 ++ l2) = name_lookup k l2.
Proof.
  induction l1 as [| [k' v] l1 IH]; intros H; simpl; [reflexivity |].
  pose proof (H (k', v) (or_introl eq_refl)) as Hk. simpl in Hk.
  rewrite Hk. apply IH. intros e He. apply H. now right.
Qed.

(** X9.  When the loop over the rosters returns, the map holds the roster
    entries of all the teams, the most recent first: an id listed more than
    once resolves to the full name of its last entry. *)
Theorem roster_last_entry_wins (teams : list json) (o : option name_map) :
  build_names teams (Some []) = Ok o ->
  o = Some (rev (roster_entries teams)) /\
  forall m, o = Some m ->
    forall earlier id name later k,
      roster_entries teams = earlier ++ (id, name) :: later ->
      key_eqb k id = true ->
      (forall e, In e later -> key_eqb k (fst e) = false) ->
      name_lookup k m = Some name.
Proof.
  intros H. apply build_names_rev in H. rewrite app_nil_r in H.
  split; [exact H |].
  intros m Hm earlier id name later k Hsplit Hk Hlater.
  rewrite H in Hm. injection Hm as <-.
  rewrite Hsplit, rev_app_distr. cbn [rev]. rewrite <- app_assoc.
  rewrite name_lookup_skip.
  - simpl. now rewrite Hk.
  - intros e He. apply Hlater. now apply in_rev.
Qed.

Lemma roster_last_entry_wins_witness :
  exists m,
    build_names Edge.rv_roster_twice (Some []) = Ok (Some m) /\
    name_lookup (num 11) m = Some (JStr "Alan J Opener").
Proof.
  destruct (@roster_last_entry_wins Edge.rv_roster_twice
              (Some (rev (roster_entries Edge.rv_roster_twice))) eq_refl)
    as [_ Hlast].
  eexists. split; [reflexivity |].
  apply (Hlast _ eq_refl
           [(num 11, JStr "Alan Opener"); (num 12, JStr "Ben Keeper")]
           (num 11) (JStr "Alan J Opener") [] (num 11)).
  - reflexivity.
  - reflexivity.
  - intros e [].
Defined.

(** *** The whole parser on an away fixture *)

Lemma rv_sides_away (team_name : string) (d : dict) :
  absent_or is_text d "home_name" = true ->
  absent_or is_text d "away_name" = true ->
  club_at_home team_name (JObj d) = false ->
  exists team_number,
    rv_sides team_name
      (match lookup "home_name" d with Some v => v | None => JStr "" end)
      (match lookup "away_name" d with Some v => v | None => JStr "" end)
    = Ok (team_number,
          match lookup "home_name" d with Some v => v | None => JStr "" end,
          Some []).
Proof.
  unfold absent_or, club_at_home, field_or, rv_sides, team_suffix.
  cbn [py_get].
  destruct (lookup "home_name" d) as [[| | | h | |] |]; try discriminate;
    destruct (lookup "away_name" d) as [[| | | a | |] |]; try discriminate;
    intros _ _ Hhome; cbn [py_in bind]; rewrite Hhome; cbn [bind py_str_method];
    eexists; reflexivity.
Qed.

(** X10.  For a payload of the fallback service with the types of its
    interface, bowling figures within the range of a double included, in
    which the club is not the home side, the parser returns,
    with exactly one batting record per batting performance of the teams
    whose name contains the club name and one bowling record per bowling
    performance of the other teams. *)
Theorem rv_one_record_per_performance (team_name : string) (data : json) :
  rv_well_formed data = true ->
  club_at_home team_name data = false ->
  exists batting_df bowling_df,
    results_vault_process_data team_name data
    = Ok (batting_df, bowling_df) /\
    len batting_df = length (rv_batting_entries team_name data) /\
    len bowling_df = length (rv_bowling_entries team_name data).
Proof.
  intros Hwf Haway. destruct data as [| | | | | d]; try discriminate.
  cbn [rv_well_formed] in Hwf. apply andb_prop in Hwf.
  destruct Hwf as [Hwf Hteams]. apply andb_prop in Hwf.
  destruct Hwf as [Hhome Haway_name].
  destruct (rv_sides_away team_name d Hhome Haway_name Haway)
    as [team_number Hsides].
  destruct (items_of_array _ _ _ Hteams) as [teams [Hitems Hok]].
  destruct (build_names_total teams Hok []) as [o Hnames].
  pose proof (build_names_rev _ _ Hnames) as Ho. subst o.
  destruct (rv_teams_loop team_name team_number
              (match lookup "home_name" d with
               | Some v => v
               | None => JStr ""
               end)
              (rev (roster_entries teams) ++ []) teams Hok ([], []))
    as [[batting bowling] [Hrun [Hb Hw]]].
  exists (DataFrame_of batting), (DataFrame_of bowling).
  unfold results_vault_process_data, rv_records.
  cbn [py_get bind]. rewrite Hsides. cbn [bind].
  rewrite Hitems. cbn [bind]. unfold name_map in *.
  rewrite Hnames. cbn [bind]. rewrite Hrun. cbn [bind].
  split; [reflexivity |].
  rewrite !len_DataFrame_of.
  unfold rv_batting_entries, rv_bowling_entries, entries.
  rewrite Hitems. split; [exact Hb | exact Hw].
Qed.

Lemma rv_one_record_per_performance_witness :
  exists batting_df bowling_df,
    results_vault_process_data Sample.club Sample.rv_away_payload
    = Ok (batting_df, bowling_df) /\
    len batting_df
    = length (rv_batting_entries Sample.club Sample.rv_away_payload) /\
    len bowling_df
    = length (rv_bowling_entries Sample.club Sample.rv_away_payload).
Proof.
  apply (@rv_one_record_per_performance Sample.club Sample.rv_away_payload);
    reflexivity.
Defined.

Example rv_sample_counts :
  length (rv_batting_entries Sample.club Sample.rv_away_payload) = 1 /\
  length (rv_bowling_entries Sample.club Sample.rv_away_payload) = 2.
Proof. split; reflexivity. Qed.

(** ** The fallback-service parser: records follow the performances *)

Lemma flat_map_singletons {A : Type} (p : A -> bool) (l : list A) :
  flat_map (fun x => if p x then [x] else []) l = filter p l.
Proof.
  induction l as [| x l IH]; simpl; [reflexivity |].
  rewrite IH. destruct (p x); reflexivity.
Qed.

Lemma flat_map_nothing {A B : Type} (l : list A) :
  flat_map (fun _ : A => @nil B) l = [].
Proof. induction l; simpl; auto. Qed.

Lemma filter_of_flat_map {A B : Type} (p : B -> bool) (g : A -> list B)
    (l : list A) :
  flat_map (fun x => filter p (g x)) l = filter p (flat_map g l).
Proof.
  induction l as [| x l IH]; simpl; [reflexivity |].
  now rewrite filter_app, IH.
Qed.

(** A loop over admissible items, each of which returns and appends to the
    two lists the records made from the entries it contributes. *)
Section FollowLoop.

Context {A E1 E2 R1 R2 : Type}.
Variable f : list R1 * list R2 -> A -> result (list R1 * list R2).
Variable from1 : A -> list E1.
Variable from2 : A -> list E2.
Variable made1 : E1 -> R1 -> Prop.
Variable made2 : E2 -> R2 -> Prop.
Variable ok : A -> bool.

Hypothesis step : forall acc x, ok x = true ->
  exists r1 r2,
    f acc x = Ok (fst acc ++ r1, snd acc ++ r2) /\
    Forall2 made1 (from1 x) r1 /\ Forall2 made2 (from2 x) r2.

Lemma follow_loop (l : list A) :
  forallb ok l = true ->
  forall acc, exists r1 r2,
    for_each f l acc = Ok (fst acc ++ r1, snd acc ++ r2) /\
    Forall2 made1 (flat_map from1 l) r1 /\
    Forall2 made2 (flat_map from2 l) r2.
Proof.
  induction l as [| x l IH]; cbn [forallb for_each flat_map]; intros Hok acc.
  - exists [], []. rewrite !app_nil_r. destruct acc.
    repeat split; constructor.
  - apply andb_prop in Hok. destruct Hok as [Hx Hl].
    destruct (step acc Hx) as [a1 [a2 [-> [H1 H2]]]]. cbn [bind].
    destruct (IH Hl (fst acc ++ a1, snd acc ++ a2))
      as [b1 [b2 [-> [H1' H2']]]].
    exists (a1 ++ b1), (a2 ++ b2). cbn [fst snd]. rewrite <- !app_assoc.
    split; [reflexivity |]. split; now apply Forall2_app.
Qed.

End FollowLoop.

Section RvFollow.

Variable team_name : string.
Variables (team_number : string) (opposition : json) (m : name_map).

Let made_batting (perf : json) (r : Batting.t) : Prop :=
  rv_batting_record team_number opposition (name_of_perf m perf) perf = Ok r.

Let made_bowling (perf : json) (r : Bowling.t) : Prop :=
  rv_bowling_record team_number opposition (name_of_perf m perf) perf = Ok r.

Lemma rv_perf_follows (club : bool) (acc : list Batting.t * list Bowling.t)
    (perf : json) :
  perf_ok perf = true ->
  exists rb rw,
    rv_perf team_number opposition (Some m) club acc perf
    = Ok (fst acc ++ rb, snd acc ++ rw) /\
    Forall2 made_batting
      (if club && has_type "Batting" perf then [perf] else []) rb /\
    Forall2 made_bowling
      (if negb club && has_type "Bowling" perf then [perf] else []) rw.
Proof.
  intros Hok. destruct perf as [| | | | | p]; try discriminate.
  destruct acc as [b w].
  cbn [perf_ok] in Hok. apply andb_prop in Hok. destruct Hok as [Hok Hbowl].
  apply andb_prop in Hok. destruct Hok as [Hid Htype].
  unfold made_batting, made_bowling, rv_perf, resolve_name.
  cbn [py_get bind].
  rewrite (absent_or_default hashable p "player_id" JNull Hid eq_refl).
  cbn [bind].
  rewrite (@perf_tag p Htype). cbn [bind py_str_method]. unfold has_type in *.
  set (tag := perf_type (JObj p)) in *.
  change (match name_lookup
                  (match lookup "player_id" p with
                   | Some v => v
                   | None => JNull
                   end) m with
          | Some n => n
          | None => match lookup "player_name" p with
                    | Some v => v
                    | None => JNull
                    end
          end) with (name_of_perf m (JObj p)).
  destruct club; cbn [negb andb fst snd].
  - destruct (String.prefix "Batting" tag).
    + destruct (rv_batting_record_total team_number opposition
                  (name_of_perf m (JObj p)) p) as [r Hr].
      rewrite Hr. cbn [bind]. exists [r], []. rewrite app_nil_r.
      split; [reflexivity |]. split; repeat constructor. exact Hr.
    + cbn [andb]. rewrite andb_false_r.
      exists [], []. rewrite !app_nil_r. repeat split; constructor.
  - rewrite andb_false_r.
    destruct (String.prefix "Bowling" tag) eqn:Eb.
    + cbn [negb orb] in Hbowl.
      apply andb_prop in Hbowl. destruct Hbowl as [Hbowl _].
      apply andb_prop in Hbowl. destruct Hbowl as [Ho Hr].
      destruct (rv_bowling_record_total team_number opposition
                  (name_of_perf m (JObj p)) p Ho Hr) as [r Hrec].
      rewrite Hrec. cbn [bind]. exists [], [r]. rewrite app_nil_r.
      split; [reflexivity |]. split; repeat constructor. exact Hrec.
    + exists [], []. rewrite !app_nil_r. repeat split; constructor.
Qed.

Lemma rv_innings_follows (club : bool)
    (acc : list Batting.t * list Bowling.t) (inn : json) :
  rv_innings_ok inn = true ->
  exists rb rw,
    (perfs <- items_of inn "PlayerPerfs" ;;
     for_each (rv_perf team_number opposition (Some m) club) perfs acc)
    = Ok (fst acc ++ rb, snd acc ++ rw) /\
    Forall2 made_batting
      (if club then filter (has_type "Batting") (entries inn "PlayerPerfs")
       else []) rb /\
    Forall2 made_bowling
      (if club then []
       else filter (has_type "Bowling") (entries inn "PlayerPerfs")) rw.
Proof.
  intros Hok. destruct inn as [| | | | | i]; try discriminate.
  cbn [rv_innings_ok] in Hok.
  destruct (items_of_array _ _ _ Hok) as [perfs [Hitems Hperfs]].
  unfold entries. rewrite Hitems. cbn [bind].
  destruct (@follow_loop _ _ _ _ _
              (rv_perf team_number opposition (Some m) club)
              (fun perf => if club && has_type "Batting" perf
                           then [perf] else [])
              (fun perf => if negb club && has_type "Bowling" perf
                           then [perf] else [])
              made_batting made_bowling perf_ok
              (fun s x => @rv_perf_follows club s x) perfs Hperfs acc)
    as [rb [rw [Hrun [Hb Hw]]]].
  exists rb, rw. split; [exact Hrun |].
  destruct club; cbn [negb andb] in Hb, Hw.
  - rewrite flat_map_singletons in Hb. rewrite flat_map_nothing in Hw.
    split; assumption.
  - rewrite flat_map_nothing in Hb. rewrite flat_map_singletons in Hw.
    split; assumption.
Qed.

Lemma rv_team_follows (acc : list Batting.t * list Bowling.t) (team : json) :
  team_ok team = true ->
  exists rb rw,
    rv_team team_name team_number opposition (Some m) acc team
    = Ok (fst acc ++ rb, snd acc ++ rw) /\
    Forall2 made_batting
      (if team_is_club team_name team
       then filter (has_type "Batting") (perfs_of team) else []) rb /\
    Forall2 made_bowling
      (if team_is_club team_name team
       then [] else filter (has_type "Bowling") (perfs_of team)) rw.
Proof.
  intros Hok. destruct team as [| | | | | t]; try discriminate.
  cbn [team_ok] in Hok. apply andb_prop in Hok. destruct Hok as [Hok Hinn].
  apply andb_prop in Hok. destruct Hok as [Hname _].
  destruct (items_of_array _ _ _ Hinn) as [inns [Hitems Hinns]].
  unfold rv_team, team_is_club, perfs_of, entries, field_or.
  rewrite Hitems. cbn [py_get bind].
  assert (Hlabel : exists s,
            match lookup "team_name" t with
            | Some v => v
            | None => JStr ""
            end = JStr s).
  { unfold absent_or in Hname.
    destruct (lookup "team_name" t) as [[| | | s | |] |]; try discriminate;
      eexists; reflexivity. }
  destruct Hlabel as [label ->]. cbn [py_in bind].
  set (club := contains team_name label).
  destruct (@follow_loop _ _ _ _ _
              (fun acc inn =>
                 perfs <- items_of inn "PlayerPerfs" ;;
                 for_each (rv_perf team_number opposition (Some m) club)
                   perfs acc)
              (fun inn =>
                 if club
                 then filter (has_type "Batting") (entries inn "PlayerPerfs")
                 else [])
              (fun inn =>
                 if club then []
                 else filter (has_type "Bowling") (entries inn "PlayerPerfs"))
              made_batting made_bowling rv_innings_ok
              (fun s x => @rv_innings_follows club s x) inns Hinns acc)
    as [rb [rw [Hrun [Hb Hw]]]].
  exists rb, rw. split; [exact Hrun |].
  destruct club.
  - rewrite filter_of_flat_map in Hb. rewrite flat_map_nothing in Hw.
    split; assumption.
  - rewrite flat_map_nothing in Hb. rewrite filter_of_flat_map in Hw.
    split; assumption.
Qed.

Lemma rv_teams_follow (teams : list json) :
  forallb team_ok teams = true ->
  forall acc, exists rb rw,
    for_each (rv_team team_name team_number opposition (Some m)) teams acc
    = Ok (fst acc ++ rb, snd acc ++ rw) /\
    Forall2 made_batting
      (flat_map (fun team =>
         if team_is_club team_name team
         then filter (has_type "Batting") (perfs_of team) else []) teams) rb /\
    Forall2 made_bowling
      (flat_map (fun team =>
         if team_is_club team_name team
         then [] else filter (has_type "Bowling") (perfs_of team)) teams) rw.
Proof.
  intros Hok.
  apply (@follow_loop _ _ _ _ _
           (rv_team team_name team_number opposition (Some m))
           (fun team =>
              if team_is_club team_name team
              then filter (has_type "Batting") (perfs_of team) else [])
           (fun team =>
              if team_is_club team_name team
              then [] else filter (has_type "Bowling") (perfs_of team))
           made_batting made_bowling team_ok
           (fun s x => @rv_team_follows s x) teams Hok).
Qed.

End RvFollow.

(** On an away fixture with the types of the interface the parser returns,
    and its records are made, in order, from the batting performances of
    the club's teams and the bowling performances of the other teams, each
    with the name that the finished roster map gives its player. *)
Lemma rv_records_follow (team_name : string) (data : json) :
  rv_well_formed data = true ->
  club_at_home team_name data = false ->
  exists team_number batting bowling,
    build_names (entries data "MatchTeams") (Some [])
    = Ok (Some (roster_map data)) /\
    rv_records team_name data = Ok (batting, bowling) /\
    Forall2 (fun perf r =>
               rv_batting_record team_number
                 (field_or data "home_name" (JStr ""))
                 (name_of_perf (roster_map data) perf) perf = Ok r)
      (rv_batting_entries team_name data) batting /\
    Forall2 (fun perf r =>
               rv_bowling_record team_number
                 (field_or data "home_name" (JStr ""))
                 (name_of_perf (roster_map data) perf) perf = Ok r)
      (rv_bowling_entries team_name data) bowling.
Proof.
  intros Hwf Haway. destruct data as [| | | | | d]; try discriminate.
  cbn [rv_well_formed] in Hwf. apply andb_prop in Hwf.
  destruct Hwf as [Hwf Hteams]. apply andb_prop in Hwf.
  destruct Hwf as [Hhome Haway_name].
  destruct (rv_sides_away team_name d Hhome Haway_name Haway)
    as [team_number Hsides].
  destruct (items_of_array _ _ _ Hteams) as [teams [Hitems Hok]].
  destruct (build_names_total teams Hok []) as [o Hnames].
  pose proof (build_names_rev _ _ Hnames) as Ho. subst o.
  rewrite app_nil_r in Hnames.
  unfold roster_map, rv_batting_entries, rv_bowling_entries, entries.
  rewrite Hitems.
  destruct (rv_teams_follow team_name team_number
              (field_or (JObj d) "home_name" (JStr ""))
              (rev (roster_entries teams)) teams Hok ([], []))
    as [batting [bowling [Hrun [Hb Hw]]]].
  exists team_number, batting, bowling.
  split; [exact Hnames |]. split; [| split; [exact Hb | exact Hw]].
  unfold rv_records. cbn [py_get bind]. rewrite Hsides. cbn [bind].
  rewrite Hitems. cbn [bind]. unfold name_map in *.
  rewrite Hnames. cbn [bind]. exact Hrun.
Qed.

(** X21.  With the club as the away side, on a payload with the types of
    the interface, the first loop leaves the roster map of all the teams,
    and only then are the records made: one per batting performance of the
    club's teams and one per bowling performance of the other teams, in
    order, each named with the full name that the finished map holds for
    the entry's player id, or with the entry's own [player_name] when the
    map holds none. *)
Theorem rv_away_side_names (team_name : string) (data : json) :
  rv_well_formed data = true ->
  club_at_home team_name data = false ->
  exists batting bowling,
    build_names (entries data "MatchTeams") (Some [])
    = Ok (Some (roster_map data)) /\
    results_vault_process_data team_name data
    = Ok (DataFrame_of batting, DataFrame_of bowling) /\
    Forall2 (fun perf r =>
               Batting.PlayerName r = name_of_perf (roster_map data) perf)
      (rv_batting_entries team_name data) batting /\
    Forall2 (fun perf r =>
               Bowling.PlayerName r = name_of_perf (roster_map data) perf)
      (rv_bowling_entries team_name data) bowling.
Proof.
  intros Hwf Haway.
  destruct (rv_records_follow team_name data Hwf Haway)
    as [team_number [batting [bowling [Hnames [Hrun [Hb Hw]]]]]].
  exists batting, bowling. split; [exact Hnames |]. split.
  - unfold results_vault_process_data. rewrite Hrun. reflexivity.
  - split.
    + eapply Forall2_weaken; [| exact Hb]. cbv beta. intros perf r Hr.
      unfold rv_batting_record in Hr. do 7 bind_inv Hr.
      now injection Hr as <-.
    + eapply Forall2_weaken; [| exact Hw]. cbv beta. intros perf r Hr.
      unfold rv_bowling_record in Hr. do 8 bind_inv Hr.
      now injection Hr as <-.
Qed.

Lemma rv_away_side_names_witness :
  exists batting bowling,
    build_names (entries Sample.rv_away_payload "MatchTeams") (Some [])
    = Ok (Some (roster_map Sample.rv_away_payload)) /\
    results_vault_process_data Sample.club Sample.rv_away_payload
    = Ok (DataFrame_of batting, DataFrame_of bowling) /\
    Forall2 (fun perf r =>
               Batting.PlayerName r
               = name_of_perf (roster_map Sample.rv_away_payload) perf)
      (rv_batting_entries Sample.club Sample.rv_away_payload) batting /\
    Forall2 (fun perf r =>
               Bowling.PlayerName r
               = name_of_perf (roster_map Sample.rv_away_payload) perf)
      (rv_bowling_entries Sample.club Sample.rv_away_payload) bowling.
Proof.
  apply (@rv_away_side_names Sample.club Sample.rv_away_payload);
    reflexivity.
Defined.

(** On the sample fixture one player is in the roster map and one is
    not. *)
Example rv_sample_names :
  map (name_of_perf (roster_map Sample.rv_away_payload))
    (rv_bowling_entries Sample.club Sample.rv_away_payload)
  = [JStr "Oscar Seamer"; JStr "P Change"].
Proof. reflexivity. Qed.

(** ** The fallback-service parser: the figures of a bowling entry *)

Lemma rv_bowling_record_figures (team_number : string)
    (opposition name perf : json) (r : Bowling.t) :
  rv_bowling_record team_number opposition name perf = Ok r ->
  figures_of_entry perf r.
Proof.
  intros H. pose proof (rv_bowling_record_as_specified _ _ _ _ H) as Hspec.
  destruct perf as [| | | | | p]; try discriminate H.
  unfold rv_bowling_record in H. cbn [py_get bind] in H.
  bind_named H economy Eeconomy. injection H as <-.
  split; [reflexivity |]. split; [reflexivity | exact Hspec].
Qed.

Lemma rv_bowling_record_overs_bowled (team_number : string)
    (opposition name : json) (p : dict) (o x : Q) :
  overs_bowled p o x ->
  exists r e,
    rv_bowling_record team_number opposition name (JObj p) = Ok r /\
    Bowling.Economy r = JNum e /\
    rounded_to_hundredths (x / o) e.
Proof.
  intros [Ho [Hpos [Hx _]]].
  unfold rv_bowling_record. cbn [py_get bind].
  unfold field_or in Hx. cbn [py_get] in Hx. rewrite Ho.
  rewrite (@rv_economy_positive_overs
             (match lookup "runs" p with Some v => v | None => JNum 0 end)
             (JNum o) o x eq_refl Hpos Hx).
  cbn [bind]. eexists. exists (round2 (x / o)).
  split; [reflexivity |]. split; [reflexivity |].
  apply round2_nearest_hundredth.
Qed.

(** Whenever the parser returns, every bowling record was made from a
    bowling performance of the payload. *)
Lemma rv_records_bowling_origin (team_name : string) (data : json)
    (batting : list Batting.t) (bowling : list Bowling.t) :
  rv_records team_name data = Ok (batting, bowling) ->
  Forall (fun r =>
            exists perf team_number opposition name,
              In perf (bowling_perfs data) /\
              rv_bowling_record team_number opposition name perf = Ok r)
    bowling.
Proof.
  intros H. unfold rv_records in H.
  do 3 bind_inv H. destruct v1 as [[team_number opposition] unbound].
  bind_named H teams Eteams. bind_named H names Enames.
  bind_named H teams' Eteams'.
  rewrite Eteams in Eteams'. injection Eteams' as <-.
  unfold bowling_perfs, entries. rewrite Eteams.
  set (Q := fun r : Bowling.t =>
              exists perf tn opp name,
                In perf (filter (has_type "Bowling")
                           (flat_map perfs_of teams)) /\
                rv_bowling_record tn opp name perf = Ok r).
  change bowling with (snd (batting, bowling)). revert H.
  apply (for_each_invariant _ (fun a => Forall Q (snd a))); [| constructor].
  intros s team s' Hs Hteam Hrun. unfold rv_team in Hrun.
  bind_named Hrun label Elabel. bind_named Hrun club Eclub.
  bind_named Hrun inns Einns. revert Hs Hrun.
  apply (for_each_invariant _ (fun a => Forall Q (snd a))).
  intros s0 inn s1 Hs0 Hinn Hrun. bind_named Hrun perfs Eperfs.
  revert Hs0 Hrun.
  apply (for_each_invariant _ (fun a => Forall Q (snd a))).
  intros [b w] perf s2 Hacc Hperf Hrun. unfold rv_perf in Hrun.
  bind_named Hrun pid Epid. bind_named Hrun name Ename.
  bind_named Hrun type_ Etype. bind_named Hrun tag Etag.
  destruct (String.prefix "Batting" tag && club).
  { bind_inv Hrun. injection Hrun as <-. exact Hacc. }
  destruct (String.prefix "Bowling" tag && negb club) eqn:Ebowl;
    [| injection Hrun as <-; exact Hacc].
  bind_named Hrun r Er. injection Hrun as <-. cbn [snd] in *.
  apply Forall_app. split; [exact Hacc |]. constructor; [| constructor].
  exists perf, team_number, opposition, name. split; [| exact Er].
  apply filter_In. split.
  - apply in_flat_map. exists team. split; [exact Hteam |].
    unfold perfs_of, entries. rewrite Einns.
    apply in_flat_map. exists inn. split; [exact Hinn |].
    now rewrite Eperfs.
  - apply andb_prop in Ebowl. destruct Ebowl as [Ebowl _].
    unfold has_type, perf_type, field_or. rewrite Etype.
    destruct type_; try discriminate Etag.
    cbn [py_str_method] in Etag. injection Etag as ->. exact Ebowl.
Qed.

(** C6.  In the fallback-service parser the guard on [overs] excludes any
    division by zero, whatever the payload.  A performance entry without
    overs, or with zero overs, yields a record with the entry's figures and
    no economy.  An entry with positive overs yields a record with the
    entry's figures whose economy is the entry's runs divided by its overs,
    rounded to two decimal places.  In either record fours and sixes are
    missing.  Whenever the parser returns, every bowling record carries the
    figures of a bowling performance of the payload; and on an away fixture
    with the types of the interface it returns one such record for each
    bowling performance of the teams other than the club's, in order. *)
Theorem rv_bowling_economy (team_name : string) (data : json) :
  results_vault_process_data team_name data <> Raise ZeroDivisionError /\
  (forall team_number opposition name p,
      no_overs p ->
      exists r,
        rv_bowling_record team_number opposition name (JObj p) = Ok r /\
        figures_of_entry (JObj p) r /\
        Bowling.Economy r = JNull) /\
  (forall team_number opposition name p o x,
      overs_bowled p o x ->
      exists r e,
        rv_bowling_record team_number opposition name (JObj p) = Ok r /\
        figures_of_entry (JObj p) r /\
        Bowling.Economy r = JNum e /\
        rounded_to_hundredths (x / o) e) /\
  (forall batting_df bowling_df,
      results_vault_process_data team_name data = Ok (batting_df, bowling_df) ->
      Forall (fun r => exists perf,
                In perf (bowling_perfs data) /\ figures_of_entry perf r)
        (frame_rows bowling_df)) /\
  (rv_well_formed data = true ->
   club_at_home team_name data = false ->
   exists batting_df bowling,
     results_vault_process_data team_name data
     = Ok (batting_df, DataFrame_of bowling) /\
     Forall2 figures_of_entry (rv_bowling_entries team_name data) bowling).
Proof.
  split; [| split; [| split; [| split]]].
  - unfold results_vault_process_data.
    apply bind_never; [apply rv_records_no_zero_division |].
    intros [batting bowling]. discriminate.
  - intros team_number opposition name p Hno.
    destruct (rv_bowling_record_zero_overs team_number opposition name p Hno)
      as [r [Hr He]].
    exists r. split; [exact Hr |]. split; [| exact He].
    eapply rv_bowling_record_figures, Hr.
  - intros team_number opposition name p o x Hbowled.
    destruct (rv_bowling_record_overs_bowled team_number opposition name
                Hbowled) as [r [e [Hr [He Hround]]]].
    exists r, e. split; [exact Hr |]. split; [| split; assumption].
    eapply rv_bowling_record_figures, Hr.
  - intros batting_df bowling_df H. unfold results_vault_process_data in H.
    bind_inv H. destruct v as [batting bowling]. injection H as <- <-.
    assert (Hrows : frame_rows (DataFrame_of bowling) = bowling)
      by (destruct bowling; reflexivity).
    rewrite Hrows.
    eapply Forall_impl; [| exact (rv_records_bowling_origin _ _ E)].
    intros r [perf [tn [opp [name [Hin Hr]]]]].
    exists perf. split; [exact Hin |].
    eapply rv_bowling_record_figures, Hr.
  - intros Hwf Haway.
    destruct (rv_records_follow team_name data Hwf Haway)
      as [team_number [batting [bowling [_ [Hrun [_ Hw]]]]]].
    exists (DataFrame_of batting), bowling. split.
    + unfold results_vault_process_data. rewrite Hrun. reflexivity.
    + eapply Forall2_weaken; [| exact Hw]. cbv beta. intros perf r.
      apply rv_bowling_record_figures.
Qed.

(** The sample away fixture: the two bowling performances of the other
    team, one with overs and one without, and the record of each. *)
Example rv_sample_figures :
  rv_well_formed Sample.rv_away_payload = true /\
  club_at_home Sample.club Sample.rv_away_payload = false /\
  map (fun perf => (field perf "overs", field perf "runs"))
    (rv_bowling_entries Sample.club Sample.rv_away_payload)
  = [(num 8, num 43); (num 0, num 0)] /\
  option_map (fun '(_, w) => map (fun r => (Bowling.Overs r, Bowling.Runs r,
                                           Bowling.Economy r))
                               (frame_rows w))
    (match results_vault_process_data Sample.club Sample.rv_away_payload with
     | Ok p => Some p
     | Raise _ => None
     end)
  = Some [(num 8, num 43, JNum (269 # 50)); (num 0, num 0, JNull)].
Proof. repeat split. Qed.

(** *** The two sides, on sample fixtures *)

Lemma rv_home_side_emits_nothing_witness :
  (home <- py_get Edge.rv_home_abandoned "home_name" (JStr "") ;;
   py_in Sample.club home) = Ok true /\
  exists batting bowling,
    rv_records Sample.club Edge.rv_home_abandoned = Ok (batting, bowling) /\
    batting = [] /\ bowling = [].
Proof.
  split; [reflexivity |]. exists [], []. split; [reflexivity |].
  apply (@rv_home_side_emits_nothing Sample.club Edge.rv_home_abandoned);
    reflexivity.
Defined.

(** ** The requests of [get_scorecard] and of [main] *)

Lemma fallback_attempt_requests (match_number : string)
    (api_header : option string) (reqs : list request) :
  fallback_attempt match_number api_header reqs ->
  filter is_primary reqs = [] /\ Forall (sent_with api_header) reqs.
Proof.
  intros [-> | [id ->]]; split; try reflexivity;
    repeat constructor.
Qed.

(** X11.  [get_scorecard] hands on the primary response whenever the call
    returns, whatever it holds, after that single request; when the primary
    call raises it makes one fallback attempt and ends as that attempt
    ends, an exception of the fallback included. *)
Theorem get_scorecard_requests
    (respond : list request -> request -> result json)
    (match_number : string) (api_header : option string)
    (log : list request) :
  (forall data, respond log (GetNV match_number) = Ok data ->
     get_scorecard respond match_number api_header log
     = (Ok data, log ++ [GetNV match_number])) /\
  (forall e, respond log (GetNV match_number) = Raise e ->
     exists r reqs,
       get_scorecard respond match_number api_header log
       = (r, log ++ GetNV match_number :: reqs) /\
       fallback_attempt match_number api_header reqs /\
       r = fst (results_vault_api_call respond match_number api_header
                  (log ++ [GetNV match_number])) /\
       (forall e', respond (log ++ [GetNV match_number])
                     (GetRVMapping match_number api_header) = Raise e' ->
                   r = Raise e')).
Proof.
  split.
  - intros data H. rewrite get_scorecard_policy, H. reflexivity.
  - intros e H. rewrite get_scorecard_policy, H.
    destruct (results_vault_api_call_trace respond match_number api_header
                (log ++ [GetNV match_number])) as [r [reqs [Hcall [Hshape _]]]].
    exists r, reqs. rewrite Hcall, <- app_assoc.
    split; [reflexivity |]. split; [exact Hshape |]. split; [reflexivity |].
    intros e' He'.
    unfold results_vault_api_call, _get_match_id_results_vault, io_bind,
      http_get_json in Hcall.
    rewrite He' in Hcall. now injection Hcall as <- _.
Qed.

Lemma fetch_match_requests
    (respond : list request -> request -> result json)
    (match_number : string) (api_header : option string)
    (log : list request) :
  exists fetched reqs,
    fetch_match respond match_number api_header log
    = (Ok fetched, log ++ GetNV match_number :: reqs) /\
    filter is_primary reqs = [] /\
    Forall (sent_with api_header) reqs.
Proof.
  assert (Hfallback :
    exists fetched reqs,
      try_except
        (data <~ results_vault_api_call respond match_number api_header ;;
         data <~ lift (rv_checks data) ;;
         lift (Ok (Some data)))
        (fun _ => lift (Ok None)) (log ++ [GetNV match_number])
      = (Ok fetched, log ++ GetNV match_number :: reqs) /\
      filter is_primary reqs = [] /\
      Forall (sent_with api_header) reqs).
  { destruct (results_vault_api_call_trace respond match_number api_header
                (log ++ [GetNV match_number])) as [r [reqs [Hcall [Hshape _]]]].
    destruct (fallback_attempt_requests Hshape) as [Hp Hh].
    unfold try_except, io_bind. rewrite Hcall, <- app_assoc. cbn [app].
    destruct r as [data | e].
    - unfold lift at 1. destruct (rv_checks data) as [data' | e].
      + exists (Some data'), reqs. auto.
      + exists None, reqs. auto.
    - exists None, reqs. auto. }
  unfold fetch_match.
  unfold try_except at 1. unfold io_bind at 1 2.
  unfold nv_api_call, http_get_json.
  destruct (respond log (GetNV match_number)) as [data | e].
  - unfold lift at 1. destruct (nv_checks data) as [data' | e].
    + exists (Some data'), []. unfold lift. auto.
    + exact Hfallback.
  - exact Hfallback.
Qed.

Section MainRequests.

Variable w : World.
Variable team_name : string.

Lemma main_loop_body_requests (api_header : option string)
    (acc : list (DataFrame Batting.t) * list (DataFrame Bowling.t))
    (match_number : string) (log : list request) :
  exists r reqs,
    main_loop_body w team_name api_header acc match_number log
    = (r, log ++ GetNV match_number :: reqs) /\
    filter is_primary reqs = [] /\
    Forall (sent_with api_header) reqs.
Proof.
  destruct (fetch_match_requests (respond w) match_number api_header log)
    as [fetched [reqs [Hfetch [Hp Hh]]]].
  unfold main_loop_body. destruct acc as [b0 w0].
  unfold io_bind at 1. rewrite Hfetch.
  destruct fetched as [data |].
  - unfold io_bind, lift.
    destruct (process_data team_name data) as [[bdf wdf] | e];
      eexists; exists reqs; auto.
  - unfold lift. eexists. exists reqs. auto.
Qed.

Lemma main_loop_requests (api_header : option string)
    (match_numbers : list string) :
  forall acc log,
  exists r reqs done rest,
    io_for_each (main_loop_body w team_name api_header) match_numbers acc log
    = (r, log ++ reqs) /\
    match_numbers = done ++ rest /\
    filter is_primary reqs = map GetNV done /\
    Forall (sent_with api_header) reqs /\
    (forall acc', r = Ok acc' -> rest = []).
Proof.
  induction match_numbers as [| m ms IH]; intros acc log.
  - exists (Ok acc), [], [], []. rewrite app_nil_r.
    repeat split; constructor.
  - destruct (main_loop_body_requests api_header acc m log)
      as [r1 [reqs1 [Hbody [Hp1 Hh1]]]].
    cbn [io_for_each]. unfold io_bind at 1. rewrite Hbody.
    destruct r1 as [acc1 | e].
    + destruct (IH acc1 (log ++ GetNV m :: reqs1))
        as [r [reqs [done [rest [Hrun [Hms [Hp [Hh Hok]]]]]]]].
      exists r, (GetNV m :: reqs1 ++ reqs), (m :: done), rest.
      rewrite Hrun, <- app_assoc. cbn [app].
      split; [reflexivity |]. split; [now rewrite Hms |].
      split; [| split; [| exact Hok]].
      * cbn [filter is_primary map]. now rewrite filter_app, Hp1, Hp.
      * constructor; [exact I | now apply Forall_app].
    + exists (Raise e), (GetNV m :: reqs1), [m], ms.
      split; [reflexivity |]. split; [reflexivity |].
      split; [| split; [| discriminate]].
      * cbn [filter is_primary map]. now rewrite Hp1.
      * constructor; [exact I | exact Hh1].
Qed.

(** After the loop nothing is requested: the log of [main] is the log of
    its first part, and [main] returns only if that part returns. *)
Lemma main_after_tables (log : list request) :
  snd (main w team_name log) = snd (main_tables w team_name log) /\
  (forall out, fst (main w team_name log) = Ok out ->
     exists tables, fst (main_tables w team_name log) = Ok tables).
Proof.
  destruct (main_tables w team_name log) as [[[bt wt] | e] log1] eqn:Ht;
    unfold main, io_bind, lift; rewrite Ht; cbn [fst snd];
    [| split; [reflexivity | intros out H; discriminate H]].
  split; [| intros out _; eexists; reflexivity].
  repeat match goal with
         | |- context [match ?x with _ => _ end] => destruct x
         end; reflexivity.
Qed.

Lemma main_tables_requests (log : list request) :
  exists reqs,
    snd (main_tables w team_name log) = log ++ reqs /\
    forall match_numbers, get_match_ids w = Ok match_numbers ->
      exists done rest,
        match_numbers = done ++ rest /\
        filter is_primary reqs = map GetNV done /\
        (forall api_header,
           get_ias_api_header_from_match_page w (hd EmptyString match_numbers)
           = Ok api_header ->
           Forall (sent_with api_header) reqs) /\
        (forall tables, fst (main_tables w team_name log) = Ok tables ->
                        rest = []).
Proof.
  unfold main_tables, io_bind, lift.
  destruct (get_match_ids w) as [ms | e];
    [| exists []; rewrite app_nil_r; split; [reflexivity | discriminate]].
  destruct ms as [| m0 ms].
  { exists []. rewrite app_nil_r. split; [reflexivity |].
    intros ? [= <-]. exists [], []. repeat split; constructor. }
  destruct (get_ias_api_header_from_match_page w m0) as [h | e] eqn:Hh.
  - destruct (main_loop_requests h (m0 :: ms) ([], []) log)
      as [r [reqs [done [rest [Hrun [Hms [Hp [Hsent Hok]]]]]]]].
    rewrite Hrun. exists reqs. split.
    { destruct r as [[bs ws] | e]; [| reflexivity].
      destruct (read_local (assign_if_any bs)); reflexivity. }
    intros ? [= <-]. exists done, rest.
    split; [exact Hms |]. split; [exact Hp |]. split.
    + intros h' Hh'. cbn [hd] in Hh'. rewrite Hh in Hh'.
      injection Hh' as <-. exact Hsent.
    + intros tables Htables.
      destruct r as [acc' | e]; [now apply (Hok acc') |].
      discriminate Htables.
  - exists []. rewrite app_nil_r. split; [reflexivity |].
    intros ? [= <-]. exists [], (m0 :: ms).
    split; [reflexivity |]. split; [reflexivity |]. split.
    + intros h' Hh'. constructor.
    + intros tables Htables. discriminate Htables.
Qed.

(** X12.  In a run of [main] the primary request is sent once for each
    match of the listing, in the order of the listing, up to the match at
    which the run stops, and for every match when [main] returns; every
    request of the fallback carries the header probed on the page of the
    first match. *)
Theorem main_requests_each_match_once (log : list request) :
  exists reqs,
    snd (main w team_name log) = log ++ reqs /\
    forall match_numbers, get_match_ids w = Ok match_numbers ->
      exists done rest,
        match_numbers = done ++ rest /\
        filter is_primary reqs = map GetNV done /\
        (forall api_header,
           get_ias_api_header_from_match_page w (hd EmptyString match_numbers)
           = Ok api_header ->
           Forall (sent_with api_header) reqs) /\
        (forall out, fst (main w team_name log) = Ok out -> rest = []).
Proof.
  destruct (main_after_tables log) as [Hlog Hret].
  destruct (main_tables_requests log) as [reqs [Hreqs Hall]].
  exists reqs. split; [now rewrite Hlog |].
  intros ms Hms.
  destruct (Hall ms Hms) as [done [rest [Hsplit [Hp [Hsent Hok]]]]].
  exists done, rest. split; [exact Hsplit |]. split; [exact Hp |].
  split; [exact Hsent |].
  intros out Hout. destruct (Hret out Hout) as [tables Htables].
  now apply (Hok tables).
Qed.

End MainRequests.

Example sample_run_requests :
  snd (main SampleWorld.world Sample.club [])
  = [GetNV "7126243"; GetNV "7126244";
     GetRVMapping "7126244" (Some "token");
     GetRVMatch (num 991) (Some "token")]%string.
Proof. reflexivity. Qed.

(** ** The tables of [main] *)

Section IoLoop.

Context {A S : Type}.
Variable f : S -> A -> io S.

Lemma io_for_each_invariant (P : S -> Prop) (l : list A) :
  (forall s x log s' log', P s -> f s x log = (Ok s', log') -> P s') ->
  forall s log s' log',
    P s -> io_for_each f l s log = (Ok s', log') -> P s'.
Proof.
  intros Hstep. induction l as [| x l IH]; intros s log s' log' Hs Hrun.
  - injection Hrun as <- _. exact Hs.
  - cbn [io_for_each] in Hrun. unfold io_bind in Hrun.
    destruct (f s x log) as [[s1 | e] log1] eqn:E; [| discriminate].
    apply (IH s1 log1 s' log'); [| exact Hrun].
    now apply (Hstep s x log s1 log1).
Qed.

Lemma io_for_each_app (l1 l2 : list A) (s : S) (log : list request) :
  io_for_each f (l1 ++ l2) s log
  = match io_for_each f l1 s log with
    | (Ok s1, log1) => io_for_each f l2 s1 log1
    | (Raise e, log1) => (Raise e, log1)
    end.
Proof.
  revert s log. induction l1 as [| x l1 IH]; intros s log.
  - reflexivity.
  - cbn [app io_for_each]. unfold io_bind.
    destruct (f s x log) as [[s1 | e] log1]; [apply IH | reflexivity].
Qed.

End IoLoop.

Lemma concat_frames_rows {R : Type} (dfs : list (DataFrame R)) :
  frame_rows (concat_frames dfs) = flat_map frame_rows dfs.
Proof.
  unfold concat_frames. destruct (forallb no_columns dfs) eqn:E;
    [| reflexivity].
  induction dfs as [| df dfs IH]; [reflexivity |].
  cbn [forallb] in E. apply andb_prop in E. destruct E as [Hdf Hdfs].
  destruct df; [| discriminate]. simpl. now apply IH.
Qed.

Section MainTables.

Variable w : World.
Variable team_name : string.

Lemma main_loop_parsed (api_header : option string)
    (match_numbers : list string) :
  forall acc log acc' log',
    io_for_each (main_loop_body w team_name api_header) match_numbers acc log
    = (Ok acc', log') ->
    exists frames,
      parsed_in_order w team_name api_header match_numbers log frames log' /\
      acc' = (fst acc ++ map fst frames, snd acc ++ map snd frames).
Proof.
  induction match_numbers as [| m ms IH]; intros acc log acc' log' Hrun.
  - injection Hrun as <- <-. exists []. split; [constructor |].
    destruct acc. cbn [map fst snd]. now rewrite !app_nil_r.
  - cbn [io_for_each] in Hrun. unfold io_bind at 1 in Hrun.
    destruct (main_loop_body w team_name api_header acc m log)
      as [[acc1 | e] log1] eqn:Hbody; [| discriminate Hrun].
    destruct (IH _ _ _ _ Hrun) as [frames [Hparsed ->]].
    unfold main_loop_body in Hbody. destruct acc as [b0 w0].
    unfold io_bind at 1 in Hbody.
    destruct (fetch_match (respond w) m api_header log)
      as [[[data |] | e] log2] eqn:Hfetch; [| | discriminate Hbody].
    + unfold io_bind, lift in Hbody.
      destruct (process_data team_name data) as [[bdf wdf] | e] eqn:Hparse;
        [| discriminate Hbody].
      injection Hbody as <- <-.
      exists ((bdf, wdf) :: frames). split.
      * eapply parsed_next; eassumption.
      * cbn [fst snd map]. now rewrite <- !app_assoc.
    + unfold lift in Hbody. injection Hbody as <- <-.
      exists frames. split; [| reflexivity].
      eapply parsed_skip; eassumption.
Qed.

(** X13.  When [main] gets past [print(batting_table)], the matches of the
    listing have been gone through in order with the header probed on the
    page of the first; the matches whose fetch handed on a payload were
    parsed, at least one of them; and the two tables are the concatenations
    of the batting frames and of the bowling frames of those matches, with
    the rows of every parsed match in the order of the matches. *)
Theorem main_tables_bound (log : list request)
    (batting_table : option (DataFrame Batting.t))
    (bowling_table : option (DataFrame Bowling.t)) :
  fst (main_tables w team_name log) = Ok (batting_table, bowling_table) ->
  exists match_numbers api_header frames,
    get_match_ids w = Ok match_numbers /\
    get_ias_api_header_from_match_page w (hd EmptyString match_numbers)
    = Ok api_header /\
    parsed_in_order w team_name api_header match_numbers log frames
      (snd (main_tables w team_name log)) /\
    frames <> [] /\
    batting_table = Some (concat_frames (map fst frames)) /\
    bowling_table = Some (concat_frames (map snd frames)) /\
    frame_rows (concat_frames (map fst frames))
    = flat_map (fun frame => frame_rows (fst frame)) frames /\
    frame_rows (concat_frames (map snd frames))
    = flat_map (fun frame => frame_rows (snd frame)) frames.
Proof.
  unfold main_tables, io_bind, lift.
  destruct (get_match_ids w) as [ms | e]; [| discriminate].
  destruct ms as [| m0 ms]; [discriminate |].
  destruct (get_ias_api_header_from_match_page w m0) as [h | e] eqn:Hh;
    [| discriminate].
  destruct (io_for_each (main_loop_body w team_name h) (m0 :: ms) ([], []) log)
    as [[[bs ws] | e] log1] eqn:Hrun; [| discriminate].
  destruct (main_loop_parsed _ _ _ _ Hrun) as [frames [Hparsed Hacc]].
  cbn [fst snd app] in Hacc. injection Hacc as -> ->.
  destruct frames as [| frame frames]; [discriminate |].
  cbn [map assign_if_any read_local fst snd]. intros [= <- <-].
  exists (m0 :: ms), h, (frame :: frames).
  split; [reflexivity |]. split; [exact Hh |]. split; [exact Hparsed |].
  split; [discriminate |]. split; [reflexivity |]. split; [reflexivity |].
  change (concat_frames (fst frame :: map fst frames))
    with (concat_frames (map fst (frame :: frames))).
  change (concat_frames (snd frame :: map snd frames))
    with (concat_frames (map snd (frame :: frames))).
  rewrite !concat_frames_rows, !flat_map_concat_map, !map_map.
  split; reflexivity.
Qed.

(** X14.  An exception raised by [process_data] is not caught: when the
    matches before [match_number] have been dealt with, the fetch of
    [match_number] hands on a payload and the parser raises on it, [main]
    stops with that exception. *)
Theorem main_parse_error_escapes (before after : list string)
    (match_number : string) (api_header : option string)
    (acc : list (DataFrame Batting.t) * list (DataFrame Bowling.t))
    (data : json) (e : exn) (log log1 log2 : list request) :
  get_match_ids w = Ok (before ++ match_number :: after) ->
  get_ias_api_header_from_match_page w
    (hd EmptyString (before ++ match_number :: after)) = Ok api_header ->
  io_for_each (main_loop_body w team_name api_header) before ([], []) log
  = (Ok acc, log1) ->
  fetch_match (respond w) match_number api_header log1
  = (Ok (Some data), log2) ->
  process_data team_name data = Raise e ->
  main w team_name log = (Raise e, log2).
Proof.
  intros Hids Hh Hbefore Hfetch Hparse.
  assert (Hloop : io_for_each (main_loop_body w team_name api_header)
                    (before ++ match_number :: after) ([], []) log
                  = (Raise e, log2)).
  { rewrite io_for_each_app, Hbefore. cbn [io_for_each].
    unfold io_bind at 1. unfold main_loop_body at 1. destruct acc as [b0 w0].
    unfold io_bind at 1. rewrite Hfetch.
    unfold io_bind at 1. unfold lift at 1. rewrite Hparse. reflexivity. }
  unfold main, main_tables.
  unfold io_bind at 1 2 3 4 5. unfold lift at 1 2 3. rewrite Hids.
  destruct (before ++ match_number :: after) as [| m0 ms] eqn:Hms.
  { destruct before; discriminate Hms. }
  cbn [hd] in Hh. rewrite Hh, Hloop. reflexivity.
Qed.

End MainTables.

Lemma main_tables_bound_witness :
  exists match_numbers api_header frames,
    get_match_ids SampleWorld.world = Ok match_numbers /\
    get_ias_api_header_from_match_page SampleWorld.world
      (hd EmptyString match_numbers) = Ok api_header /\
    parsed_in_order SampleWorld.world Sample.club api_header match_numbers []
      frames (snd (main_tables SampleWorld.world Sample.club [])) /\
    frames <> [] /\
    fst (main_tables SampleWorld.world Sample.club [])
    = Ok (Some (concat_frames (map fst frames)),
          Some (concat_frames (map snd frames))) /\
    frame_rows (concat_frames (map fst frames))
    = flat_map (fun frame => frame_rows (fst frame)) frames /\
    frame_rows (concat_frames (map snd frames))
    = flat_map (fun frame => frame_rows (snd frame)) frames.
Proof.
  destruct (fst (main_tables SampleWorld.world Sample.club []))
    as [[batting_table bowling_table] | e] eqn:Hrun; [| discriminate Hrun].
  destruct (@main_tables_bound SampleWorld.world Sample.club []
              batting_table bowling_table Hrun)
    as [ms [h [frames [Hms [Hh [Hparsed [Hne [-> [-> [Hb Hw]]]]]]]]]].
  exists ms, h, frames. repeat split; assumption.
Defined.

(** The sample week: the first match is answered by the primary service,
    the second by the fallback, and the batting table holds the records of
    both in that order. *)
Example sample_week_batting_table :
  option_map (fun tables =>
                option_map (fun table => map Batting.PlayerName
                                           (frame_rows table)) (fst tables))
    (match fst (main_tables SampleWorld.world Sample.club []) with
     | Ok tables => Some tables
     | Raise _ => None
     end)
  = Some (Some [JStr "A Opener*"; JStr "Extras"; JStr "Alan Opener"]).
Proof. reflexivity. Qed.

Lemma main_parse_error_escapes_witness :
  main Edge.home_world Sample.club []
  = (Raise UnboundLocalError,
     [GetNV "7126245"; GetRVMapping "7126245" (Some "token");
      GetRVMatch (num 992) (Some "token")]%string).
Proof.
  apply (@main_parse_error_escapes Edge.home_world Sample.club
           [] [] "7126245" (Some "token"%string) ([], [])
           Sample.rv_home_payload UnboundLocalError [] []);
    reflexivity.
Defined.

(** ** A week without a batting record *)

Lemma no_columns_of_nil {R : Type} (bs : list (list R)) :
  concat bs = [] -> forallb no_columns (map DataFrame_of bs) = true.
Proof.
  induction bs as [| b bs IH]; [reflexivity |].
  cbn [concat]. intros H. apply app_eq_nil in H. destruct H as [-> H].
  cbn [map forallb DataFrame_of no_columns]. now apply IH.
Qed.

(** X15.  The batting table of a week is the concatenation of the frames
    of its parsed matches; when not one batting record was parsed in any of
    them the table has no column, and the selector stops with [KeyError]
    at its first column access, whatever the sponsors and the bowling
    table. *)
Theorem week_without_batting_record (records : list (list Batting.t)) :
  records <> [] ->
  exists batting_table,
    assign_if_any (map DataFrame_of records) = Some batting_table /\
    frame_rows batting_table = concat records /\
    (concat records = [] ->
     forall sponsors bowling_table,
       data_wrangling sponsors batting_table bowling_table = Raise KeyError).
Proof.
  intros Hne. exists (concat_frames (map DataFrame_of records)).
  split; [| split].
  - destruct records; [congruence | reflexivity].
  - rewrite concat_frames_rows, flat_map_concat_map, map_map. f_equal.
    rewrite <- (map_id records) at 2.
    apply map_ext. intros b. destruct b; reflexivity.
  - intros Hnil sponsors bowling_table. unfold concat_frames.
    now rewrite (no_columns_of_nil _ Hnil).
Qed.

Lemma week_without_batting_record_witness :
  exists batting_table,
    assign_if_any (map DataFrame_of [@nil Batting.t; []]) = Some batting_table /\
    frame_rows batting_table = concat [@nil Batting.t; []] /\
    (concat [@nil Batting.t; []] = [] ->
     forall sponsors bowling_table,
       data_wrangling sponsors batting_table bowling_table = Raise KeyError).
Proof.
  apply (@week_without_batting_record [[]; []]). discriminate.
Defined.

(** ** The names in the selector's output *)

Lemma prefix_star_head (c : ascii) (s s' : string) :
  String.prefix "*" (String c s) = String.prefix "*" (String c s').
Proof. simpl. destruct (ascii_dec "*" c); destruct s, s'; reflexivity. Qed.

Lemma remove_star (s : string) : contains "*" (remove_from 0 "*" s) = false.
Proof.
  induction s as [| c s IH]; [reflexivity |].
  cbn [remove_from]. destruct (String.prefix "*" (String c s)) eqn:E.
  - exact IH.
  - cbn [contains]. rewrite (prefix_star_head c _ s), E. exact IH.
Qed.

Lemma remove_keeps_no_star (old s : string) :
  contains "*" s = false ->
  forall skip, contains "*" (remove_from skip old s) = false.
Proof.
  induction s as [| c s IH]; intros H skip; [reflexivity |].
  cbn [contains] in H. apply orb_false_elim in H. destruct H as [Hc Hs].
  cbn [remove_from]. destruct skip as [| k]; [| now apply IH].
  destruct (String.prefix old (String c s)); [now apply IH |].
  cbn [contains]. rewrite (prefix_star_head c _ s), Hc. now apply IH.
Qed.

Lemma strip_markers_no_star (s : string) :
  contains "*" (strip_markers s) = false.
Proof.
  unfold strip_markers, str_remove, dagger.
  apply remove_keeps_no_star. apply remove_star.
Qed.

Lemma normalise_name_clean (v : json) :
  normalise_name v = JNull \/
  exists n, normalise_name v = JStr n /\ clean_name n.
Proof.
  destruct v as [| | | s | |]; try (now left). right. cbn [normalise_name].
  destruct (String.eqb_spec (strip_markers s) "T Stead") as [E | E].
  - exists "Ted Stead"%string. split; [reflexivity |].
    split; [reflexivity | discriminate].
  - exists (strip_markers s). split; [reflexivity |].
    split; [apply strip_markers_no_star | exact E].
Qed.

Lemma sort_values_in {R : Type} (k1 k2 : R -> json) (asc1 asc2 : bool)
    (rows sorted : list R) (r : R) :
  sort_values k1 k2 asc1 asc2 rows = Ok sorted -> In r sorted -> In r rows.
Proof.
  unfold sort_values.
  destruct (sortable (map k1 rows) && sortable (map k2 rows));
    [| discriminate].
  intros [= <-] Hr. exact (Permutation_in _ (stable_sort_perm _ rows) Hr).
Qed.

Lemma selected_batters_normalised (batting_df : DataFrame Batting.t)
    (sel : list Batting.t) (r : Batting.t) :
  selected_batters batting_df = Ok sel -> In r sel ->
  exists r0, Batting.PlayerName r = normalise_name (Batting.PlayerName r0).
Proof.
  unfold selected_batters, select_batters, normalise_names. intros H Hr.
  bind_named H rows Erows. bind_named H sorted Esorted.
  injection H as <-. apply in_firstn in Hr.
  apply (@sort_values_in _ _ _ _ _ _ _ r Esorted) in Hr.
  apply filter_In in Hr. destruct Hr as [Hr _].
  destruct batting_df as [| rows0]; [discriminate |].
  destruct (str_accessor_ok (map Batting.PlayerName rows0)); [| discriminate].
  injection Erows as <-. apply in_map_iff in Hr.
  destruct Hr as [r0 [<- _]]. exists r0. reflexivity.
Qed.

Lemma selected_bowlers_normalised (bowling_df : DataFrame Bowling.t)
    (sel : list Bowling.t) (r : Bowling.t) :
  selected_bowlers bowling_df = Ok sel -> In r sel ->
  exists r0, Bowling.PlayerName r = normalise_name (Bowling.PlayerName r0).
Proof.
  unfold selected_bowlers, select_bowlers, normalise_names. intros H Hr.
  bind_named H rows Erows. bind_named H sorted Esorted.
  injection H as <-. apply in_firstn in Hr.
  apply (@sort_values_in _ _ _ _ _ _ _ r Esorted) in Hr.
  apply filter_In in Hr. destruct Hr as [Hr _].
  destruct bowling_df as [| rows0]; [discriminate |].
  destruct (str_accessor_ok (map Bowling.PlayerName rows0)); [| discriminate].
  injection Erows as <-. apply in_map_iff in Hr.
  destruct Hr as [r0 [<- _]]. exists r0. reflexivity.
Qed.

(** X16.  In the output of the selector no name carries an asterisk and
    none is the short form ["T Stead"]: every batting name is such a text
    (a missing name having been filled), and every bowling name is such a
    text or is missing. *)
Theorem output_names_are_clean (sponsors : roster)
    (batting_df : DataFrame Batting.t) (bowling_df : DataFrame Bowling.t)
    (top_6_batters : list (Ranked Batting.t))
    (top_6_bowlers : list (Ranked Bowling.t)) :
  data_wrangling sponsors batting_df bowling_df
  = Ok (top_6_batters, top_6_bowlers) ->
  (forall t, In t top_6_batters ->
     exists n, Batting.PlayerName (row t) = JStr n /\ clean_name n) /\
  (forall t, In t top_6_bowlers ->
     Bowling.PlayerName (row t) = JNull \/
     exists n, Bowling.PlayerName (row t) = JStr n /\ clean_name n).
Proof.
  intros H. apply data_wrangling_inv in H.
  destruct H as [sel_b [sel_w [Hb [Hw [-> ->]]]]]. split.
  - intros t Ht. apply in_map_iff in Ht. destruct Ht as [t0 [<- Ht0]].
    apply merge_left_in in Ht0. destruct Ht0 as [Hin _].
    destruct (selected_batters_normalised _ _ Hb Hin) as [r0 Hr0].
    cbn [fillna_frame row fill_batting Batting.PlayerName]. rewrite Hr0.
    destruct (normalise_name_clean (Batting.PlayerName r0))
      as [-> | [n [-> Hn]]].
    + exists "Available To Sponsor"%string. split; [reflexivity |].
      split; [reflexivity | discriminate].
    + exists n. split; [reflexivity | exact Hn].
  - intros t Ht. apply in_map_iff in Ht. destruct Ht as [t0 [<- Ht0]].
    apply merge_left_in in Ht0. destruct Ht0 as [Hin _].
    destruct (selected_bowlers_normalised _ _ Hw Hin) as [r0 Hr0].
    cbn [fillna_sponsor row]. rewrite Hr0.
    destruct (normalise_name_clean (Bowling.PlayerName r0))
      as [-> | [n [-> Hn]]]; [now left | right].
    exists n. split; [reflexivity | exact Hn].
Qed.

Lemma output_names_are_clean_witness :
  (forall t, In t (fst SampleFrames.top_6) ->
     exists n, Batting.PlayerName (row t) = JStr n /\ clean_name n) /\
  (forall t, In t (snd SampleFrames.top_6) ->
     Bowling.PlayerName (row t) = JNull \/
     exists n, Bowling.PlayerName (row t) = JStr n /\ clean_name n).
Proof.
  apply (@output_names_are_clean (dropna SampleFrames.sponsors)
           (Frame SampleFrames.batting_rows) (Frame SampleFrames.bowling_rows)
           (fst SampleFrames.top_6) (snd SampleFrames.top_6)).
  reflexivity.
Defined.

(** ** The font of an unsponsored player *)

(** X17.  A selected player without a row in the sponsor table is drawn
    with the light font in both images: the placeholder of the batting
    table and that of the bowling table differ in one capital, and both are
    recognised by the test of the drawing loops. *)
Theorem unsponsored_players_are_drawn_light (sponsors : roster)
    (batting_df : DataFrame Batting.t) (bowling_df : DataFrame Bowling.t)
    (top_6_batters : list (Ranked Batting.t))
    (top_6_bowlers : list (Ranked Bowling.t)) (font_path : string) :
  data_wrangling sponsors batting_df bowling_df
  = Ok (top_6_batters, top_6_bowlers) ->
  exists sel_b sel_w,
    selected_batters batting_df = Ok sel_b /\
    selected_bowlers bowling_df = Ok sel_w /\
    (forall t, In t top_6_batters ->
       exists r, In r sel_b /\
         row t = fill_batting "Available To Sponsor" r /\
         ((forall e, In e sponsors ->
             key_eqb (Batting.PlayerName r) (fst e) = false) ->
          drawn_light font_path (Sponsor_Name t))) /\
    (forall t, In t top_6_bowlers ->
       In (row t) sel_w /\
       ((forall e, In e sponsors ->
           key_eqb (Bowling.PlayerName (row t)) (fst e) = false) ->
        drawn_light font_path (Sponsor_Name t))).
Proof.
  intros H. apply data_wrangling_inv in H.
  destruct H as [sel_b [sel_w [Hb [Hw [-> ->]]]]].
  exists sel_b, sel_w. split; [exact Hb |]. split; [exact Hw |]. split.
  - intros t Ht. apply in_map_iff in Ht. destruct Ht as [t0 [<- Ht0]].
    apply merge_left_in in Ht0. destruct Ht0 as [Hin Hcell].
    exists (row t0). split; [exact Hin |]. split; [reflexivity |].
    intros Hnone. destruct Hcell as [[_ Hnull] | [e [He [Hk _]]]].
    + cbn [fillna_frame Sponsor_Name]. rewrite Hnull.
      exists "Available To Sponsor"%string. split; reflexivity.
    + rewrite (Hnone e He) in Hk. discriminate Hk.
  - intros t Ht. apply in_map_iff in Ht. destruct Ht as [t0 [<- Ht0]].
    apply merge_left_in in Ht0. destruct Ht0 as [Hin Hcell].
    cbn [fillna_sponsor row Sponsor_Name]. split; [exact Hin |].
    intros Hnone. destruct Hcell as [[_ Hnull] | [e [He [Hk _]]]].
    + rewrite Hnull.
      exists "Available to Sponsor"%string. split; reflexivity.
    + rewrite (Hnone e He) in Hk. discriminate Hk.
Qed.

Lemma unsponsored_players_are_drawn_light_witness :
  exists sel_b sel_w,
    selected_batters (Frame SampleFrames.batting_rows) = Ok sel_b /\
    selected_bowlers (Frame SampleFrames.bowling_rows) = Ok sel_w /\
    (forall t, In t (fst SampleFrames.top_6) ->
       exists r, In r sel_b /\
         row t = fill_batting "Available To Sponsor" r /\
         ((forall e, In e (dropna SampleFrames.sponsors) ->
             key_eqb (Batting.PlayerName r) (fst e) = false) ->
          drawn_light "Outfit-Bold.ttf" (Sponsor_Name t))) /\
    (forall t, In t (snd SampleFrames.top_6) ->
       In (row t) sel_w /\
       ((forall e, In e (dropna SampleFrames.sponsors) ->
           key_eqb (Bowling.PlayerName (row t)) (fst e) = false) ->
        drawn_light "Outfit-Bold.ttf" (Sponsor_Name t))).
Proof.
  apply (@unsponsored_players_are_drawn_light (dropna SampleFrames.sponsors)
           (Frame SampleFrames.batting_rows) (Frame SampleFrames.bowling_rows)
           (fst SampleFrames.top_6) (snd SampleFrames.top_6)
           "Outfit-Bold.ttf").
  reflexivity.
Defined.

Example sponsor_fonts :
  sponsor_font_path "Outfit-Bold.ttf" (sponsor_name "Available To Sponsor")
  = "Outfit-Light.ttf"%string /\
  sponsor_font_path "Outfit-Bold.ttf" (sponsor_name "Available to Sponsor")
  = "Outfit-Light.ttf"%string /\
  sponsor_font_path "Outfit-Bold.ttf" (sponsor_name "Hill Top Bakery")
  = "Outfit-Bold.ttf"%string.
Proof. repeat split. Qed.

(** ** Ties keep the order of the frame *)

Section Stability.

Context {R : Type}.
Variable leb : R -> R -> bool.
Variable tie : R -> bool.

Lemma insert_row_filter (x : R) (l : list R) :
  (forall y, In y l -> tie x = true -> leb x y = false -> tie y = false) ->
  filter tie (insert_row leb x l) = filter tie (x :: l).
Proof.
  induction l as [| y l IH]; intros H; [reflexivity |].
  cbn [insert_row]. destruct (leb x y) eqn:E; [reflexivity |].
  cbn [filter]. rewrite IH by (intros z Hz; apply H; now right).
  cbn [filter]. destruct (tie x) eqn:Ex; [| reflexivity].
  now rewrite (H y (or_introl eq_refl) eq_refl E).
Qed.

Lemma stable_sort_filter (l : list R) :
  (forall x y, In x l -> In y l ->
     tie x = true -> leb x y = false -> tie y = false) ->
  filter tie (stable_sort leb l) = filter tie l.
Proof.
  induction l as [| x l IH]; intros H; [reflexivity |].
  cbn [stable_sort fold_right].
  change (fold_right (insert_row leb) [] l) with (stable_sort leb l).
  rewrite insert_row_filter.
  - cbn [filter]. rewrite IH; [reflexivity |].
    intros a b Ha Hb. apply H; now right.
  - intros y Hy. apply H; [now left | right].
    exact (Permutation_in _ (stable_sort_perm leb l) Hy).
Qed.

End Stability.

Lemma level_trans (a b c : option Q) : level a b -> level b c -> level a c.
Proof.
  destruct a, b, c; simpl; try tauto. intros H1 H2. now rewrite H1.
Qed.

Lemma key_compare_ascending_eq (a b : json) :
  is_number_or_null a = true -> is_number_or_null b = true ->
  (key_compare true a b = Eq <-> level (rank a) (rank b)).
Proof.
  intros Ha Hb.
  destruct (number_or_null_cases a Ha) as [[-> Ra] | [x [Ra Na]]];
    destruct (number_or_null_cases b Hb) as [[-> Rb] | [y [Rb Nb]]];
    unfold key_compare; simpl is_null; rewrite ?Na, ?Nb, ?Ra, ?Rb; simpl.
  - intuition congruence.
  - intuition congruence.
  - intuition congruence.
  - rewrite (cell_compare_numbers a b Ra Rb). symmetry. apply Qeq_alt.
Qed.

Lemma same_rank_level {R : Type} (k1 k2 : R -> json) (r0 r : R) :
  is_number_or_null (k1 r0) = true -> is_number_or_null (k1 r) = true ->
  is_number_or_null (k2 r0) = true -> is_number_or_null (k2 r) = true ->
  (same_rank k1 k2 r0 r = true <->
   level (rank (k1 r0)) (rank (k1 r)) /\ level (rank (k2 r0)) (rank (k2 r))).
Proof.
  intros H10 H1 H20 H2. unfold same_rank.
  destruct (key_compare_descending _ _ H10 H1) as [_ Heq1].
  pose proof (key_compare_ascending_eq _ _ H20 H2) as Heq2.
  destruct (key_compare false (k1 r0) (k1 r));
    destruct (key_compare true (k2 r0) (k2 r));
    split; intros H; try discriminate; try tauto;
    destruct H as [Ha Hb];
    try (apply Heq1 in Ha; discriminate Ha);
    try (apply Heq2 in Hb; discriminate Hb).
Qed.

(** X18.  On key columns that hold numbers or missing values
    [sort_values] returns, and rows that are level on both keys stand in
    the sorted frame in the order they had before it: for any row, the
    rows level with it are the same list before and after the sort. *)
Theorem sort_values_keeps_ties {R : Type} (k1 k2 : R -> json)
    (rows : list R) :
  forallb (fun r => is_number_or_null (k1 r) && is_number_or_null (k2 r))
    rows = true ->
  exists sorted,
    sort_values k1 k2 false true rows = Ok sorted /\
    forall r0,
      is_number_or_null (k1 r0) = true -> is_number_or_null (k2 r0) = true ->
      filter (same_rank k1 k2 r0) sorted = filter (same_rank k1 k2 r0) rows.
Proof.
  intros Hnum.
  assert (Hq : forall r, In r rows ->
                 is_number_or_null (k1 r) = true /\
                 is_number_or_null (k2 r) = true).
  { intros r Hr. rewrite forallb_forall in Hnum. now apply andb_prop, Hnum. }
  exists (stable_sort (rows_leb k1 k2 false true) rows). split.
  - unfold sort_values.
    assert (Hs : sortable (map k1 rows) && sortable (map k2 rows) = true).
    { unfold sortable. apply andb_true_intro.
      split; apply orb_true_intro; left; rewrite forallb_map;
        apply forallb_forall; intros r Hr; apply (Hq r Hr). }
    now rewrite Hs.
  - intros r0 H10 H20. apply stable_sort_filter.
    intros x y Hx Hy Htx Hleb.
    destruct (Hq x Hx) as [H1x H2x]. destruct (Hq y Hy) as [H1y H2y].
    destruct (same_rank k1 k2 r0 y) eqn:Hty; [| reflexivity].
    apply (same_rank_level k1 k2 r0 x H10 H1x H20 H2x) in Htx.
    apply (same_rank_level k1 k2 r0 y H10 H1y H20 H2y) in Hty.
    destruct Htx as [Hx1 Hx2]. destruct Hty as [Hy1 Hy2].
    assert (Hxy : rows_leb k1 k2 false true x y = true).
    { apply rows_leb_decides; try assumption. right. split.
      - eapply level_trans; [apply level_sym; exact Hx1 | exact Hy1].
      - assert (Hl : level (rank (k2 x)) (rank (k2 y)))
          by (eapply level_trans; [apply level_sym; exact Hx2 | exact Hy2]).
        destruct (rank (k2 x)), (rank (k2 y)); simpl in *; try tauto.
        rewrite Hl. apply Qle_refl. }
    congruence.
Qed.

Lemma sort_values_keeps_ties_witness :
  exists sorted,
    sort_values Batting.Runs Batting.Balls false true
      (qualifying_batters SampleFrames.batting_rows) = Ok sorted /\
    forall r0,
      is_number_or_null (Batting.Runs r0) = true ->
      is_number_or_null (Batting.Balls r0) = true ->
      filter (same_rank Batting.Runs Batting.Balls r0) sorted
      = filter (same_rank Batting.Runs Batting.Balls r0)
          (qualifying_batters SampleFrames.batting_rows).
Proof.
  apply (@sort_values_keeps_ties Batting.t Batting.Runs Batting.Balls
           (qualifying_batters SampleFrames.batting_rows)).
  reflexivity.
Defined.

(** ** The vertical positions of two entries or more *)

Lemma y_positions_spread_witness :
  exists ys,
    y_positions 6 = Ok ys /\
    length ys = 6 /\
    nth 0 ys 0%Z = start_y /\
    nth (6 - 1) ys 0%Z = end_y /\
    forall i, (S i < 6)%nat ->
      let step := ((end_y - start_y) / (Z.of_nat 6 - 1))%Z in
      (step <= nth (S i) ys 0 - nth i ys 0 <= step + 1)%Z.
Proof.
  apply (@y_positions_spread 6). lia.
Defined.

Example y_positions_six :
  y_positions 6 = Ok [374; 557; 740; 923; 1106; 1289]%Z.
Proof. reflexivity. Qed.

(** ** From the fetch to the parsers *)

Lemma fetch_match_accepts
    (respond : list request -> request -> result json)
    (match_number : string) (api_header : option string)
    (log log' : list request) (data : json) :
  fetch_match respond match_number api_header log = (Ok (Some data), log') ->
  primary_accepted data \/ fallback_accepted data.
Proof.
  unfold fetch_match, try_except, io_bind, nv_api_call, http_get_json, lift.
  assert (Hfallback : forall l,
    match
      match results_vault_api_call respond match_number api_header l with
      | (Ok a, log'0) =>
          match rv_checks a with
          | Ok a0 => (Ok (Some a0), log'0)
          | Raise e => (Raise e, log'0)
          end
      | (Raise e, log'0) => (Raise e, log'0)
      end
    with
    | (Ok a, log'0) => (Ok a, log'0)
    | (Raise _, log'0) => (Ok None, log'0)
    end = (Ok (Some data), log') ->
    primary_accepted data \/ fallback_accepted data).
  { intros l.
    destruct (results_vault_api_call respond match_number api_header l)
      as [[d | e] l1]; [| discriminate].
    destruct (rv_checks d) as [d' | e] eqn:Hchk; [| discriminate].
    intros [= <- _]. apply rv_checks_spec in Hchk.
    destruct Hchk as [-> Hacc]. now right. }
  destruct (respond log (GetNV match_number)) as [d | e];
    [| apply Hfallback].
  destruct (nv_checks d) as [d' | e] eqn:Hchk; [| apply Hfallback].
  intros [= <- _]. apply nv_checks_spec in Hchk.
  destruct Hchk as [-> Hacc]. now left.
Qed.

(** X19.  A payload that the loop of [main] hands on to [process_data] is
    always given to one of the two parsers, never to the branch that
    answers two empty frames: a primary response has passed the test for
    ["Match"], and a fallback response the test for ["MatchTeams"] (which
    sends it to the primary parser should it also hold ["Match"]). *)
Theorem fetched_payload_is_parsed
    (respond : list request -> request -> result json)
    (team_name match_number : string) (api_header : option string)
    (log log' : list request) (data : json) :
  fetch_match respond match_number api_header log = (Ok (Some data), log') ->
  (py_in "Match" data = Ok true /\
   process_data team_name data = nv_process_data team_name data) \/
  (py_in "Match" data = Ok false /\
   py_in "MatchTeams" data = Ok true /\
   process_data team_name data
   = results_vault_process_data team_name data).
Proof.
  intros H. apply fetch_match_accepts in H. unfold process_data.
  destruct H as [[d [-> [Hm _]]] | [_ Hin]].
  - left. cbn [py_in]. rewrite Hm. split; reflexivity.
  - destruct (py_in "Match" data) as [[|] |] eqn:E.
    + left. split; reflexivity.
    + right. rewrite Hin. repeat split.
    + destruct data; discriminate.
Qed.

Lemma fetched_payload_is_parsed_witness :
  (py_in "Match" Sample.rv_away_payload = Ok true /\
   process_data Sample.club Sample.rv_away_payload
   = nv_process_data Sample.club Sample.rv_away_payload) \/
  (py_in "Match" Sample.rv_away_payload = Ok false /\
   py_in "MatchTeams" Sample.rv_away_payload = Ok true /\
   process_data Sample.club Sample.rv_away_payload
   = results_vault_process_data Sample.club Sample.rv_away_payload).
Proof.
  apply (@fetched_payload_is_parsed SampleWorld.answers Sample.club
           "7126244" (Some "token"%string) []
           [GetNV "7126244"; GetRVMapping "7126244" (Some "token");
            GetRVMatch (num 991) (Some "token")]%string
           Sample.rv_away_payload).
  reflexivity.
Defined.

(** ** The figures of a batting entry *)





(** On the sample frames the sixth batter has no balls recorded. *)
Example sample_batting_figures :
  map (fun t => batting_figures (row t)) (fst SampleFrames.top_6)
  = [Ok ("80", "(55)"); Ok ("50", "(30)"); Ok ("50", "(40)");
     Ok ("45", "(30)"); Ok ("10", "(4)"); Raise TypeError]%string.
Proof. reflexivity. Qed.
